(** * zlog: assembling a zap logging pipeline from a declarative Config

    A shallow embedding of [config.go] (Config.Build, Config.UpdateLevel,
    Config.InitLogServer, CustomTimeEncoder) and of the gin request
    formatter (LogFormatter), together with the parts of the libraries they
    call: zapcore levels, level enablers, encoders, write syncers and cores,
    zap loggers and options, sync.Once, and the pieces of [time] and [fmt]
    used for rendering.

    Go values are represented as follows.
    - [int8], [int32], [int64] and [int] values are integers of [Z]; the
      conversions that can wrap are written out ([int8], [int64]).
    - A [zap.AtomicLevel] is a struct around a pointer to an atomic int32.
      The pointer is an [option positive] ([None] is the nil pointer of the
      zero value [zap.AtomicLevel{}]); the cells live in the [atomics] map of
      the [World], so that every copy of an AtomicLevel aliases one cell.
    - Effects (objects constructed, records written, goroutines started,
      listeners bound) are recorded in the [World] that every effectful
      function threads through.
    - A panic or a process exit is an explicit [result]. *)

From Stdlib Require Import ZArith String Ascii List Bool Lia DecimalString.
From stdpp Require Import base option list gmap strings.
Import ListNotations.

Local Open Scope Z_scope.

(** ** Outcomes of a Go call *)

Inductive result (A : Type) : Type :=
| Ok (a : A)
| Panicked (v : string)
| Exited (code : Z).
Arguments Ok {A} a.
Arguments Panicked {A} v.
Arguments Exited {A} code.

#[global] Instance result_ret : MRet result := fun A a => Ok a.
#[global] Instance result_bind : MBind result := fun A B k m =>
  match m with
  | Ok a => k a
  | Panicked v => Panicked v
  | Exited c => Exited c
  end.

Definition nil_dereference : string :=
  "runtime error: invalid memory address or nil pointer dereference".

(** Go integer conversions. *)
Definition int8 (z : Z) : Z := (z + 128) mod 256 - 128.
Definition int32 (z : Z) : Z := (z + 2147483648) mod 4294967296 - 2147483648.
Definition int64 (z : Z) : Z :=
  (z + 9223372036854775808) mod 18446744073709551616 - 9223372036854775808.

(** [fmt]'s rendering of an integer with the verbs [%d] and [%v]. *)
Definition fmt_int (z : Z) : string := NilZero.string_of_int (Z.to_int z).

(** ** The layout interpreter of time.Format *)

Module time_format.

(** A [time.Time] as [Format] sees it: the calendar date and the clock
    reading in the time's own location, as [t.Date()] and [t.Clock()]
    return them (the hour on the 24-hour clock), the nanoseconds within the
    second ([t.Nanosecond()]) and the zone of the location, as
    [t.Zone()] returns it: its abbreviation and its offset east of UTC in
    seconds.  Two times that differ in the last three only have the same
    date and clock reading. *)
Record Time : Type := {
  Year : Z;
  Month : Z;
  Day : Z;
  Hour : Z;
  Minute : Z;
  Second : Z;
  Nanosecond : Z;
  ZoneName : string;
  ZoneOffset : Z
}.

Fixpoint zeros (n : nat) : string :=
  match n with
  | O => ""
  | S n' => String "0" (zeros n')
  end.

(** [appendInt]: the decimal form of [x], zero-padded to [width] digits,
    after a minus sign when [x] is negative. *)
Definition appendInt (x : Z) (width : nat) : string :=
  let digits := NilZero.string_of_uint (N.to_uint (Z.to_N (Z.abs x))) in
  (if x <? 0 then "-" else "") +:+
  zeros (width - String.length digits) +:+ digits.

(** The layout chunks made of digits. *)
Inductive std :=
| stdLongYear | stdYear
| stdZeroMonth | stdNumMonth
| stdZeroDay | stdDay
| stdHour | stdZeroHour12 | stdHour12
| stdZeroMinute | stdMinute
| stdZeroSecond | stdSecond.

(** What [nextStdChunk] finds at the head of a layout: a chunk and the
    layout after it, a byte to copy, or a chunk outside this model (names
    of months and days, AM/PM, time zones, fractional seconds, day of the
    year, space padding); every byte that can start one of those is
    counted as starting one. *)
Inductive chunk :=
| Std (s : std) (suffix : string)
| Literal
| Unmodelled.

Definition chunk_at (layout : string) : chunk :=
  match layout with
  | String "0" (String "1" rest) => Std stdZeroMonth rest
  | String "0" (String "2" rest) => Std stdZeroDay rest
  | String "0" (String "3" rest) => Std stdZeroHour12 rest
  | String "0" (String "4" rest) => Std stdZeroMinute rest
  | String "0" (String "5" rest) => Std stdZeroSecond rest
  | String "0" (String "6" rest) => Std stdYear rest
  | String "0" (String "0" (String "2" _)) => Unmodelled
  | String "1" (String "5" rest) => Std stdHour rest
  | String "1" rest => Std stdNumMonth rest
  | String "2" (String "0" (String "0" (String "6" rest))) => Std stdLongYear rest
  | String "2" rest => Std stdDay rest
  | String "3" rest => Std stdHour12 rest
  | String "4" rest => Std stdMinute rest
  | String "5" rest => Std stdSecond rest
  | String "-" (String "0" (String "7" _)) => Unmodelled
  | String "J" _ | String "M" _ | String "_" _ | String "P" _ | String "p" _
  | String "Z" _ | String "." _ | String "," _ => Unmodelled
  | _ => Literal
  end.

Definition hour12 (hour : Z) : Z :=
  let hr := Z.rem hour 12 in
  if hr =? 0 then 12 else hr.

(** The text [AppendFormat] appends for a chunk. *)
Definition render (s : std) (t : Time) : string :=
  match s with
  | stdLongYear => appendInt (Year t) 4
  | stdYear => appendInt (Z.rem (Z.abs (Year t)) 100) 2
  | stdZeroMonth => appendInt (Month t) 2
  | stdNumMonth => appendInt (Month t) 0
  | stdZeroDay => appendInt (Day t) 2
  | stdDay => appendInt (Day t) 0
  | stdHour => appendInt (Hour t) 2
  | stdZeroHour12 => appendInt (hour12 (Hour t)) 2
  | stdHour12 => appendInt (hour12 (Hour t)) 0
  | stdZeroMinute => appendInt (Minute t) 2
  | stdMinute => appendInt (Minute t) 0
  | stdZeroSecond => appendInt (Second t) 2
  | stdSecond => appendInt (Second t) 0
  end.

(** The loop of [AppendFormat]; every round consumes at least one byte of
    the layout, so the length of the layout is fuel enough. *)
Fixpoint AppendFormat (fuel : nat) (t : Time) (layout : string) : option string :=
  match layout with
  | EmptyString => Some EmptyString
  | String c rest =>
      match fuel with
      | O => None
      | S fuel' =>
          match chunk_at layout with
          | Std s suffix => r ← AppendFormat fuel' t suffix; Some (render s t +:+ r)
          | Literal => r ← AppendFormat fuel' t rest; Some (String c r)
          | Unmodelled => None
          end
      end
  end.

Definition Format (t : Time) (layout : string) : option string :=
  AppendFormat (String.length layout) t layout.

End time_format.

(** ** Writers: os.Stdout, lumberjack, the zapcore wrappers, the report sink *)

(** The [*report.ReportConfig] of the report package.  [Build] reads and
    writes its [Level] field only. *)
Module report.
Record ReportConfig : Type := { Level : option positive }.
End report.

Module lumberjack.
Record Logger : Type := {
  Filename : string;
  MaxSize : Z;
  MaxAge : Z;
  MaxBackups : Z;
  LocalTime : bool;
  Compress : bool
}.
End lumberjack.

(** Every [io.Writer] that [Build] handles.  A value of this type says how
    a writer was made, constructor call by constructor call; it does not
    name the object: two writers made alike are the same value here, and
    each construction of a sink is an [EvNewSink] event of the trace. *)
Inductive Writer : Type :=
| os_Stdout
| lumberjack_Logger (l : lumberjack.Logger)
| writerWrapper (w : Writer)
| lockedWriteSyncer (ws : Writer)
| BufferedWriteSyncer (WS : Writer) (Size : Z) (FlushInterval : Z)
| ReportWriterBuffer (c : report.ReportConfig).

Module zapcore.

(** [type Level int8] *)
Definition Level : Type := Z.
Definition DebugLevel : Level := -1.
Definition InfoLevel : Level := 0.
Definition WarnLevel : Level := 1.
Definition ErrorLevel : Level := 2.
Definition DPanicLevel : Level := 3.
Definition PanicLevel : Level := 4.
Definition FatalLevel : Level := 5.

(** [func (l Level) Enabled(lvl Level) bool { return lvl >= l }] *)
Definition Level_Enabled (l lvl : Level) : bool := l <=? lvl.

(** The two implementations of the [LevelEnabler] interface that occur:
    a plain [Level] and a [zap.AtomicLevel]. *)
Inductive LevelEnabler : Type :=
| OfLevel (l : Level)
| OfAtomicLevel (p : option positive).

(** [lvl.l.Load()] followed by the conversion [Level(int8(...))]. *)
Definition AtomicLevel_Level (p : option positive) (mem : gmap positive Z)
  : result Level :=
  match p with
  | None => Panicked nil_dereference
  | Some a => Ok (int8 (default 0 (mem !! a)))
  end.

Definition Enabled (e : LevelEnabler) (mem : gmap positive Z) (lvl : Level)
  : result bool :=
  match e with
  | OfLevel l => Ok (Level_Enabled l lvl)
  | OfAtomicLevel p => l ← AtomicLevel_Level p mem; Ok (Level_Enabled l lvl)
  end.

Inductive LevelEncoder := LowercaseLevelEncoder | CapitalColorLevelEncoder.
(** A [TimeEncoder] appends a time to a primitive array encoder, which is
    the list of the strings appended to it. *)
Definition TimeEncoder : Type :=
  time_format.Time -> list string -> option (list string).
Inductive DurationEncoder := SecondsDurationEncoder.
Inductive CallerEncoder := FullCallerEncoder.

Definition DefaultLineEnding : string := String "010" EmptyString.

Record EncoderConfig : Type := {
  MessageKey : string;
  LevelKey : string;
  TimeKey : string;
  NameKey : string;
  CallerKey : string;
  StacktraceKey : string;
  LineEnding : string;
  EncodeLevel : LevelEncoder;
  EncodeTime : TimeEncoder;
  EncodeDuration : DurationEncoder;
  EncodeCaller : CallerEncoder
}.

Definition set_EncodeLevel (e : LevelEncoder) (c : EncoderConfig) : EncoderConfig :=
  {| MessageKey := MessageKey c; LevelKey := LevelKey c; TimeKey := TimeKey c;
     NameKey := NameKey c; CallerKey := CallerKey c;
     StacktraceKey := StacktraceKey c; LineEnding := LineEnding c;
     EncodeLevel := e; EncodeTime := EncodeTime c;
     EncodeDuration := EncodeDuration c; EncodeCaller := EncodeCaller c |}.

Inductive Format := JSON | Console.

(** An encoder: its format, the configuration it was created from, and the
    fields added to it by [With]. *)
Record Encoder : Type := {
  format : Format;
  config : EncoderConfig;
  context : list (string * string)
}.

Definition NewJSONEncoder (cfg : EncoderConfig) : Encoder :=
  {| format := JSON; config := cfg; context := [] |}.
Definition NewConsoleEncoder (cfg : EncoderConfig) : Encoder :=
  {| format := Console; config := cfg; context := [] |}.

(** [AddSync] wraps a writer that has no [Sync] method; of the writers
    here only [*lumberjack.Logger] has none. *)
Definition AddSync (w : Writer) : Writer :=
  match w with
  | lumberjack_Logger _ => writerWrapper w
  | _ => w
  end.

(** [Lock] returns an already locked syncer unchanged. *)
Definition Lock (ws : Writer) : Writer :=
  match ws with
  | lockedWriteSyncer _ => ws
  | _ => lockedWriteSyncer ws
  end.

(** [ioCore] *)
Record ioCore : Type := {
  enabler : LevelEnabler;
  enc : Encoder;
  out : Writer
}.

Definition NewCore (e : Encoder) (ws : Writer) (enab : LevelEnabler) : ioCore :=
  {| enabler := enab; enc := e; out := ws |}.

(** The cores [NewTee] can return.  [Build] only ever tees ioCores. *)
Inductive Core : Type :=
| nopCore
| single (c : ioCore)
| multiCore (mc : list ioCore).

Definition NewTee (cores : list ioCore) : Core :=
  match cores with
  | [] => nopCore
  | [c] => single c
  | _ => multiCore cores
  end.

Definition cores_of (c : Core) : list ioCore :=
  match c with
  | nopCore => []
  | single c => [c]
  | multiCore mc => mc
  end.

Record Entry : Type := { Entry_Level : Level; Message : string }.

Definition ioCore_Enabled (c : ioCore) (mem : gmap positive Z) (lvl : Level)
  : result bool :=
  Enabled (enabler c) mem lvl.

(** [ioCore.Check]: add the core to the checked entry when it is enabled. *)
Definition ioCore_Check (c : ioCore) (mem : gmap positive Z) (ent : Entry)
    (ce : list ioCore) : result (list ioCore) :=
  b ← ioCore_Enabled c mem (Entry_Level ent);
  Ok (if b : bool then ce ++ [c] else ce).

Fixpoint multiCore_Enabled (mc : list ioCore) (mem : gmap positive Z)
    (lvl : Level) : result bool :=
  match mc with
  | [] => Ok false
  | c :: mc' =>
      b ← ioCore_Enabled c mem lvl;
      if b : bool then Ok true else multiCore_Enabled mc' mem lvl
  end.

Fixpoint multiCore_Check (mc : list ioCore) (mem : gmap positive Z)
    (ent : Entry) (ce : list ioCore) : result (list ioCore) :=
  match mc with
  | [] => Ok ce
  | c :: mc' =>
      ce' ← ioCore_Check c mem ent ce;
      multiCore_Check mc' mem ent ce'
  end.

Definition Core_Enabled (c : Core) (mem : gmap positive Z) (lvl : Level)
  : result bool :=
  match c with
  | nopCore => Ok false
  | single c => ioCore_Enabled c mem lvl
  | multiCore mc => multiCore_Enabled mc mem lvl
  end.

Definition Core_Check (c : Core) (mem : gmap positive Z) (ent : Entry)
    (ce : list ioCore) : result (list ioCore) :=
  match c with
  | nopCore => Ok ce
  | single c => ioCore_Check c mem ent ce
  | multiCore mc => multiCore_Check mc mem ent ce
  end.

(** [ioCore.With]: a clone whose encoder has the fields added. *)
Definition ioCore_With (fields : list (string * string)) (c : ioCore) : ioCore :=
  {| enabler := enabler c;
     enc := {| format := format (enc c); config := config (enc c);
               context := context (enc c) ++ fields |};
     out := out c |}.

Definition Core_With (fields : list (string * string)) (c : Core) : Core :=
  match c with
  | nopCore => nopCore
  | single c => single (ioCore_With fields c)
  | multiCore mc => multiCore (map (ioCore_With fields) mc)
  end.

End zapcore.


(** ** The process state *)

Module sync.
(** A [sync.Once]: not yet used, inside its function, or done. *)
Inductive Once := Fresh | Running | Done.
End sync.

(** What a goroutine started by [InitLogServer] is doing: it is about to
    call [_once.Do], it is inside [http.ListenAndServe] with its listener
    bound, or it has returned. *)
Inductive Goroutine : Type :=
| AtOnceDo (port : Z) (handler : option positive)
| Serving (port : Z) (handler : option positive)
| Returned.

(** The error [http.ListenAndServe] returns when it cannot listen on an
    address: the port is not a TCP port, or the bind is refused because the
    address is in use. *)
Inductive listen_error : Type :=
| invalid_port (addr : string)
| address_in_use (addr : string).

(** What has happened in the process.  [EvGlobalError msg err] is the call
    [zap.S().Error(msg, zap.Error(err))] with its two arguments: what the
    global logger prints for them is up to the logger installed with
    [zap.ReplaceGlobals] (none by default). *)
Inductive Event : Type :=
| EvStdLog (line : string)
| EvNewSink (ws : Writer)
| EvWrite (c : zapcore.ioCore) (ent : zapcore.Entry)
| EvSync (c : zapcore.ioCore)
| EvListenFailed (addr : string)
| EvGlobalError (msg : string) (err : listen_error).

Record World : Type := {
  atomics : gmap positive Z;
  trace : list Event;
  _once : sync.Once;
  goroutines : list Goroutine;
  occupied : list Z;
  listeners : list (Z * option positive)
}.

Definition set_atomics (m : gmap positive Z) (w : World) : World :=
  {| atomics := m; trace := trace w; _once := _once w;
     goroutines := goroutines w; occupied := occupied w;
     listeners := listeners w |}.

Definition emit (evs : list Event) (w : World) : World :=
  {| atomics := atomics w; trace := trace w ++ evs; _once := _once w;
     goroutines := goroutines w; occupied := occupied w;
     listeners := listeners w |}.

Definition spawn (g : Goroutine) (w : World) : World :=
  {| atomics := atomics w; trace := trace w; _once := _once w;
     goroutines := goroutines w ++ [g]; occupied := occupied w;
     listeners := listeners w |}.

(** A fresh process: nothing allocated, nothing happened. *)
Definition initial_world : World :=
  {| atomics := ∅; trace := []; _once := sync.Fresh; goroutines := [];
     occupied := []; listeners := [] |}.

(** The expression of the source that produced a sink has been evaluated. *)
Definition new_sink (ws : Writer) (w : World) : Writer * World :=
  (ws, emit [EvNewSink ws] w).

Definition is_new_sink (e : Event) : bool :=
  match e with
  | EvNewSink _ => true
  | _ => false
  end.

Module log.
(** [log.Panicln]: print the line through the standard logger, then panic
    with it. *)
Definition Panicln {A : Type} (v : string) (w : World) : result A * World :=
  let s := v +:+ String "010" EmptyString in
  (Panicked s, emit [EvStdLog s] w).
End log.

Module zap.

Definition AtomicLevel : Type := option positive.

Definition NewAtomicLevelAt (l : zapcore.Level) (w : World) : AtomicLevel * World :=
  let a := fresh (dom (atomics w)) in
  (Some a, set_atomics (<[a := int32 l]> (atomics w)) w).

(** [lvl.l.Store(int32(l))] *)
Definition SetLevel (lvl : AtomicLevel) (l : zapcore.Level) (w : World)
  : result unit * World :=
  match lvl with
  | None => (Panicked nil_dereference, w)
  | Some a => (Ok tt, set_atomics (<[a := int32 l]> (atomics w)) w)
  end.

Definition String (key val : string) : string * string := (key, val).

Record Logger : Type := {
  core : zapcore.Core;
  addCaller : bool;
  callerSkip : Z;
  addStack : zapcore.LevelEnabler
}.

Definition New (c : zapcore.Core) : Logger :=
  {| core := c; addCaller := false; callerSkip := 0;
     addStack := zapcore.OfLevel (zapcore.FatalLevel + 1) |}.

Inductive Option : Type :=
| AddCaller
| AddCallerSkip (skip : Z)
| AddStacktrace (lvl : zapcore.LevelEnabler).

(** What each option does to the logger it is applied to. *)
Definition apply (log : Logger) (o : Option) : Logger :=
  match o with
  | AddCaller =>
      {| core := core log; addCaller := true; callerSkip := callerSkip log;
         addStack := addStack log |}
  | AddCallerSkip skip =>
      {| core := core log; addCaller := addCaller log;
         callerSkip := int64 (callerSkip log + skip); addStack := addStack log |}
  | AddStacktrace lvl =>
      {| core := core log; addCaller := addCaller log;
         callerSkip := callerSkip log; addStack := lvl |}
  end.

(** [Logger.WithOptions]: clone, then apply the options in order. *)
Definition WithOptions (log : Logger) (opts : list Option) : Logger :=
  fold_left apply opts log.

(** [Logger.With] *)
Definition With (log : Logger) (fields : list (string * string)) : Logger :=
  match fields with
  | [] => log
  | _ =>
      {| core := zapcore.Core_With fields (core log); addCaller := addCaller log;
         callerSkip := callerSkip log; addStack := addStack log |}
  end.

(** [CheckedEntry.Write]: every core of the checked entry writes the entry
    to its sink, and syncs it when the level is above error. *)
Definition write_events (ent : zapcore.Entry) (c : zapcore.ioCore) : list Event :=
  if zapcore.ErrorLevel <? zapcore.Entry_Level ent
  then [EvWrite c ent; EvSync c]
  else [EvWrite c ent].

Definition CheckedEntry_Write (cores : list zapcore.ioCore) (ent : zapcore.Entry)
    (w : World) : World :=
  emit (concat (map (write_events ent) cores)) w.

(** What happens after the write: [Logger.check] arms a panic for the panic
    level and a process exit for the fatal level. *)
Definition terminal (ent : zapcore.Entry) : result unit :=
  if zapcore.Entry_Level ent =? zapcore.PanicLevel then Panicked (zapcore.Message ent)
  else if zapcore.Entry_Level ent =? zapcore.FatalLevel then Exited 1
  else Ok tt.

(** [Logger.Log]: [log.check(lvl, msg)] followed by [ce.Write()]. *)
Definition Log (log : Logger) (lvl : zapcore.Level) (msg : string) (w : World)
  : result unit * World :=
  let ent := {| zapcore.Entry_Level := lvl; zapcore.Message := msg |} in
  let enabled :=
    if lvl <? zapcore.DPanicLevel
    then zapcore.Core_Enabled (core log) (atomics w) lvl
    else Ok true in
  match enabled with
  | Ok false => (Ok tt, w)
  | Ok true =>
      match zapcore.Core_Check (core log) (atomics w) ent [] with
      | Ok cores => (terminal ent, CheckedEntry_Write cores ent w)
      | Panicked v => (Panicked v, w)
      | Exited c => (Exited c, w)
      end
  | Panicked v => (Panicked v, w)
  | Exited c => (Exited c, w)
  end.

(** [Logger.Sugar] *)
Definition Sugar (log : Logger) : Logger :=
  {| core := core log; addCaller := addCaller log;
     callerSkip := int64 (callerSkip log + 2); addStack := addStack log |}.

(** [SugaredLogger.Infof], the message already formatted: the sugared
    logger asks the core whether the level is enabled before it formats,
    then goes through the base logger's check. *)
Definition Infof (s : Logger) (msg : string) (w : World) : result unit * World :=
  match zapcore.Core_Enabled (core s) (atomics w) zapcore.InfoLevel with
  | Ok false => (Ok tt, w)
  | Ok true => Log s zapcore.InfoLevel msg w
  | Panicked v => (Panicked v, w)
  | Exited c => (Exited c, w)
  end.

(** The requests [AtomicLevel.ServeHTTP] distinguishes: a GET, a PUT whose
    body decodes to a level or does not, any other method. *)
Inductive Request := GET | PUT (body : option zapcore.Level) | OtherMethod.
Inductive Response := Payload (l : zapcore.Level) | ErrorResponse (status : Z).

Definition ServeHTTP (lvl : AtomicLevel) (r : Request) (w : World)
  : result Response * World :=
  match r with
  | GET => (l ← zapcore.AtomicLevel_Level lvl (atomics w); Ok (Payload l), w)
  | PUT None => (Ok (ErrorResponse 400), w)
  | PUT (Some requestedLvl) =>
      let '(r, w') := SetLevel lvl requestedLvl w in
      (_ ← r; Ok (Payload requestedLvl), w')
  | OtherMethod => (Ok (ErrorResponse 405), w)
  end.

End zap.


(** ** config.go *)

Module time.
(** [time.Duration] is an int64 count of nanoseconds. *)
Definition Duration : Type := Z.
Definition Nanosecond : Duration := 1.
Definition Microsecond : Duration := 1000 * Nanosecond.
Definition Millisecond : Duration := 1000 * Microsecond.
Definition Second : Duration := 1000 * Millisecond.
Definition Minute : Duration := 60 * Second.
End time.

Definition _defaultBufferSize : Z := 256 * 1024.
Definition _defaultFlushInterval : time.Duration := 30 * time.Second.

Definition _file : string := "file".
Definition _console : string := "console".

Record Config : Type := {
  Name : string;
  Level : zap.AtomicLevel;
  Stacktrace : bool;
  AddCaller : bool;
  CallerShip : Z;
  Mode : string;
  FileName : string;
  ErrorFileName : string;
  MaxSize : Z;
  MaxAge : Z;
  MaxBackup : Z;
  Async : bool;
  Json : bool;
  Compress : bool;
  Console : bool;
  Color : bool;
  Port : Z;
  ReportConfig : option report.ReportConfig;
  options : list zap.Option
}.

(** [lc.options = append(lc.options, o)] *)
Definition append_option (o : zap.Option) (lc : Config) : Config :=
  {| Name := Name lc; Level := Level lc; Stacktrace := Stacktrace lc;
     AddCaller := AddCaller lc; CallerShip := CallerShip lc; Mode := Mode lc;
     FileName := FileName lc; ErrorFileName := ErrorFileName lc;
     MaxSize := MaxSize lc; MaxAge := MaxAge lc; MaxBackup := MaxBackup lc;
     Async := Async lc; Json := Json lc; Compress := Compress lc;
     Console := Console lc; Color := Color lc; Port := Port lc;
     ReportConfig := ReportConfig lc; options := options lc ++ [o] |}.

(** [lc.ReportConfig.Level = l] *)
Definition set_ReportConfig_Level (l : zap.AtomicLevel) (lc : Config) : Config :=
  {| Name := Name lc; Level := Level lc; Stacktrace := Stacktrace lc;
     AddCaller := AddCaller lc; CallerShip := CallerShip lc; Mode := Mode lc;
     FileName := FileName lc; ErrorFileName := ErrorFileName lc;
     MaxSize := MaxSize lc; MaxAge := MaxAge lc; MaxBackup := MaxBackup lc;
     Async := Async lc; Json := Json lc; Compress := Compress lc;
     Console := Console lc; Color := Color lc; Port := Port lc;
     ReportConfig := Some {| report.Level := l |}; options := options lc |}.

Definition UpdateLevel (lc : Config) (level : zapcore.Level) (w : World)
  : result unit * World :=
  zap.SetLevel (Level lc) level w.

(** [InitLogServer] only starts a goroutine, which will call
    [_once.Do(...)] with [lc.Level] as the HTTP handler. *)
Definition InitLogServer (lc : Config) (port : Z) (w : World) : World :=
  spawn (AtOnceDo port (Level lc)) w.

(** [enc.AppendString(t.Format("2006-01-02-15:04:05"))], the array encoder
    being the list of the strings appended to it. *)
Definition CustomTimeEncoder (t : time_format.Time) (enc : list string)
  : option (list string) :=
  s ← time_format.Format t "2006-01-02-15:04:05"; Some (enc ++ [s]).

Definition Build (lc : Config) (w : World) : result zap.Logger * Config * World :=
  if negb (String.eqb (Mode lc) _file) && negb (String.eqb (Mode lc) _console) then
    let '(r, w) := log.Panicln "mode must be console or file" w in (r, lc, w)
  else if String.eqb (Mode lc) _file && String.eqb (FileName lc) "" then
    let '(r, w) := log.Panicln "file mode, but file name is empty" w in (r, lc, w)
  else
    let encoderConfig :=
      {| zapcore.MessageKey := "msg";
         zapcore.LevelKey := "level";
         zapcore.TimeKey := "time";
         zapcore.NameKey := "logger";
         zapcore.CallerKey := "caller";
         zapcore.StacktraceKey := "stacktrace";
         zapcore.LineEnding := zapcore.DefaultLineEnding;
         zapcore.EncodeLevel := zapcore.LowercaseLevelEncoder;
         zapcore.EncodeTime := CustomTimeEncoder;
         zapcore.EncodeDuration := zapcore.SecondsDurationEncoder;
         zapcore.EncodeCaller := zapcore.FullCallerEncoder |} in
    (* the writers *)
    let '(ws, errorWs, w) :=
      if String.eqb (Mode lc) _console then
        let '(ws, w) := new_sink (zapcore.Lock os_Stdout) w in
        (ws, None, w)
      else
        let normalConfig :=
          {| lumberjack.Filename := FileName lc;
             lumberjack.MaxSize := MaxSize lc;
             lumberjack.MaxAge := MaxAge lc;
             lumberjack.MaxBackups := MaxBackup lc;
             lumberjack.LocalTime := true;
             lumberjack.Compress := Compress lc |} in
        let '(errorWs, w) :=
          if negb (String.eqb (ErrorFileName lc) "") then
            let errorConfig :=
              {| lumberjack.Filename := ErrorFileName lc;
                 lumberjack.MaxSize := MaxSize lc;
                 lumberjack.MaxAge := MaxAge lc;
                 lumberjack.MaxBackups := MaxBackup lc;
                 lumberjack.LocalTime := true;
                 lumberjack.Compress := Compress lc |} in
            let '(e, w) :=
              new_sink (zapcore.Lock (zapcore.AddSync (lumberjack_Logger errorConfig))) w in
            (Some e, w)
          else (None, w) in
        let '(ws, w) :=
          new_sink (zapcore.Lock (zapcore.AddSync (lumberjack_Logger normalConfig))) w in
        (ws, errorWs, w) in
    (* the encoder *)
    let encoderConfig :=
      if Color lc && negb (Json lc)
      then zapcore.set_EncodeLevel zapcore.CapitalColorLevelEncoder encoderConfig
      else encoderConfig in
    let encoder :=
      if Json lc
      then zapcore.NewJSONEncoder encoderConfig
      else zapcore.NewConsoleEncoder encoderConfig in
    (* asynchronous logging *)
    let '(ws, errorWs, w) :=
      if Async lc then
        let '(ws, w) :=
          new_sink (BufferedWriteSyncer ws _defaultBufferSize _defaultFlushInterval) w in
        match errorWs with
        | Some e =>
            let '(e, w) :=
              new_sink (BufferedWriteSyncer e _defaultBufferSize _defaultFlushInterval) w in
            (ws, Some e, w)
        | None => (ws, None, w)
        end
      else (ws, errorWs, w) in
    let cores := [zapcore.NewCore encoder ws (zapcore.OfAtomicLevel (Level lc))] in
    let cores :=
      match errorWs with
      | Some e =>
          let highCore := zapcore.NewCore encoder e (zapcore.OfLevel zapcore.ErrorLevel) in
          cores ++ [highCore]
      | None => cores
      end in
    (* file mode, also to the console *)
    let '(cores, w) :=
      if String.eqb (Mode lc) _file && Console lc then
        let '(out, w) := new_sink (zapcore.Lock os_Stdout) w in
        let consoleCore := zapcore.NewCore encoder out (zapcore.OfAtomicLevel (Level lc)) in
        (cores ++ [consoleCore], w)
      else (cores, w) in
    (* reporting *)
    let '(cores, lc, w) :=
      match ReportConfig lc with
      | Some rc =>
          let encoderConfig :=
            if negb (Json lc)
            then zapcore.set_EncodeLevel zapcore.LowercaseLevelEncoder encoderConfig
            else encoderConfig in
          let encoder :=
            if negb (Json lc) then zapcore.NewJSONEncoder encoderConfig else encoder in
          let '(rc, lc, w) :=
            match report.Level rc with
            | None =>
                let '(l, w) := zap.NewAtomicLevelAt zapcore.WarnLevel w in
                ({| report.Level := l |}, set_ReportConfig_Level l lc, w)
            | Some _ => (rc, lc, w)
            end in
          let '(out, w) := new_sink (ReportWriterBuffer rc) w in
          let reportCore :=
            zapcore.NewCore encoder out (zapcore.OfAtomicLevel (report.Level rc)) in
          (cores ++ [reportCore], lc, w)
      | None => (cores, lc, w)
      end in
    let core := zapcore.NewTee cores in
    let logger := zap.New core in
    (* caller information *)
    let lc :=
      if AddCaller lc then
        let lc := append_option zap.AddCaller lc in
        if negb (CallerShip lc =? 0)
        then append_option (zap.AddCallerSkip (CallerShip lc)) lc
        else lc
      else lc in
    (* stack traces *)
    let lc :=
      if Stacktrace lc
      then append_option (zap.AddStacktrace (zapcore.OfLevel zapcore.PanicLevel)) lc
      else lc in
    (* project name *)
    let logger :=
      if negb (String.eqb (Name lc) "")
      then zap.With logger [zap.String "project" (Name lc)]
      else logger in
    let logger := zap.WithOptions logger (options lc) in
    (* the HTTP server for the level *)
    if 0 <? Port lc then
      let w := InitLogServer lc (Port lc) w in
      let '(r, w) :=
        zap.Infof (zap.Sugar logger)
          ("log server init success, port:" +:+ fmt_int (Port lc)) w in
      (_ ← r; Ok logger, lc, w)
    else (Ok logger, lc, w).


(** The sinks constructed so far, in order. *)
Definition sinks_constructed (w : World) : list Event :=
  filter (fun e => is_new_sink e = true) (trace w).


(** ** The goroutine of InitLogServer *)

Module http.
(** [fmt.Sprintf("127.0.0.1:%d", p)] *)
Definition addr (port : Z) : string := "127.0.0.1:" +:+ fmt_int port.

(** The ports of TCP; on port 0 the system picks a free port. *)
Definition is_tcp_port (port : Z) : bool := (0 <=? port) && (port <=? 65535).

(** Whether [http.ListenAndServe] can listen on the port: it is a port of
    TCP, and the bind is not refused; the ports on which a bind is refused
    are the [occupied] ones. *)
Definition can_bind (port : Z) (w : World) : bool :=
  is_tcp_port port && ((port =? 0) || negb (bool_decide (port ∈ occupied w))).

(** The error it returns otherwise. *)
Definition listen_failure (port : Z) : listen_error :=
  if is_tcp_port port then address_in_use (addr port) else invalid_port (addr port).
End http.

(** One scheduling step of a goroutine
    [go func(p int32) { _once.Do(func() { if err := http.ListenAndServe(addr, lc.Level); err != nil { zap.S().Error(...) } }) }(port)].
    The first goroutine to reach [_once.Do] runs the function: either the
    listener binds and the goroutine stays inside [ListenAndServe] (the Once
    is then held for good), or it cannot listen, the error is logged through
    the global sugared logger and the Once is done.  Any other goroutine
    waits while the Once is held and returns at once when it is done. *)
Definition run_goroutine (g : Goroutine) (w : World) : Goroutine * World :=
  match g with
  | AtOnceDo p h =>
      match _once w with
      | sync.Fresh =>
          if http.can_bind p w then
            (Serving p h,
             {| atomics := atomics w; trace := trace w; _once := sync.Running;
                goroutines := goroutines w; occupied := p :: occupied w;
                listeners := listeners w ++ [(p, h)] |})
          else
            (Returned,
             {| atomics := atomics w;
                trace := trace w ++ [EvListenFailed (http.addr p);
                                     EvGlobalError "init log server start failed"
                                       (http.listen_failure p)];
                _once := sync.Done;
                goroutines := goroutines w; occupied := occupied w;
                listeners := listeners w |})
      | sync.Running => (g, w)
      | sync.Done => (Returned, w)
      end
  | Serving _ _ => (g, w)
  | Returned => (g, w)
  end.

(** The scheduler lets goroutine number [i] take its next step. *)
Definition schedule (i : nat) (w : World) : World :=
  match goroutines w !! i with
  | None => w
  | Some g =>
      let '(g', w') := run_goroutine g w in
      {| atomics := atomics w'; trace := trace w'; _once := _once w';
         goroutines := <[i := g']> (goroutines w'); occupied := occupied w';
         listeners := listeners w' |}
  end.

(** The scheduler lets the goroutines of [sched] take a step each, in that
    order. *)
Definition run_schedule (sched : list nat) (w : World) : World :=
  fold_left (fun w i => schedule i w) sched w.

(** [Build] with the other goroutines running.  Nothing orders the goroutine
    that [InitLogServer] starts after the rest of [Build]: between the [go]
    statement and the [Infof] that follows it the scheduler may let any
    goroutines take steps, those of [sched].  [Build] above is the run in
    which none does ([sched] empty). *)
Definition Build_racing (lc : Config) (sched : list nat) (w : World)
  : result zap.Logger * Config * World :=
  if negb (String.eqb (Mode lc) _file) && negb (String.eqb (Mode lc) _console) then
    let '(r, w) := log.Panicln "mode must be console or file" w in (r, lc, w)
  else if String.eqb (Mode lc) _file && String.eqb (FileName lc) "" then
    let '(r, w) := log.Panicln "file mode, but file name is empty" w in (r, lc, w)
  else
    let encoderConfig :=
      {| zapcore.MessageKey := "msg";
         zapcore.LevelKey := "level";
         zapcore.TimeKey := "time";
         zapcore.NameKey := "logger";
         zapcore.CallerKey := "caller";
         zapcore.StacktraceKey := "stacktrace";
         zapcore.LineEnding := zapcore.DefaultLineEnding;
         zapcore.EncodeLevel := zapcore.LowercaseLevelEncoder;
         zapcore.EncodeTime := CustomTimeEncoder;
         zapcore.EncodeDuration := zapcore.SecondsDurationEncoder;
         zapcore.EncodeCaller := zapcore.FullCallerEncoder |} in
    (* the writers *)
    let '(ws, errorWs, w) :=
      if String.eqb (Mode lc) _console then
        let '(ws, w) := new_sink (zapcore.Lock os_Stdout) w in
        (ws, None, w)
      else
        let normalConfig :=
          {| lumberjack.Filename := FileName lc;
             lumberjack.MaxSize := MaxSize lc;
             lumberjack.MaxAge := MaxAge lc;
             lumberjack.MaxBackups := MaxBackup lc;
             lumberjack.LocalTime := true;
             lumberjack.Compress := Compress lc |} in
        let '(errorWs, w) :=
          if negb (String.eqb (ErrorFileName lc) "") then
            let errorConfig :=
              {| lumberjack.Filename := ErrorFileName lc;
                 lumberjack.MaxSize := MaxSize lc;
                 lumberjack.MaxAge := MaxAge lc;
                 lumberjack.MaxBackups := MaxBackup lc;
                 lumberjack.LocalTime := true;
                 lumberjack.Compress := Compress lc |} in
            let '(e, w) :=
              new_sink (zapcore.Lock (zapcore.AddSync (lumberjack_Logger errorConfig))) w in
            (Some e, w)
          else (None, w) in
        let '(ws, w) :=
          new_sink (zapcore.Lock (zapcore.AddSync (lumberjack_Logger normalConfig))) w in
        (ws, errorWs, w) in
    (* the encoder *)
    let encoderConfig :=
      if Color lc && negb (Json lc)
      then zapcore.set_EncodeLevel zapcore.CapitalColorLevelEncoder encoderConfig
      else encoderConfig in
    let encoder :=
      if Json lc
      then zapcore.NewJSONEncoder encoderConfig
      else zapcore.NewConsoleEncoder encoderConfig in
    (* asynchronous logging *)
    let '(ws, errorWs, w) :=
      if Async lc then
        let '(ws, w) :=
          new_sink (BufferedWriteSyncer ws _defaultBufferSize _defaultFlushInterval) w in
        match errorWs with
        | Some e =>
            let '(e, w) :=
              new_sink (BufferedWriteSyncer e _defaultBufferSize _defaultFlushInterval) w in
            (ws, Some e, w)
        | None => (ws, None, w)
        end
      else (ws, errorWs, w) in
    let cores := [zapcore.NewCore encoder ws (zapcore.OfAtomicLevel (Level lc))] in
    let cores :=
      match errorWs with
      | Some e =>
          let highCore := zapcore.NewCore encoder e (zapcore.OfLevel zapcore.ErrorLevel) in
          cores ++ [highCore]
      | None => cores
      end in
    (* file mode, also to the console *)
    let '(cores, w) :=
      if String.eqb (Mode lc) _file && Console lc then
        let '(out, w) := new_sink (zapcore.Lock os_Stdout) w in
        let consoleCore := zapcore.NewCore encoder out (zapcore.OfAtomicLevel (Level lc)) in
        (cores ++ [consoleCore], w)
      else (cores, w) in
    (* reporting *)
    let '(cores, lc, w) :=
      match ReportConfig lc with
      | Some rc =>
          let encoderConfig :=
            if negb (Json lc)
            then zapcore.set_EncodeLevel zapcore.LowercaseLevelEncoder encoderConfig
            else encoderConfig in
          let encoder :=
            if negb (Json lc) then zapcore.NewJSONEncoder encoderConfig else encoder in
          let '(rc, lc, w) :=
            match report.Level rc with
            | None =>
                let '(l, w) := zap.NewAtomicLevelAt zapcore.WarnLevel w in
                ({| report.Level := l |}, set_ReportConfig_Level l lc, w)
            | Some _ => (rc, lc, w)
            end in
          let '(out, w) := new_sink (ReportWriterBuffer rc) w in
          let reportCore :=
            zapcore.NewCore encoder out (zapcore.OfAtomicLevel (report.Level rc)) in
          (cores ++ [reportCore], lc, w)
      | None => (cores, lc, w)
      end in
    let core := zapcore.NewTee cores in
    let logger := zap.New core in
    (* caller information *)
    let lc :=
      if AddCaller lc then
        let lc := append_option zap.AddCaller lc in
        if negb (CallerShip lc =? 0)
        then append_option (zap.AddCallerSkip (CallerShip lc)) lc
        else lc
      else lc in
    (* stack traces *)
    let lc :=
      if Stacktrace lc
      then append_option (zap.AddStacktrace (zapcore.OfLevel zapcore.PanicLevel)) lc
      else lc in
    (* project name *)
    let logger :=
      if negb (String.eqb (Name lc) "")
      then zap.With logger [zap.String "project" (Name lc)]
      else logger in
    let logger := zap.WithOptions logger (options lc) in
    (* the HTTP server for the level; the goroutines run while Build goes on *)
    if 0 <? Port lc then
      let w := InitLogServer lc (Port lc) w in
      let w := run_schedule sched w in
      let '(r, w) :=
        zap.Infof (zap.Sugar logger)
          ("log server init success, port:" +:+ fmt_int (Port lc)) w in
      (_ ← r; Ok logger, lc, w)
    else (Ok logger, lc, w).

(** What a process does, as far as the control endpoint is concerned: it
    builds loggers (the goroutines of [sched] running meanwhile), starts the
    endpoint directly, and its goroutines get scheduled. *)
Inductive Action : Type :=
| CallBuild (lc : Config) (sched : list nat)
| CallInitLogServer (lc : Config) (port : Z)
| Schedule (i : nat).

Definition perform (w : World) (a : Action) : World :=
  match a with
  | CallBuild lc sched => snd (Build_racing lc sched w)
  | CallInitLogServer lc port => InitLogServer lc port w
  | Schedule i => schedule i w
  end.

Definition run (actions : list Action) (w : World) : World :=
  fold_left perform actions w.

Definition is_listen_failed (e : Event) : bool :=
  match e with
  | EvListenFailed _ => true
  | _ => false
  end.

(** How many times [http.ListenAndServe] has been entered: the listeners
    that were bound and the binds that failed. *)
Definition bind_attempts (w : World) : nat :=
  length (listeners w) + length (filter (fun e => is_listen_failed e = true) (trace w)).

(** ** The gin request formatter *)

Module duration.

(** [func (d Duration) Truncate(m Duration) Duration]; Go's [%] is the
    remainder of the division that truncates toward zero. *)
Definition Truncate (d m : time.Duration) : time.Duration :=
  if m <=? 0 then d else d - Z.rem d m.

Definition digit (v : Z) : ascii := ascii_of_nat (48 + Z.to_nat (v mod 10)).

(** [fmtFrac]: the fraction [v / 10^prec] without its trailing zeros, with
    the decimal point unless the fraction is zero, and [v / 10^prec]. *)
Fixpoint fmtFrac (prec : nat) (v : Z) (print : bool) (buf : string) : string * Z :=
  match prec with
  | O => (if print then String "." buf else buf, v)
  | S prec' =>
      let print := print || negb (v mod 10 =? 0) in
      fmtFrac prec' (v / 10) print (if print then String (digit v) buf else buf)
  end.

Definition fmtInt (v : Z) : string := NilZero.string_of_uint (N.to_uint (Z.to_N v)).

(** [func (d Duration) String() string] *)
Definition String (d : time.Duration) : string :=
  let u := Z.abs d in
  let body :=
    if u <? time.Second then
      if u =? 0 then "0s"
      else if u <? time.Microsecond then
        let '(frac, u) := fmtFrac 0 u false "ns" in fmtInt u +:+ frac
      else if u <? time.Millisecond then
        let '(frac, u) := fmtFrac 3 u false "µs" in fmtInt u +:+ frac
      else
        let '(frac, u) := fmtFrac 6 u false "ms" in fmtInt u +:+ frac
    else
      let '(frac, u) := fmtFrac 9 u false "s" in
      let secs := fmtInt (u mod 60) +:+ frac in
      let u := u / 60 in
      if 0 <? u then
        let mins := fmtInt (u mod 60) +:+ "m" +:+ secs in
        let u := u / 60 in
        if 0 <? u then fmtInt u +:+ "h" +:+ mins else mins
      else secs in
  if d <? 0 then "-" +:+ body else body.

End duration.

Module gin.
(** The fields of [gin.LogFormatterParams] that the formatter reads. *)
Record LogFormatterParams : Type := {
  StatusCode : Z;
  Path : string;
  Method : string;
  Latency : time.Duration;
  ClientIP : string
}.
End gin.

(** [fmt.Sprintf("[GIN] statusCode:%v path:%s method:%s cost:%v clientIp:%s", ...)];
    [%v] prints a [Duration] through its [String] method. *)
Definition Sprintf_GIN (statusCode : Z) (path method : string)
    (latency : time.Duration) (clientIP : string) : string :=
  "[GIN] statusCode:" +:+ fmt_int statusCode +:+
  " path:" +:+ path +:+
  " method:" +:+ method +:+
  " cost:" +:+ duration.String latency +:+
  " clientIp:" +:+ clientIP.

Definition LogFormatter (param : gin.LogFormatterParams) : string :=
  let param :=
    if time.Minute <? gin.Latency param then
      {| gin.StatusCode := gin.StatusCode param; gin.Path := gin.Path param;
         gin.Method := gin.Method param;
         gin.Latency := duration.Truncate (gin.Latency param) time.Second;
         gin.ClientIP := gin.ClientIP param |}
    else param in
  Sprintf_GIN (gin.StatusCode param) (gin.Path param) (gin.Method param)
    (gin.Latency param) (gin.ClientIP param).


(** ** Descriptions used in the statements *)

(** The rotating file writer [Build] makes for a file name. *)
Definition rotating_file (lc : Config) (filename : string) : Writer :=
  lockedWriteSyncer (writerWrapper (lumberjack_Logger
    {| lumberjack.Filename := filename;
       lumberjack.MaxSize := MaxSize lc;
       lumberjack.MaxAge := MaxAge lc;
       lumberjack.MaxBackups := MaxBackup lc;
       lumberjack.LocalTime := true;
       lumberjack.Compress := Compress lc |})).

(** The sink of the first core before any buffering: standard output in
    console mode, the rotating file [FileName] in file mode. *)
Definition primary_destination (lc : Config) : Writer :=
  if String.eqb (Mode lc) _console
  then lockedWriteSyncer os_Stdout
  else rotating_file lc (FileName lc).

(** The encoding selected by the [json] and [color] settings. *)
Definition selected_format (lc : Config) : zapcore.Format :=
  if Json lc then zapcore.JSON else zapcore.Console.

Definition selected_level_encoder (lc : Config) : zapcore.LevelEncoder :=
  if Color lc && negb (Json lc)
  then zapcore.CapitalColorLevelEncoder
  else zapcore.LowercaseLevelEncoder.

(** Whether a core is enabled for a level right now; a nil gate enables
    nothing (reading it panics). *)
Definition enabled_now (mem : gmap positive Z) (lvl : zapcore.Level)
    (c : zapcore.ioCore) : bool :=
  match zapcore.ioCore_Enabled c mem lvl with
  | Ok b => b
  | _ => false
  end.

(** The gate of a core can be read: it is a level, or an AtomicLevel whose
    pointer is not nil. *)
Definition readable (c : zapcore.ioCore) : Prop :=
  zapcore.enabler c <> zapcore.OfAtomicLevel None.

Definition is_report_sink (ws : Writer) : bool :=
  match ws with
  | ReportWriterBuffer _ => true
  | _ => false
  end.

Definition is_buffered (ws : Writer) : bool :=
  match ws with
  | BufferedWriteSyncer _ _ _ => true
  | _ => false
  end.

(** The values of an int8 and of an int64. *)
Definition is_int8 (l : Z) : Prop := -128 <= l <= 127.
Definition is_int64 (z : Z) : Prop :=
  -9223372036854775808 <= z <= 9223372036854775807.

(** What [Build] assembles, written out: the buffering of a sink, the
    encoder configuration with a given level encoder, the selected encoder,
    the gate of the report core, and the list of cores. *)
Definition buffered (lc : Config) (ws : Writer) : Writer :=
  if Async lc
  then BufferedWriteSyncer ws _defaultBufferSize _defaultFlushInterval
  else ws.

Definition encoder_config_with (e : zapcore.LevelEncoder) : zapcore.EncoderConfig :=
  {| zapcore.MessageKey := "msg";
     zapcore.LevelKey := "level";
     zapcore.TimeKey := "time";
     zapcore.NameKey := "logger";
     zapcore.CallerKey := "caller";
     zapcore.StacktraceKey := "stacktrace";
     zapcore.LineEnding := zapcore.DefaultLineEnding;
     zapcore.EncodeLevel := e;
     zapcore.EncodeTime := CustomTimeEncoder;
     zapcore.EncodeDuration := zapcore.SecondsDurationEncoder;
     zapcore.EncodeCaller := zapcore.FullCallerEncoder |}.

Definition selected_encoder (lc : Config) : zapcore.Encoder :=
  {| zapcore.format := selected_format lc;
     zapcore.config := encoder_config_with (selected_level_encoder lc);
     zapcore.context := [] |}.

Definition report_gate (rc : report.ReportConfig) (w : World) : option positive :=
  match report.Level rc with
  | None => Some (fresh (dom (atomics w)))
  | Some a => Some a
  end.

Definition primary_core (lc : Config) : zapcore.ioCore :=
  {| zapcore.enabler := zapcore.OfAtomicLevel (Level lc);
     zapcore.enc := selected_encoder lc;
     zapcore.out := buffered lc (primary_destination lc) |}.

Definition error_core (lc : Config) : zapcore.ioCore :=
  {| zapcore.enabler := zapcore.OfLevel zapcore.ErrorLevel;
     zapcore.enc := selected_encoder lc;
     zapcore.out := buffered lc (rotating_file lc (ErrorFileName lc)) |}.

Definition console_core (lc : Config) : zapcore.ioCore :=
  {| zapcore.enabler := zapcore.OfAtomicLevel (Level lc);
     zapcore.enc := selected_encoder lc;
     zapcore.out := lockedWriteSyncer os_Stdout |}.

Definition report_core (rc : report.ReportConfig) (w : World) : zapcore.ioCore :=
  {| zapcore.enabler := zapcore.OfAtomicLevel (report_gate rc w);
     zapcore.enc :=
       {| zapcore.format := zapcore.JSON;
          zapcore.config := encoder_config_with zapcore.LowercaseLevelEncoder;
          zapcore.context := [] |};
     zapcore.out := ReportWriterBuffer {| report.Level := report_gate rc w |} |}.

Definition has_error_sink (lc : Config) : bool :=
  String.eqb (Mode lc) _file && negb (String.eqb (ErrorFileName lc) "").

Definition has_console_also (lc : Config) : bool :=
  String.eqb (Mode lc) _file && Console lc.

Definition built_cores (lc : Config) (w : World) : list zapcore.ioCore :=
  [primary_core lc]
  ++ (if has_error_sink lc then [error_core lc] else [])
  ++ (if has_console_also lc then [console_core lc] else [])
  ++ match ReportConfig lc with
     | Some rc => [report_core rc w]
     | None => []
     end.

(** The project field that [logger.With] adds to every core when the
    configuration has a name. *)
Definition with_project (lc : Config) (c : zapcore.ioCore) : zapcore.ioCore :=
  if String.eqb (Name lc) "" then c
  else zapcore.ioCore_With [zap.String "project" (Name lc)] c.

(** The receiver after the report section: a report configuration without
    a level has received a new one. *)
Definition after_report (lc : Config) (w : World) : Config :=
  match ReportConfig lc with
  | Some rc =>
      match report.Level rc with
      | None => set_ReportConfig_Level (report_gate rc w) lc
      | Some _ => lc
      end
  | None => lc
  end.

(** The options one run of [Build] appends to [lc.options]. *)
Definition new_options (lc : Config) : list zap.Option :=
  (if AddCaller lc
   then zap.AddCaller ::
        (if CallerShip lc =? 0 then [] else [zap.AddCallerSkip (CallerShip lc)])
   else [])
  ++ (if Stacktrace lc
      then [zap.AddStacktrace (zapcore.OfLevel zapcore.PanicLevel)]
      else []).

(** The end of [Build], from [zapcore.NewTee(cores...)] on, as a function of
    the cores, the receiver and the world reached before it. *)
Definition Build_tail (cores : list zapcore.ioCore) (lc : Config) (w : World)
  : result zap.Logger * Config * World :=
  let core := zapcore.NewTee cores in
  let logger := zap.New core in
  let lc :=
    if AddCaller lc then
      let lc := append_option zap.AddCaller lc in
      if negb (CallerShip lc =? 0)
      then append_option (zap.AddCallerSkip (CallerShip lc)) lc
      else lc
    else lc in
  let lc :=
    if Stacktrace lc
    then append_option (zap.AddStacktrace (zapcore.OfLevel zapcore.PanicLevel)) lc
    else lc in
  let logger :=
    if negb (String.eqb (Name lc) "")
    then zap.With logger [zap.String "project" (Name lc)]
    else logger in
  let logger := zap.WithOptions logger (options lc) in
  if 0 <? Port lc then
    let w := InitLogServer lc (Port lc) w in
    let '(r, w) :=
      zap.Infof (zap.Sugar logger)
        ("log server init success, port:" +:+ fmt_int (Port lc)) w in
    (_ ← r; Ok logger, lc, w)
  else (Ok logger, lc, w).

(** The same with the goroutines of [sched] running after the [go]
    statement. *)
Definition Build_tail_racing (cores : list zapcore.ioCore) (lc : Config)
    (sched : list nat) (w : World) : result zap.Logger * Config * World :=
  let core := zapcore.NewTee cores in
  let logger := zap.New core in
  let lc :=
    if AddCaller lc then
      let lc := append_option zap.AddCaller lc in
      if negb (CallerShip lc =? 0)
      then append_option (zap.AddCallerSkip (CallerShip lc)) lc
      else lc
    else lc in
  let lc :=
    if Stacktrace lc
    then append_option (zap.AddStacktrace (zapcore.OfLevel zapcore.PanicLevel)) lc
    else lc in
  let logger :=
    if negb (String.eqb (Name lc) "")
    then zap.With logger [zap.String "project" (Name lc)]
    else logger in
  let logger := zap.WithOptions logger (options lc) in
  if 0 <? Port lc then
    let w := InitLogServer lc (Port lc) w in
    let w := run_schedule sched w in
    let '(r, w) :=
      zap.Infof (zap.Sugar logger)
        ("log server init success, port:" +:+ fmt_int (Port lc)) w in
    (_ ← r; Ok logger, lc, w)
  else (Ok logger, lc, w).

(** The receiver with another options slice. *)
Definition set_options (opts : list zap.Option) (lc : Config) : Config :=
  {| Name := Name lc; Level := Level lc; Stacktrace := Stacktrace lc;
     AddCaller := AddCaller lc; CallerShip := CallerShip lc; Mode := Mode lc;
     FileName := FileName lc; ErrorFileName := ErrorFileName lc;
     MaxSize := MaxSize lc; MaxAge := MaxAge lc; MaxBackup := MaxBackup lc;
     Async := Async lc; Json := Json lc; Compress := Compress lc;
     Console := Console lc; Color := Color lc; Port := Port lc;
     ReportConfig := ReportConfig lc; options := opts |}.

(** The logger before the options are applied. *)
Definition bare_logger (lc : Config) (cores : list zapcore.ioCore) : zap.Logger :=
  if negb (String.eqb (Name lc) "")
  then zap.With (zap.New (zapcore.NewTee cores)) [zap.String "project" (Name lc)]
  else zap.New (zapcore.NewTee cores).

(** The caller-skip depth after a list of options, from a starting depth. *)
Definition skip_after (start : Z) (opts : list zap.Option) : Z :=
  fold_left (fun s o =>
               match o with
               | zap.AddCallerSkip k => int64 (s + k)
               | _ => s
               end) opts start.

(** A configuration that passes the two checks at the head of [Build]. *)
Definition valid_mode (lc : Config) : Prop :=
  Mode lc = _console \/ (Mode lc = _file /\ FileName lc <> "").

(** The parts of the process state that concern the control endpoint are
    the same in two worlds. *)
Definition same_endpoint (w w' : World) : Prop :=
  _once w' = _once w /\ listeners w' = listeners w /\ occupied w' = occupied w /\
  filter (fun e => is_listen_failed e = true) (trace w') =
  filter (fun e => is_listen_failed e = true) (trace w).

(** The value of the gate at address [a]: what [AtomicLevel.Level] reads. *)
Definition gate_value (mem : gmap positive Z) (a : positive) : zapcore.Level :=
  int8 (default 0 (mem !! a)).

(** Between the worlds [w] and [w'] the core [c] has written the entry
    [ent] to its sink. *)
Definition delivered (c : zapcore.ioCore) (ent : zapcore.Entry) (w w' : World)
  : Prop :=
  exists evs, trace w' = trace w ++ evs /\ EvWrite c ent ∈ evs.

(** The memory after the report section of [Build]. *)
Definition atomics_after_report (lc : Config) (w : World) : gmap positive Z :=
  match ReportConfig lc with
  | Some rc =>
      match report.Level rc with
      | None => <[fresh (dom (atomics w)) := int32 zapcore.WarnLevel]> (atomics w)
      | Some _ => atomics w
      end
  | None => atomics w
  end.

(** The logger and the receiver that a successful [Build] leaves. *)
Definition built_logger (lc : Config) (w : World) : zap.Logger :=
  zap.WithOptions (bare_logger lc (built_cores lc w)) (options lc ++ new_options lc).

Definition built_config (lc : Config) (w : World) : Config :=
  set_options (options lc ++ new_options lc) (after_report lc w).

(** The endpoint has been started at most once: no bind was attempted
    while the Once is fresh, exactly one after that. *)
Definition started_at_most_once (w : World) : Prop :=
  match _once w with
  | sync.Fresh => bind_attempts w = 0%nat
  | _ => bind_attempts w = 1%nat
  end.

(** A time of the civil calendar with a four-digit year. *)
Definition civil (t : time_format.Time) : Prop :=
  0 <= time_format.Year t <= 9999 /\
  1 <= time_format.Month t <= 12 /\
  1 <= time_format.Day t <= 31 /\
  0 <= time_format.Hour t <= 23 /\
  0 <= time_format.Minute t <= 59 /\
  0 <= time_format.Second t <= 59.

(** The decimal digit of the units of [d], as a character. *)
Definition decimal_digit (d : Z) : ascii :=
  match d mod 10 with
  | 0 => "0" | 1 => "1" | 2 => "2" | 3 => "3" | 4 => "4"
  | 5 => "5" | 6 => "6" | 7 => "7" | 8 => "8" | _ => "9"
  end%char.

(** Two and four decimal digits, most significant first. *)
Definition two_digits (x : Z) (rest : string) : string :=
  String (decimal_digit (x / 10)) (String (decimal_digit x) rest).

Definition four_digits (x : Z) (rest : string) : string :=
  String (decimal_digit (x / 1000)) (String (decimal_digit (x / 100))
    (two_digits x rest)).

(** The pattern YYYY-MM-DD-hh:mm:ss spelled out, character by character:
    four digits of the year, two of the month, the day, the hour of the
    24-hour clock, the minute and the second, with "-" after the year, the
    month and the day and ":" after the hour and the minute.  Nineteen
    characters whatever the time. *)
Definition pattern_YYYY_MM_DD_hh_mm_ss (t : time_format.Time) : string :=
  four_digits (time_format.Year t) (String "-"
    (two_digits (time_format.Month t) (String "-"
      (two_digits (time_format.Day t) (String "-"
        (two_digits (time_format.Hour t) (String ":"
          (two_digits (time_format.Minute t) (String ":"
            (two_digits (time_format.Second t) "")))))))))).

(** The date and the clock reading of a time. *)
Definition date_and_clock (t : time_format.Time) : Z * Z * Z * Z * Z * Z :=
  (time_format.Year t, time_format.Month t, time_format.Day t,
   time_format.Hour t, time_format.Minute t, time_format.Second t).

(** One step of the process as the endpoint sees it: nothing changes, or
    the fresh Once is used up and ListenAndServe is entered. *)
Definition endpoint_step (w w' : World) : Prop :=
  same_endpoint w w' \/
  (_once w = sync.Fresh /\ _once w' <> sync.Fresh /\
   bind_attempts w' = S (bind_attempts w)).

(** ** Configurations used as examples *)

Definition bad_mode_config : Config :=
  {| Name := "svc"; Level := Some 1%positive; Stacktrace := true;
     AddCaller := true; CallerShip := 3; Mode := "syslog";
     FileName := "app.log"; ErrorFileName := "err.log";
     MaxSize := 10; MaxAge := 7; MaxBackup := 3; Async := true; Json := false;
     Compress := false; Console := true; Color := true; Port := 8080;
     ReportConfig := Some {| report.Level := None |}; options := [] |}.


Definition no_file_name_config : Config :=
  {| Name := "svc"; Level := Some 1%positive; Stacktrace := true;
     AddCaller := true; CallerShip := 3; Mode := "file";
     FileName := ""; ErrorFileName := "err.log";
     MaxSize := 10; MaxAge := 7; MaxBackup := 3; Async := true; Json := false;
     Compress := false; Console := true; Color := true; Port := 8080;
     ReportConfig := Some {| report.Level := None |}; options := [] |}.


Definition console_config : Config :=
  {| Name := "svc"; Level := Some 1%positive; Stacktrace := true;
     AddCaller := true; CallerShip := 3; Mode := "console";
     FileName := ""; ErrorFileName := "";
     MaxSize := 0; MaxAge := 0; MaxBackup := 0; Async := false; Json := false;
     Compress := false; Console := false; Color := true; Port := 0;
     ReportConfig := None; options := [] |}.

Definition file_config : Config :=
  {| Name := "svc"; Level := Some 1%positive; Stacktrace := true;
     AddCaller := true; CallerShip := 3; Mode := "file";
     FileName := "app.log"; ErrorFileName := "err.log";
     MaxSize := 10; MaxAge := 7; MaxBackup := 3; Async := true; Json := false;
     Compress := true; Console := true; Color := true; Port := 0;
     ReportConfig := Some {| report.Level := None |}; options := [] |}.

(** A process in which the gate at address 1 holds "warning". *)
Definition warn_world : World :=
  {| atomics := {[ 1%positive := 1 ]}; trace := []; _once := sync.Fresh;
     goroutines := []; occupied := []; listeners := [] |}.

Definition server_config (port : Z) : Config :=
  {| Name := ""; Level := Some 1%positive; Stacktrace := false;
     AddCaller := false; CallerShip := 0; Mode := "console";
     FileName := ""; ErrorFileName := "";
     MaxSize := 0; MaxAge := 0; MaxBackup := 0; Async := false; Json := true;
     Compress := false; Console := false; Color := false; Port := port;
     ReportConfig := None; options := [] |}.

(** A process whose port 8080 is taken by someone else and in which one
    goroutine of InitLogServer waits to be scheduled. *)
Definition busy_port_world : World :=
  {| atomics := {[ 1%positive := 1 ]}; trace := []; _once := sync.Fresh;
     goroutines := [AtOnceDo 8080 (Some 1%positive)]; occupied := [8080];
     listeners := [] |}.

(** What [Build] returns for the examples. *)
Definition file_logger : zap.Logger := built_logger file_config warn_world.
Definition file_config_built : Config := built_config file_config warn_world.
Definition file_world_built : World := snd (Build file_config warn_world).

Definition console_logger : zap.Logger := built_logger console_config warn_world.
Definition console_config_built : Config := built_config console_config warn_world.
Definition console_world_built : World := snd (Build console_config warn_world).
Definition console_logger_rebuilt : zap.Logger :=
  built_logger console_config_built console_world_built.
Definition console_config_rebuilt : Config :=
  built_config console_config_built console_world_built.

(** Three starts of the endpoint, the goroutines scheduled out of order. *)
Definition racing_actions : list Action :=
  [CallBuild (server_config 8080) []; CallBuild (server_config 8081) [1%nat];
   Schedule 1; Schedule 0; CallInitLogServer (server_config 8082) 8082;
   Schedule 2].

(** A process whose endpoint is already serving. *)
Definition started_world : World :=
  run [CallBuild (server_config 8080) []; Schedule 0] warn_world.

Definition second_wins_world : World :=
  run [CallBuild (server_config 8080) []; CallBuild (server_config 8081) [];
       Schedule 1; Schedule 0] warn_world.

(** The same process without the second Build. *)
Definition first_only_world : World :=
  run [CallBuild (server_config 8080) []; Schedule 1; Schedule 0] warn_world.

(** A process whose one goroutine of InitLogServer was given a number that
    is not a port. *)
Definition no_such_port_world : World :=
  {| atomics := {[ 1%positive := 1 ]}; trace := []; _once := sync.Fresh;
     goroutines := [AtOnceDo 70000 (Some 1%positive)]; occupied := [];
     listeners := [] |}.

(** Times used as examples. *)
Definition afternoon : time_format.Time :=
  {| time_format.Year := 2024; time_format.Month := 3; time_format.Day := 7;
     time_format.Hour := 15; time_format.Minute := 4; time_format.Second := 5;
     time_format.Nanosecond := 0; time_format.ZoneName := "UTC";
     time_format.ZoneOffset := 0 |}.

Definition afternoon_elsewhere : time_format.Time :=
  {| time_format.Year := 2024; time_format.Month := 3; time_format.Day := 7;
     time_format.Hour := 15; time_format.Minute := 4; time_format.Second := 5;
     time_format.Nanosecond := 999999999; time_format.ZoneName := "CET";
     time_format.ZoneOffset := 3600 |}.

Definition night : time_format.Time :=
  {| time_format.Year := 2024; time_format.Month := 3; time_format.Day := 7;
     time_format.Hour := 3; time_format.Minute := 4; time_format.Second := 5;
     time_format.Nanosecond := 0; time_format.ZoneName := "UTC";
     time_format.ZoneOffset := 0 |}.

Definition far_future : time_format.Time :=
  {| time_format.Year := 12345; time_format.Month := 3; time_format.Day := 7;
     time_format.Hour := 15; time_format.Minute := 4; time_format.Second := 5;
     time_format.Nanosecond := 0; time_format.ZoneName := "UTC";
     time_format.ZoneOffset := 0 |}.

Definition before_year_zero : time_format.Time :=
  {| time_format.Year := -1; time_format.Month := 3; time_format.Day := 7;
     time_format.Hour := 15; time_format.Minute := 4; time_format.Second := 5;
     time_format.Nanosecond := 0; time_format.ZoneName := "UTC";
     time_format.ZoneOffset := 0 |}.

(** Requests used as examples. *)
Definition slow_request : gin.LogFormatterParams :=
  {| gin.StatusCode := 200; gin.Path := "/ping"; gin.Method := "GET";
     gin.Latency := 75 * time.Second; gin.ClientIP := "10.0.0.7" |}.

Definition quick_request : gin.LogFormatterParams :=
  {| gin.StatusCode := 200; gin.Path := "/ping"; gin.Method := "GET";
     gin.Latency := 45 * time.Second + 500 * time.Millisecond;
     gin.ClientIP := "10.0.0.7" |}.

(** ** logx.go: the go-zero writer over a zap logger *)

Module fmt.
(** The operands that reach [fmt.Sprint] here, and what it prints for one
    operand. *)
Inductive Value : Type :=
| VString (s : string)
| VInt (z : Z)
| VBool (b : bool)
| VError (msg : string)
| VNil.

Definition Sprint (v : Value) : string :=
  match v with
  | VString s => s
  | VInt z => fmt_int z
  | VBool true => "true"
  | VBool false => "false"
  | VError msg => msg
  | VNil => "<nil>"
  end.
End fmt.

Module logx.
Record LogField : Type := { Key : string; Value : fmt.Value }.
End logx.

(** The zap fields the writer makes: [zap.Any(key, value)] and
    [zap.Stack(key)]. *)
Inductive zap_Field : Type :=
| zap_Any (key : string) (value : fmt.Value)
| zap_Stack (key : string).

Definition zap_Field_key (f : zap_Field) : string :=
  match f with
  | zap_Any key _ => key
  | zap_Stack key => key
  end.

(** [Logger.Debug], [Info], [Warn], [Error] and [Panic] with fields: the
    check and the writes are those of [zap.Log]; the fields are handed to
    every writing core together with the entry, and the write event names
    the entry. *)
Definition Logger_log (log : zap.Logger) (lvl : zapcore.Level) (msg : string)
    (fields : list zap_Field) (w : World) : result unit * World :=
  zap.Log log lvl msg w.

(** [Logger.Sync]: every core syncs its sink. *)
Definition Logger_Sync (log : zap.Logger) (w : World) : result unit * World :=
  (Ok tt, emit (map EvSync (zapcore.cores_of (zap.core log))) w).

Record ZapWriter : Type := { ZapWriter_logger : zap.Logger }.

Definition NewZapWriter (logger : zap.Logger) : ZapWriter :=
  {| ZapWriter_logger := logger |}.

(** The loop of [toZapFields]: one [zap.Any] appended per field. *)
Definition toZapFields (fields : list logx.LogField) : list zap_Field :=
  fold_left (fun zapFields f => zapFields ++ [zap_Any (logx.Key f) (logx.Value f)])
    fields [].

Definition ZapWriter_Alert (zw : ZapWriter) (v : fmt.Value) (w : World)
  : result unit * World :=
  Logger_log (ZapWriter_logger zw) zapcore.ErrorLevel (fmt.Sprint v) [] w.

Definition ZapWriter_Close (zw : ZapWriter) (w : World) : result unit * World :=
  Logger_Sync (ZapWriter_logger zw) w.

Definition ZapWriter_Debug (zw : ZapWriter) (v : fmt.Value)
    (fields : list logx.LogField) (w : World) : result unit * World :=
  Logger_log (ZapWriter_logger zw) zapcore.DebugLevel (fmt.Sprint v)
    (toZapFields fields) w.

Definition ZapWriter_Error (zw : ZapWriter) (v : fmt.Value)
    (fields : list logx.LogField) (w : World) : result unit * World :=
  Logger_log (ZapWriter_logger zw) zapcore.ErrorLevel (fmt.Sprint v)
    (toZapFields fields) w.

Definition ZapWriter_Info (zw : ZapWriter) (v : fmt.Value)
    (fields : list logx.LogField) (w : World) : result unit * World :=
  Logger_log (ZapWriter_logger zw) zapcore.InfoLevel (fmt.Sprint v)
    (toZapFields fields) w.

Definition ZapWriter_Severe (zw : ZapWriter) (v : fmt.Value) (w : World)
  : result unit * World :=
  Logger_log (ZapWriter_logger zw) zapcore.PanicLevel (fmt.Sprint v) [] w.

Definition ZapWriter_Slow (zw : ZapWriter) (v : fmt.Value)
    (fields : list logx.LogField) (w : World) : result unit * World :=
  Logger_log (ZapWriter_logger zw) zapcore.WarnLevel (fmt.Sprint v)
    (toZapFields fields) w.

Definition ZapWriter_Stack (zw : ZapWriter) (v : fmt.Value) (w : World)
  : result unit * World :=
  Logger_log (ZapWriter_logger zw) zapcore.ErrorLevel (fmt.Sprint v)
    [zap_Stack "stack"] w.

Definition ZapWriter_Stat (zw : ZapWriter) (v : fmt.Value)
    (fields : list logx.LogField) (w : World) : result unit * World :=
  Logger_log (ZapWriter_logger zw) zapcore.InfoLevel (fmt.Sprint v)
    (toZapFields fields) w.

(** ** redis.go: the logger of the redis client *)

Record redisLogger : Type := { redisLogger_logger : zap.Logger }.

Section redis.
(** [DefaultLogger] and [RedisModuleKey] are declared in a file of the
    package that is not among the sources. *)
Variable DefaultLogger : zap.Logger.
Variable RedisModuleKey : string.

(** The value [init] gives to [RedisLogger]. *)
Definition RedisLogger : redisLogger :=
  {| redisLogger_logger :=
       zap.Sugar (zap.With DefaultLogger [zap.String "module" RedisModuleKey]) |}.

(** [Printf], its message already formatted; the context is not used. *)
Definition redisLogger_Printf (rl : redisLogger) (msg : string) (w : World)
  : result unit * World :=
  zap.Infof (redisLogger_logger rl) msg w.

Definition redisLogger_Update (rl : redisLogger) (logger : list zap.Logger)
  : redisLogger :=
  match logger with
  | [] =>
      {| redisLogger_logger :=
           zap.Sugar (zap.With DefaultLogger [zap.String "module" RedisModuleKey]) |}
  | l :: _ => {| redisLogger_logger := zap.Sugar l |}
  end.
End redis.

(** ** StringToLogLevelHookFunc *)

Module reflect.
Inductive Kind := Bool | Int | Float64 | Map | Slice | String | Struct.
Definition Kind_eqb (a b : Kind) : bool :=
  match a, b with
  | Bool, Bool | Int, Int | Float64, Float64 | Map, Map | Slice, Slice
  | String, String | Struct, Struct => true
  | _, _ => false
  end.
(** A [reflect.Type], as far as the hook looks at it. *)
Record Type_ : Type := { Name : string; Kind_of : Kind }.
End reflect.

(** The values a decode hook is given and returns: a [string], a value of a
    defined type whose underlying type is string, other values, and the
    [zap.AtomicLevel] the hook makes. *)
Inductive Data : Type :=
| DataString (s : string)
| DataDefinedString (type_name : string) (s : string)
| DataInt (z : Z)
| DataBool (b : bool)
| DataAtomicLevel (l : zap.AtomicLevel).

Definition Data_type_name (d : Data) : string :=
  match d with
  | DataString _ => "string"
  | DataDefinedString n _ => n
  | DataInt _ => "int"
  | DataBool _ => "bool"
  | DataAtomicLevel _ => "zap.AtomicLevel"
  end.

(** The error of [zapcore.ParseLevel] for a text that names no level. *)
Inductive error : Type := unrecognized_level (text : string).

Section decode_hook.
(** [zapcore.ParseLevel]: the level a text names, if it names one. *)
Variable ParseLevel : string -> option zapcore.Level.

(** [zap.ParseAtomicLevel]: a new AtomicLevel (at "info") is made first,
    then the text is parsed; the AtomicLevel is returned in both cases, with
    the error when the text names no level. *)
Definition ParseAtomicLevel (text : string) (w : World)
  : (zap.AtomicLevel * option error) * World :=
  let '(a, w) := zap.NewAtomicLevelAt zapcore.InfoLevel w in
  match ParseLevel text with
  | None => ((a, Some (unrecognized_level text)), w)
  | Some l =>
      let '(_, w) := zap.SetLevel a l w in
      ((a, None), w)
  end.

(** The function [StringToLogLevelHookFunc] returns: the data to decode
    and the error. *)
Definition StringToLogLevelHookFunc (f t : reflect.Type_) (data : Data)
    (w : World) : result (Data * option error) * World :=
  if negb (reflect.Kind_eqb (reflect.Kind_of f) reflect.String) then
    (Ok (data, None), w)
  else
    match data with
    | DataString s =>
        let '((atomicLevel, err), w) := ParseAtomicLevel s w in
        match err with
        | Some _ => (Ok (data, None), w)
        | None => (Ok (DataAtomicLevel atomicLevel, None), w)
        end
    | _ =>
        (Panicked ("interface conversion: interface {} is " +:+
                   Data_type_name data +:+ ", not string"), w)
    end.
End decode_hook.

(** The lowercase names of the levels, which [zapcore.ParseLevel] accepts. *)
Definition lowercase_level (text : string) : option zapcore.Level :=
  if String.eqb text "debug" then Some zapcore.DebugLevel
  else if String.eqb text "info" then Some zapcore.InfoLevel
  else if String.eqb text "warn" then Some zapcore.WarnLevel
  else if String.eqb text "error" then Some zapcore.ErrorLevel
  else if String.eqb text "dpanic" then Some zapcore.DPanicLevel
  else if String.eqb text "panic" then Some zapcore.PanicLevel
  else if String.eqb text "fatal" then Some zapcore.FatalLevel
  else None.

(** ** Descriptions used for the whole of Build *)

(** The sinks [Build] constructs, in the order in which it constructs
    them. *)
Definition constructed_sinks (lc : Config) (w : World) : list Writer :=
  (if String.eqb (Mode lc) _console
   then [lockedWriteSyncer os_Stdout]
   else (if negb (String.eqb (ErrorFileName lc) "")
         then [rotating_file lc (ErrorFileName lc)]
         else [])
        ++ [rotating_file lc (FileName lc)])
  ++ (if Async lc
      then [BufferedWriteSyncer (primary_destination lc)
              _defaultBufferSize _defaultFlushInterval]
           ++ (if has_error_sink lc
               then [BufferedWriteSyncer (rotating_file lc (ErrorFileName lc))
                       _defaultBufferSize _defaultFlushInterval]
               else [])
      else [])
  ++ (if has_console_also lc then [lockedWriteSyncer os_Stdout] else [])
  ++ match ReportConfig lc with
     | Some rc => [ReportWriterBuffer {| report.Level := report_gate rc w |}]
     | None => []
     end.

(** The message [Build] logs after it has started the goroutine of the
    control endpoint. *)
Definition server_message (lc : Config) : string :=
  "log server init success, port:" +:+ fmt_int (Port lc).

(** A writer that reaches a rotating file. *)
Fixpoint writes_file (ws : Writer) : bool :=
  match ws with
  | os_Stdout => false
  | lumberjack_Logger _ => true
  | writerWrapper w => writes_file w
  | lockedWriteSyncer w => writes_file w
  | BufferedWriteSyncer w _ _ => writes_file w
  | ReportWriterBuffer _ => false
  end.

Definition is_write_or_sync (e : Event) : bool :=
  match e with
  | EvWrite _ _ | EvSync _ => true
  | _ => false
  end.

(** A console configuration without a level and with a port. *)
Definition no_level_config : Config :=
  {| Name := ""; Level := None; Stacktrace := true;
     AddCaller := true; CallerShip := 3; Mode := "console";
     FileName := ""; ErrorFileName := "";
     MaxSize := 0; MaxAge := 0; MaxBackup := 0; Async := false; Json := false;
     Compress := false; Console := false; Color := true; Port := 8080;
     ReportConfig := None; options := [] |}.

(** The same without a port. *)
Definition no_level_no_port_config : Config :=
  {| Name := ""; Level := None; Stacktrace := true;
     AddCaller := true; CallerShip := 3; Mode := "console";
     FileName := ""; ErrorFileName := "";
     MaxSize := 0; MaxAge := 0; MaxBackup := 0; Async := false; Json := false;
     Compress := false; Console := false; Color := true; Port := 0;
     ReportConfig := None; options := [] |}.

(** A console configuration that names files all the same. *)
Definition console_with_files_config : Config :=
  {| Name := "svc"; Level := Some 1%positive; Stacktrace := true;
     AddCaller := true; CallerShip := 3; Mode := "console";
     FileName := "app.log"; ErrorFileName := "err.log";
     MaxSize := 10; MaxAge := 7; MaxBackup := 3; Async := true; Json := false;
     Compress := true; Console := true; Color := true; Port := 0;
     ReportConfig := None; options := [] |}.

(** ** Reading a timestamp back *)

Definition digit_value (c : ascii) : Z := Z.of_nat (nat_of_ascii c) - 48.

Definition read2 (a b : ascii) : Z := 10 * digit_value a + digit_value b.

Definition read4 (a b c d : ascii) : Z :=
  1000 * digit_value a + 100 * digit_value b + 10 * digit_value c + digit_value d.

(** The date and the clock reading at the places the pattern
    YYYY-MM-DD-hh:mm:ss gives them. *)
Definition read_pattern (s : string) : option (Z * Z * Z * Z * Z * Z) :=
  match s with
  | String y3 (String y2 (String y1 (String y0 (String _
    (String m1 (String m0 (String _
    (String d1 (String d0 (String _
    (String h1 (String h0 (String _
    (String n1 (String n0 (String _
    (String s1 (String s0 EmptyString)))))))))))))))))) =>
      Some (read4 y3 y2 y1 y0, read2 m1 m0, read2 d1 d0,
            read2 h1 h0, read2 n1 n0, read2 s1 s0)
  | _ => None
  end.

(** ** The cost of a request above one minute *)

(** Hours (when there are any), minutes and seconds of a count of
    seconds, as Go writes a duration. *)
Definition hours_minutes_seconds (k : Z) : string :=
  let mins :=
    duration.fmtInt (k / 60 mod 60) +:+ "m" +:+ duration.fmtInt (k mod 60) +:+ "s" in
  if 0 <? k / 3600 then duration.fmtInt (k / 3600) +:+ "h" +:+ mins else mins.

(** ** Descriptions used for the goroutines and the request line *)

(** What a goroutine of InitLogServer adds to the trace. *)
Definition is_listen_event (e : Event) : bool :=
  match e with
  | EvListenFailed _ | EvGlobalError _ _ => true
  | _ => false
  end.

(** ** The cost of a request below one minute *)

(** The [n] low decimal digits of [v], most significant first, in front of
    [rest]. *)
Fixpoint low_digits (n : nat) (v : Z) (rest : string) : string :=
  match n with
  | O => rest
  | S n' => low_digits n' (v / 10) (String (decimal_digit v) rest)
  end.

(** A string of digits without the zeros at its end. *)
Fixpoint without_trailing_zeros (s : string) : string :=
  match s with
  | EmptyString => EmptyString
  | String c s' =>
      match without_trailing_zeros s' with
      | EmptyString => if Ascii.eqb c "0" then EmptyString else String c EmptyString
      | String c' r => String c (String c' r)
      end
  end.

(** The fraction of a second of a count of nanoseconds, as Go writes it:
    nothing when there is none, else the decimal point and the nine digits
    of the nanoseconds without the zeros at their end. *)
Definition fraction_of_second (ns : Z) : string :=
  match without_trailing_zeros (low_digits 9 ns "") with
  | EmptyString => ""
  | String c r => String "." (String c r)
  end.

(** * Properties *)

(** ** Fatal configuration errors *)

Lemma sinks_constructed_emit (evs : list Event) (w : World) :
  Forall (fun e => is_new_sink e = false) evs ->
  sinks_constructed (emit evs w) = sinks_constructed w.
Proof.
  intros H. unfold sinks_constructed. cbn [trace emit].
  rewrite filter_app.
  induction H as [|e evs He _ IH]; [apply app_nil_r|].
  rewrite filter_cons_False; [exact IH|congruence].
Qed.

Lemma Build_mode_check (lc : Config) (w : World) :
  Mode lc <> _console -> Mode lc <> _file ->
  Build lc w =
  (Panicked ("mode must be console or file" +:+ String "010" EmptyString), lc,
   emit [EvStdLog ("mode must be console or file" +:+ String "010" EmptyString)] w).
Proof.
  intros Hc Hf. apply String.eqb_neq in Hc, Hf.
  unfold Build. rewrite Hc, Hf. reflexivity.
Qed.

Lemma Build_name_check (lc : Config) (w : World) :
  Mode lc = _file -> FileName lc = "" ->
  Build lc w =
  (Panicked ("file mode, but file name is empty" +:+ String "010" EmptyString), lc,
   emit [EvStdLog ("file mode, but file name is empty" +:+ String "010" EmptyString)] w).
Proof.
  intros Hm Hn. unfold Build. rewrite Hm, Hn. reflexivity.
Qed.

(** C2. When the mode is neither "console" nor "file", Build panics with
    the message of log.Panicln, the only thing it has done is print that
    message through the standard logger, the set of constructed sinks is
    what it was, and the outcome carries no logger. *)
Theorem Build_invalid_mode_panics (lc : Config) (w : World) :
  Mode lc <> _console -> Mode lc <> _file ->
  exists v w',
    Build lc w = (Panicked v, lc, w') /\
    v = "mode must be console or file" +:+ String "010" EmptyString /\
    trace w' = trace w ++ [EvStdLog v] /\
    sinks_constructed w' = sinks_constructed w /\
    forall logger, fst (fst (Build lc w)) <> Ok logger.
Proof.
  intros Hc Hf. rewrite (Build_mode_check lc w Hc Hf).
  eexists _, _. split; [reflexivity|].
  split; [reflexivity|]. split; [reflexivity|].
  split; [|cbn; congruence].
  apply sinks_constructed_emit. by repeat constructor.
Qed.

Lemma Build_invalid_mode_panics_witness :
  exists v w',
    Build bad_mode_config initial_world = (Panicked v, bad_mode_config, w') /\
    v = "mode must be console or file" +:+ String "010" EmptyString /\
    trace w' = trace initial_world ++ [EvStdLog v] /\
    sinks_constructed w' = sinks_constructed initial_world /\
    forall logger, fst (fst (Build bad_mode_config initial_world)) <> Ok logger.
Proof.
  apply (Build_invalid_mode_panics bad_mode_config initial_world);
    vm_compute; discriminate.
Defined.

(** C3. In file mode with an empty file name Build panics with the message
    of log.Panicln before any sink is constructed, and the outcome carries
    no logger, initialized or not. *)
Theorem Build_file_without_name_panics (lc : Config) (w : World) :
  Mode lc = _file -> FileName lc = "" ->
  exists v w',
    Build lc w = (Panicked v, lc, w') /\
    v = "file mode, but file name is empty" +:+ String "010" EmptyString /\
    trace w' = trace w ++ [EvStdLog v] /\
    sinks_constructed w' = sinks_constructed w /\
    forall logger, fst (fst (Build lc w)) <> Ok logger.
Proof.
  intros Hm Hn. rewrite (Build_name_check lc w Hm Hn).
  eexists _, _. split; [reflexivity|].
  split; [reflexivity|]. split; [reflexivity|].
  split; [|cbn; congruence].
  apply sinks_constructed_emit. by repeat constructor.
Qed.

Lemma Build_file_without_name_panics_witness :
  exists v w',
    Build no_file_name_config initial_world = (Panicked v, no_file_name_config, w') /\
    v = "file mode, but file name is empty" +:+ String "010" EmptyString /\
    trace w' = trace initial_world ++ [EvStdLog v] /\
    sinks_constructed w' = sinks_constructed initial_world /\
    forall logger, fst (fst (Build no_file_name_config initial_world)) <> Ok logger.
Proof.
  apply (Build_file_without_name_panics no_file_name_config initial_world);
    reflexivity.
Defined.

(** ** What Build assembles *)

Lemma WithOptions_core (opts : list zap.Option) (log : zap.Logger) :
  zap.core (zap.WithOptions log opts) = zap.core log.
Proof.
  unfold zap.WithOptions. revert log.
  induction opts as [|o opts IH]; intros log; [reflexivity|].
  cbn [fold_left]. rewrite IH. destruct o; reflexivity.
Qed.

Lemma Build_valid (lc : Config) (w : World) :
  valid_mode lc ->
  exists w1 evs,
    Build lc w = Build_tail (built_cores lc w) (after_report lc w) w1 /\
    trace w1 = trace w ++ evs /\
    Forall (fun e => is_new_sink e = true) evs /\ evs <> [] /\
    atomics w1 = atomics_after_report lc w /\
    _once w1 = _once w /\ listeners w1 = listeners w /\
    occupied w1 = occupied w /\ goroutines w1 = goroutines w.
Proof.
  intros Hv.
  destruct lc as [name level stack addc ship mode fname ename msz mage mbk
                    async json compress console color port rc opts].
  unfold valid_mode in Hv. cbn [Mode FileName] in Hv.
  assert (Hm : (mode = _console /\ String.eqb mode _file = false /\ String.eqb mode _console = true) \/
               (mode = _file /\ String.eqb mode _file = true /\ String.eqb mode _console = false /\ String.eqb fname "" = false)).
  { destruct Hv as [->|[-> Hn]]; [left|right]; repeat split.
    by apply String.eqb_neq. }
  clear Hv.
  unfold Build, built_cores, has_error_sink, has_console_also,
    atomics_after_report.
  cbn [Name Level Stacktrace AddCaller CallerShip Mode FileName ErrorFileName
       MaxSize MaxAge MaxBackup Async Json Compress Console Color Port
       ReportConfig options].
  destruct Hm as [(-> & Hf & Hc)|(-> & Hf & Hc & Hn)].
  - rewrite Hf, Hc. cbn [negb andb].
    destruct color, json, async, rc as [[[a|]]|];
      (eexists _, _; split; [reflexivity|]);
      cbn [trace emit set_atomics _once listeners occupied goroutines];
      rewrite <- ?app_assoc;
      (split; [reflexivity|]); (split; [repeat constructor|]);
      (split; [cbn [app]; discriminate|]); done.
  - rewrite Hf, Hc, Hn. cbn [negb andb].
    destruct (String.eqb ename ""), color, json, async, console,
      rc as [[[a|]]|]; cbn [negb andb];
      (eexists _, _; split; [reflexivity|]);
      cbn [trace emit set_atomics _once listeners occupied goroutines];
      rewrite <- ?app_assoc;
      (split; [reflexivity|]); (split; [repeat constructor|]);
      (split; [cbn [app]; discriminate|]); done.
Qed.

Lemma cores_of_With (fields : list (string * string)) (cs : list zapcore.ioCore) :
  fields <> [] ->
  zapcore.cores_of (zap.core (zap.With (zap.New (zapcore.NewTee cs)) fields)) =
  map (zapcore.ioCore_With fields) cs.
Proof.
  intros Hne. destruct fields as [|f fields]; [done|].
  destruct cs as [|c [|c' cs]]; reflexivity.
Qed.

Lemma bare_logger_cores (lc : Config) (cs : list zapcore.ioCore) :
  zapcore.cores_of (zap.core (bare_logger lc cs)) = map (with_project lc) cs.
Proof.
  unfold bare_logger, with_project.
  destruct (String.eqb (Name lc) ""); cbn [negb].
  - rewrite map_id. destruct cs as [|c [|c' cs]]; reflexivity.
  - by rewrite cores_of_With.
Qed.

Lemma WithOptions_callerSkip (opts : list zap.Option) (log : zap.Logger) :
  zap.callerSkip (zap.WithOptions log opts) = skip_after (zap.callerSkip log) opts.
Proof.
  unfold zap.WithOptions, skip_after. revert log.
  induction opts as [|o opts IH]; intros log; [reflexivity|].
  cbn [fold_left]. rewrite IH. destruct o; reflexivity.
Qed.

Lemma Build_tail_Ok (cores : list zapcore.ioCore) (lc : Config) (w : World)
    (logger : zap.Logger) (lc' : Config) (w' : World) :
  Build_tail cores lc w = (Ok logger, lc', w') ->
  lc' = set_options (options lc ++ new_options lc) lc /\
  logger = zap.WithOptions (bare_logger lc cores) (options lc').
Proof.
  destruct lc as [name level stack addc ship mode fname ename msz mage mbk
                    async json compress console color port rc opts].
  unfold Build_tail, new_options, bare_logger, set_options, append_option.
  cbn [Name Level Stacktrace AddCaller CallerShip Mode FileName ErrorFileName
       MaxSize MaxAge MaxBackup Async Json Compress Console Color Port
       ReportConfig options].
  destruct addc, (ship =? 0), stack; cbn [negb];
    cbn [Name Level Stacktrace AddCaller CallerShip Mode FileName ErrorFileName
       MaxSize MaxAge MaxBackup Async Json Compress Console Color Port
       ReportConfig options];
    rewrite <- ?app_assoc; cbn [app]; rewrite ?app_nil_r;
    (destruct (0 <? port);
     [ match goal with |- context [zap.Infof ?l ?m ?x] =>
         destruct (zap.Infof l m x) as [[[]|v|c] w2] end;
       cbn [mbind result_bind]; intros H; inversion H; subst; split; reflexivity
     | intros H; inversion H; subst; split; reflexivity ]).
Qed.

Lemma Build_Ok_valid (lc : Config) (w : World) (logger : zap.Logger)
    (lc' : Config) (w' : World) :
  Build lc w = (Ok logger, lc', w') -> valid_mode lc.
Proof.
  unfold valid_mode.
  destruct (String.eqb_spec (Mode lc) _console) as [Hc|Hc]; [by left|].
  destruct (String.eqb_spec (Mode lc) _file) as [Hf|Hf].
  - destruct (String.eqb_spec (FileName lc) "") as [Hn|Hn]; [|by right].
    rewrite (Build_name_check lc w Hf Hn). discriminate.
  - rewrite (Build_mode_check lc w Hc Hf). discriminate.
Qed.

Lemma after_report_fields (lc : Config) (w : World) :
  Name (after_report lc w) = Name lc /\
  Level (after_report lc w) = Level lc /\
  options (after_report lc w) = options lc /\
  new_options (after_report lc w) = new_options lc /\
  Mode (after_report lc w) = Mode lc /\
  FileName (after_report lc w) = FileName lc /\
  Port (after_report lc w) = Port lc.
Proof.
  unfold after_report.
  destruct (ReportConfig lc) as [[[a|]]|]; repeat split.
Qed.

(** A successful [Build] returns the logger over the cores [built_cores],
    with the options of the receiver applied, and has appended this run's
    options to the receiver. *)
Lemma Build_Ok (lc : Config) (w : World) (logger : zap.Logger)
    (lc' : Config) (w' : World) :
  Build lc w = (Ok logger, lc', w') ->
  valid_mode lc /\
  lc' = set_options (options lc ++ new_options lc) (after_report lc w) /\
  logger = zap.WithOptions (bare_logger lc (built_cores lc w)) (options lc') /\
  zapcore.cores_of (zap.core logger) = map (with_project lc) (built_cores lc w).
Proof.
  intros H. pose proof (Build_Ok_valid _ _ _ _ _ H) as Hv.
  split; [exact Hv|].
  destruct (Build_valid lc w Hv) as (w1 & evs & Heq & _).
  rewrite Heq in H. apply Build_tail_Ok in H as [Hlc Hlog].
  destruct (after_report_fields lc w) as (Hname & _ & Hopts & Hnew & _).
  rewrite Hopts, Hnew in Hlc.
  assert (Hbare : bare_logger (after_report lc w) (built_cores lc w) =
                  bare_logger lc (built_cores lc w)).
  { unfold bare_logger. by rewrite Hname. }
  rewrite Hbare in Hlog.
  split; [exact Hlc|]. split; [exact Hlog|].
  rewrite Hlog, WithOptions_core. apply bare_logger_cores.
Qed.

(** ** Emitting a record *)

Lemma emit_nil (w : World) : emit [] w = w.
Proof. destruct w. unfold emit. cbn. by rewrite app_nil_r. Qed.

Lemma enabled_readable (c : zapcore.ioCore) (mem : gmap positive Z)
    (lvl : zapcore.Level) :
  readable c -> zapcore.ioCore_Enabled c mem lvl = Ok (enabled_now mem lvl c).
Proof.
  unfold readable, enabled_now, zapcore.ioCore_Enabled.
  destruct (zapcore.enabler c) as [l|[a|]]; intros H; [done|done|congruence].
Qed.

Lemma multiCore_Enabled_readable (mc : list zapcore.ioCore)
    (mem : gmap positive Z) (lvl : zapcore.Level) :
  Forall readable mc ->
  zapcore.multiCore_Enabled mc mem lvl =
  Ok (bool_decide (filter (fun c => enabled_now mem lvl c = true) mc <> [])).
Proof.
  induction 1 as [|c mc Hc _ IH]; [reflexivity|].
  cbn [zapcore.multiCore_Enabled]. rewrite (enabled_readable c mem lvl Hc).
  cbn [mbind result_bind]. rewrite filter_cons.
  destruct (enabled_now mem lvl c) eqn:He.
  - rewrite decide_True by done. by rewrite bool_decide_true.
  - rewrite decide_False by congruence. exact IH.
Qed.

Lemma multiCore_Check_readable (mc : list zapcore.ioCore)
    (mem : gmap positive Z) (ent : zapcore.Entry) (ce : list zapcore.ioCore) :
  Forall readable mc ->
  zapcore.multiCore_Check mc mem ent ce =
  Ok (ce ++ filter (fun c => enabled_now mem (zapcore.Entry_Level ent) c = true) mc).
Proof.
  intros H. revert ce.
  induction H as [|c mc Hc _ IH]; intros ce; [by rewrite app_nil_r|].
  cbn [zapcore.multiCore_Check]. unfold zapcore.ioCore_Check.
  rewrite (enabled_readable c mem _ Hc). cbn [mbind result_bind].
  rewrite IH, filter_cons.
  destruct (enabled_now mem (zapcore.Entry_Level ent) c) eqn:He.
  - rewrite decide_True by done. by rewrite <- app_assoc.
  - by rewrite decide_False by congruence.
Qed.

Lemma Core_Enabled_readable (c : zapcore.Core) (mem : gmap positive Z)
    (lvl : zapcore.Level) :
  Forall readable (zapcore.cores_of c) ->
  zapcore.Core_Enabled c mem lvl =
  Ok (bool_decide (filter (fun c => enabled_now mem lvl c = true)
                     (zapcore.cores_of c) <> [])).
Proof.
  intros H. rewrite <- (multiCore_Enabled_readable _ mem lvl H).
  destruct c as [|c|mc]; try reflexivity.
  cbn. by destruct (zapcore.ioCore_Enabled c mem lvl) as [[]| |].
Qed.

Lemma Core_Check_readable (c : zapcore.Core) (mem : gmap positive Z)
    (ent : zapcore.Entry) :
  Forall readable (zapcore.cores_of c) ->
  zapcore.Core_Check c mem ent [] =
  Ok (filter (fun c => enabled_now mem (zapcore.Entry_Level ent) c = true)
        (zapcore.cores_of c)).
Proof.
  intros H. rewrite <- (app_nil_l (filter _ _)).
  rewrite <- (multiCore_Check_readable _ mem ent [] H).
  destruct c as [|c|mc]; try reflexivity.
  cbn. unfold zapcore.ioCore_Check.
  by destruct (zapcore.ioCore_Enabled c mem _) as [[]| |].
Qed.

(** With readable gates, emitting a record makes exactly the cores that are
    enabled for its level write it, in their order, before the terminal
    action of the level. *)
Lemma Log_readable (log : zap.Logger) (lvl : zapcore.Level) (msg : string)
    (w : World) :
  Forall readable (zapcore.cores_of (zap.core log)) ->
  let ent := {| zapcore.Entry_Level := lvl; zapcore.Message := msg |} in
  zap.Log log lvl msg w =
  (zap.terminal ent,
   emit (concat (map (zap.write_events ent)
                   (filter (fun c => enabled_now (atomics w) lvl c = true)
                      (zapcore.cores_of (zap.core log))))) w).
Proof.
  intros H ent. unfold zap.Log. fold ent.
  rewrite (Core_Check_readable _ (atomics w) ent H).
  rewrite (Core_Enabled_readable _ (atomics w) lvl H).
  cbn [zapcore.Entry_Level ent].
  destruct (lvl <? zapcore.DPanicLevel) eqn:Hl; [|reflexivity].
  destruct (filter _ _) as [|c cs] eqn:Hf.
  - rewrite bool_decide_false by (intros Hne; by apply Hne).
    cbn [map concat]. rewrite emit_nil.
    unfold zap.terminal, ent. cbn [zapcore.Entry_Level].
    apply Z.ltb_lt in Hl. unfold zapcore.DPanicLevel in Hl.
    unfold zapcore.PanicLevel, zapcore.FatalLevel.
    destruct (Z.eqb_spec lvl 4); [lia|]. destruct (Z.eqb_spec lvl 5); [lia|].
    reflexivity.
  - rewrite bool_decide_true by done. reflexivity.
Qed.

Lemma write_events_elem (ent : zapcore.Entry) (c : zapcore.ioCore)
    (cs : list zapcore.ioCore) :
  EvWrite c ent ∈ concat (map (zap.write_events ent) cs) <-> c ∈ cs.
Proof.
  induction cs as [|c' cs IH].
  - cbn. split; intros H; by apply elem_of_nil in H.
  - cbn [map concat]. rewrite elem_of_app, IH, elem_of_cons.
    unfold zap.write_events.
    destruct (zapcore.ErrorLevel <? zapcore.Entry_Level ent);
      rewrite ?elem_of_cons, elem_of_nil; intuition congruence.
Qed.

(** Delivery, with readable gates: a core of the logger writes the record
    exactly when it is enabled for the level in the world of the emission. *)
Lemma delivered_iff (log : zap.Logger) (lvl : zapcore.Level) (msg : string)
    (w : World) (c : zapcore.ioCore) :
  Forall readable (zapcore.cores_of (zap.core log)) ->
  c ∈ zapcore.cores_of (zap.core log) ->
  delivered c {| zapcore.Entry_Level := lvl; zapcore.Message := msg |} w
    (snd (zap.Log log lvl msg w)) <->
  enabled_now (atomics w) lvl c = true.
Proof.
  intros Hr Hc. rewrite (Log_readable log lvl msg w Hr). cbn [snd emit trace].
  unfold delivered. cbn [trace]. split.
  - intros (evs & Heq & Hin). apply app_inv_head in Heq. subst evs.
    apply write_events_elem, list_elem_of_filter in Hin. tauto.
  - intros He. eexists. split; [reflexivity|].
    apply write_events_elem, list_elem_of_filter. tauto.
Qed.

Lemma with_project_enabler (lc : Config) (c : zapcore.ioCore) :
  zapcore.enabler (with_project lc c) = zapcore.enabler c.
Proof. unfold with_project. by destruct (String.eqb (Name lc) ""). Qed.

Lemma with_project_out (lc : Config) (c : zapcore.ioCore) :
  zapcore.out (with_project lc c) = zapcore.out c.
Proof. unfold with_project. by destruct (String.eqb (Name lc) ""). Qed.

Lemma with_project_format (lc : Config) (c : zapcore.ioCore) :
  zapcore.format (zapcore.enc (with_project lc c)) = zapcore.format (zapcore.enc c).
Proof. unfold with_project. by destruct (String.eqb (Name lc) ""). Qed.

Lemma with_project_config (lc : Config) (c : zapcore.ioCore) :
  zapcore.config (zapcore.enc (with_project lc c)) = zapcore.config (zapcore.enc c).
Proof. unfold with_project. by destruct (String.eqb (Name lc) ""). Qed.

Lemma built_cores_readable (lc : Config) (w : World) (a : positive) :
  Level lc = Some a ->
  Forall readable (map (with_project lc) (built_cores lc w)).
Proof.
  intros Ha. apply Forall_map, Forall_forall. intros c Hc.
  unfold readable. cbn. rewrite with_project_enabler.
  unfold built_cores in Hc.
  destruct (has_error_sink lc), (has_console_also lc),
    (ReportConfig lc) as [[[r|]]|];
    cbn [app] in Hc; repeat (apply elem_of_cons in Hc as [->|Hc]);
    try (by apply elem_of_nil in Hc);
    cbn [zapcore.enabler primary_core error_core console_core report_core
         report_gate report.Level]; rewrite ?Ha; discriminate.
Qed.

Lemma gate_value_SetLevel (lvl : zap.AtomicLevel) (a : positive)
    (l : zapcore.Level) (w : World) :
  lvl = Some a -> is_int8 l ->
  exists w', zap.SetLevel lvl l w = (Ok tt, w') /\
             gate_value (atomics w') a = l.
Proof.
  intros -> Hl. eexists. split; [reflexivity|].
  unfold gate_value. cbn [atomics set_atomics].
  rewrite lookup_insert_eq. cbn [default].
  unfold is_int8 in Hl. unfold int8, int32, id.
  rewrite (Z.mod_small (l + 2147483648)) by lia.
  replace (l + 2147483648 - 2147483648 + 128) with (l + 128) by lia.
  rewrite Z.mod_small by lia. lia.
Qed.

(** ** The severity gate is read at delivery time *)

(** C1. After a successful Build with a gate, the first core of the logger
    is the primary core: its sink is the primary destination (buffered when
    async is set).  A record emitted at severity S in any later state of the
    process is written by that core exactly when S is at or above the value
    the gate holds in that state; and after the gate is set to l, through
    UpdateLevel or through a PUT to the control endpoint's handler, the next
    record is written exactly when S is at or above l. *)
Theorem primary_sink_gated_by_live_level (lc : Config) (w : World)
    (logger : zap.Logger) (lc' : Config) (w' : World) (a : positive)
    (w1 : World) (l S : zapcore.Level) (msg : string) :
  Build lc w = (Ok logger, lc', w') ->
  Level lc = Some a ->
  is_int8 l ->
  exists primary,
    zapcore.cores_of (zap.core logger) !! 0%nat = Some primary /\
    zapcore.out primary = buffered lc (primary_destination lc) /\
    zapcore.enabler primary = zapcore.OfAtomicLevel (Level lc') /\
    (delivered primary
       {| zapcore.Entry_Level := S; zapcore.Message := msg |}
       w1 (snd (zap.Log logger S msg w1)) <->
     gate_value (atomics w1) a <= S) /\
    (exists w2,
       UpdateLevel lc' l w1 = (Ok tt, w2) /\
       (delivered primary
          {| zapcore.Entry_Level := S; zapcore.Message := msg |}
          w2 (snd (zap.Log logger S msg w2)) <->
        l <= S)) /\
    (exists w2,
       zap.ServeHTTP (Level lc') (zap.PUT (Some l)) w1 = (Ok (zap.Payload l), w2) /\
       (delivered primary
          {| zapcore.Entry_Level := S; zapcore.Message := msg |}
          w2 (snd (zap.Log logger S msg w2)) <->
        l <= S)).
Proof.
  intros HB Ha Hl.
  destruct (Build_Ok _ _ _ _ _ HB) as (Hv & Hlc & Hlog & Hcores).
  assert (HL : Level lc' = Some a).
  { rewrite Hlc. cbn [set_options Level].
    destruct (after_report_fields lc w) as (_ & -> & _). exact Ha. }
  pose proof (built_cores_readable lc w a Ha) as Hr. rewrite <- Hcores in Hr.
  exists (with_project lc (primary_core lc)).
  assert (Hin : with_project lc (primary_core lc) ∈ zapcore.cores_of (zap.core logger)).
  { rewrite Hcores. unfold built_cores. cbn [app map]. apply list_elem_of_here. }
  assert (Hgate : forall w0,
             enabled_now (atomics w0) S (with_project lc (primary_core lc)) = true <->
             gate_value (atomics w0) a <= S).
  { intros w0. unfold enabled_now, zapcore.ioCore_Enabled.
    rewrite with_project_enabler. cbn [primary_core zapcore.enabler].
    rewrite Ha. cbn. unfold zapcore.Level_Enabled, gate_value.
    apply Z.leb_le. }
  split; [by rewrite Hcores|].
  split; [by rewrite with_project_out|].
  split; [by rewrite with_project_enabler, HL, <- Ha|].
  split; [by rewrite (delivered_iff logger S msg w1 _ Hr Hin)|].
  destruct (gate_value_SetLevel (Level lc') a l w1 HL Hl) as (w2 & Hset & Hval).
  split; exists w2.
  - split; [exact Hset|].
    rewrite (delivered_iff logger S msg w2 _ Hr Hin), Hgate. by rewrite Hval.
  - split; [cbn [zap.ServeHTTP]; by rewrite Hset|].
    rewrite (delivered_iff logger S msg w2 _ Hr Hin), Hgate. by rewrite Hval.
Qed.

Lemma primary_sink_gated_by_live_level_witness :
  exists primary,
    zapcore.cores_of (zap.core file_logger) !! 0%nat = Some primary /\
    zapcore.out primary = buffered file_config (primary_destination file_config) /\
    zapcore.enabler primary = zapcore.OfAtomicLevel (Level file_config_built) /\
    (delivered primary
       {| zapcore.Entry_Level := zapcore.InfoLevel; zapcore.Message := "hello" |}
       warn_world (snd (zap.Log file_logger zapcore.InfoLevel "hello" warn_world)) <->
     gate_value (atomics warn_world) 1%positive <= zapcore.InfoLevel) /\
    (exists w2,
       UpdateLevel file_config_built zapcore.InfoLevel warn_world = (Ok tt, w2) /\
       (delivered primary
          {| zapcore.Entry_Level := zapcore.InfoLevel; zapcore.Message := "hello" |}
          w2 (snd (zap.Log file_logger zapcore.InfoLevel "hello" w2)) <->
        zapcore.InfoLevel <= zapcore.InfoLevel)) /\
    (exists w2,
       zap.ServeHTTP (Level file_config_built) (zap.PUT (Some zapcore.InfoLevel))
         warn_world = (Ok (zap.Payload zapcore.InfoLevel), w2) /\
       (delivered primary
          {| zapcore.Entry_Level := zapcore.InfoLevel; zapcore.Message := "hello" |}
          w2 (snd (zap.Log file_logger zapcore.InfoLevel "hello" w2)) <->
        zapcore.InfoLevel <= zapcore.InfoLevel)).
Proof.
  apply (primary_sink_gated_by_live_level file_config warn_world
           file_logger file_config_built file_world_built
           1%positive warn_world zapcore.InfoLevel zapcore.InfoLevel "hello").
  - vm_compute. reflexivity.
  - reflexivity.
  - unfold is_int8, zapcore.InfoLevel. lia.
Defined.

(** ** The error-only sink *)

(** C5. With an error-only sink configured (file mode, non-empty
    errorFileName) and a gate, the second core of the logger is the error
    core: its sink is the rotating error file (buffered when async is set)
    and its threshold is the constant "error" level.  In every state of the
    process, whatever the main gate holds, and also after the main gate is
    set to any level through UpdateLevel, it writes a record exactly when
    the severity is at or above "error". *)
Theorem error_sink_fixed_at_error (lc : Config) (w : World)
    (logger : zap.Logger) (lc' : Config) (w' : World) (a : positive)
    (w1 : World) (l S : zapcore.Level) (msg : string) :
  Build lc w = (Ok logger, lc', w') ->
  Mode lc = _file ->
  ErrorFileName lc <> "" ->
  Level lc = Some a ->
  exists high,
    zapcore.cores_of (zap.core logger) !! 1%nat = Some high /\
    zapcore.out high = buffered lc (rotating_file lc (ErrorFileName lc)) /\
    zapcore.enabler high = zapcore.OfLevel zapcore.ErrorLevel /\
    (delivered high
       {| zapcore.Entry_Level := S; zapcore.Message := msg |}
       w1 (snd (zap.Log logger S msg w1)) <->
     zapcore.ErrorLevel <= S) /\
    (exists w2,
       UpdateLevel lc' l w1 = (Ok tt, w2) /\
       (delivered high
          {| zapcore.Entry_Level := S; zapcore.Message := msg |}
          w2 (snd (zap.Log logger S msg w2)) <->
        zapcore.ErrorLevel <= S)) /\
    (exists w2,
       zap.ServeHTTP (Level lc') (zap.PUT (Some l)) w1 = (Ok (zap.Payload l), w2) /\
       (delivered high
          {| zapcore.Entry_Level := S; zapcore.Message := msg |}
          w2 (snd (zap.Log logger S msg w2)) <->
        zapcore.ErrorLevel <= S)).
Proof.
  intros HB Hm He Ha.
  destruct (Build_Ok _ _ _ _ _ HB) as (Hv & Hlc & Hlog & Hcores).
  assert (HL : Level lc' = Some a).
  { rewrite Hlc. cbn [set_options Level].
    destruct (after_report_fields lc w) as (_ & -> & _). exact Ha. }
  pose proof (built_cores_readable lc w a Ha) as Hr. rewrite <- Hcores in Hr.
  assert (Hhas : has_error_sink lc = true).
  { unfold has_error_sink. rewrite Hm. apply String.eqb_neq in He. by rewrite He. }
  assert (H1 : zapcore.cores_of (zap.core logger) !! 1%nat =
               Some (with_project lc (error_core lc))).
  { rewrite Hcores. unfold built_cores. by rewrite Hhas. }
  exists (with_project lc (error_core lc)).
  assert (Hin : with_project lc (error_core lc) ∈ zapcore.cores_of (zap.core logger)).
  { by apply list_elem_of_lookup_2 in H1. }
  assert (Hgate : forall w0,
             enabled_now (atomics w0) S (with_project lc (error_core lc)) = true <->
             zapcore.ErrorLevel <= S).
  { intros w0. unfold enabled_now, zapcore.ioCore_Enabled.
    rewrite with_project_enabler. cbn. apply Z.leb_le. }
  split; [exact H1|].
  split; [by rewrite with_project_out|].
  split; [by rewrite with_project_enabler|].
  split; [by rewrite (delivered_iff logger S msg w1 _ Hr Hin)|].
  unfold UpdateLevel. rewrite HL.
  split; (eexists; split; [reflexivity|]);
    by rewrite (delivered_iff logger S msg _ _ Hr Hin).
Qed.

Lemma error_sink_fixed_at_error_witness :
  exists high,
    zapcore.cores_of (zap.core file_logger) !! 1%nat = Some high /\
    zapcore.out high =
      buffered file_config (rotating_file file_config (ErrorFileName file_config)) /\
    zapcore.enabler high = zapcore.OfLevel zapcore.ErrorLevel /\
    (delivered high
       {| zapcore.Entry_Level := zapcore.WarnLevel; zapcore.Message := "hello" |}
       warn_world (snd (zap.Log file_logger zapcore.WarnLevel "hello" warn_world)) <->
     zapcore.ErrorLevel <= zapcore.WarnLevel) /\
    (exists w2,
       UpdateLevel file_config_built zapcore.DebugLevel warn_world = (Ok tt, w2) /\
       (delivered high
          {| zapcore.Entry_Level := zapcore.WarnLevel; zapcore.Message := "hello" |}
          w2 (snd (zap.Log file_logger zapcore.WarnLevel "hello" w2)) <->
        zapcore.ErrorLevel <= zapcore.WarnLevel)) /\
    (exists w2,
       zap.ServeHTTP (Level file_config_built) (zap.PUT (Some zapcore.DebugLevel))
         warn_world = (Ok (zap.Payload zapcore.DebugLevel), w2) /\
       (delivered high
          {| zapcore.Entry_Level := zapcore.WarnLevel; zapcore.Message := "hello" |}
          w2 (snd (zap.Log file_logger zapcore.WarnLevel "hello" w2)) <->
        zapcore.ErrorLevel <= zapcore.WarnLevel)).
Proof.
  apply (error_sink_fixed_at_error file_config warn_world
           file_logger file_config_built file_world_built
           1%positive warn_world zapcore.DebugLevel zapcore.WarnLevel "hello").
  - vm_compute. reflexivity.
  - reflexivity.
  - vm_compute. discriminate.
  - reflexivity.
Defined.

(** ** The report core *)

Lemma buffered_not_report (lc : Config) (ws : Writer) :
  is_report_sink ws = false -> is_report_sink (buffered lc ws) = false.
Proof. unfold buffered. by destruct (Async lc). Qed.

Lemma primary_destination_not_report (lc : Config) :
  is_report_sink (primary_destination lc) = false.
Proof. unfold primary_destination. by destruct (String.eqb (Mode lc) _console). Qed.

(** C4. With a reportConfig, the last core of the logger is the report
    core: its sink is the report writer and its encoder is a JSON encoder
    with the lowercase (uncoloured) level encoder, whatever json and color
    say.  Every core before it writes to another sink and has the format and
    the level encoder selected by json and color. *)
Theorem report_core_forces_json (lc : Config) (w : World)
    (logger : zap.Logger) (lc' : Config) (w' : World) (rc : report.ReportConfig) :
  Build lc w = (Ok logger, lc', w') ->
  ReportConfig lc = Some rc ->
  exists others reportCore,
    zapcore.cores_of (zap.core logger) = others ++ [reportCore] /\
    is_report_sink (zapcore.out reportCore) = true /\
    zapcore.format (zapcore.enc reportCore) = zapcore.JSON /\
    zapcore.EncodeLevel (zapcore.config (zapcore.enc reportCore)) =
      zapcore.LowercaseLevelEncoder /\
    Forall (fun c =>
              is_report_sink (zapcore.out c) = false /\
              zapcore.format (zapcore.enc c) = selected_format lc /\
              zapcore.EncodeLevel (zapcore.config (zapcore.enc c)) =
                selected_level_encoder lc) others.
Proof.
  intros HB Hrc.
  destruct (Build_Ok _ _ _ _ _ HB) as (_ & _ & _ & Hcores).
  unfold built_cores in Hcores. rewrite Hrc in Hcores.
  exists (map (with_project lc)
            ([primary_core lc]
             ++ (if has_error_sink lc then [error_core lc] else [])
             ++ (if has_console_also lc then [console_core lc] else []))),
         (with_project lc (report_core rc w)).
  split.
  { rewrite Hcores, !map_app, <- !app_assoc. reflexivity. }
  rewrite with_project_out, with_project_format, with_project_config.
  split; [reflexivity|]. split; [reflexivity|]. split; [reflexivity|].
  apply Forall_map, Forall_forall. intros c Hc. cbn beta.
  rewrite with_project_out, with_project_format, with_project_config.
  assert (Hp : is_report_sink (buffered lc (primary_destination lc)) = false)
    by apply buffered_not_report, primary_destination_not_report.
  assert (He : is_report_sink (buffered lc (rotating_file lc (ErrorFileName lc))) = false)
    by by apply buffered_not_report.
  destruct (has_error_sink lc), (has_console_also lc);
    cbn [app] in Hc; repeat (apply elem_of_cons in Hc as [->|Hc]);
    try (by apply elem_of_nil in Hc);
    cbn [primary_core error_core console_core zapcore.out zapcore.enc
         selected_encoder zapcore.format zapcore.config encoder_config_with
         zapcore.EncodeLevel]; done.
Qed.

Lemma report_core_forces_json_witness :
  exists others reportCore,
    zapcore.cores_of (zap.core file_logger) = others ++ [reportCore] /\
    is_report_sink (zapcore.out reportCore) = true /\
    zapcore.format (zapcore.enc reportCore) = zapcore.JSON /\
    zapcore.EncodeLevel (zapcore.config (zapcore.enc reportCore)) =
      zapcore.LowercaseLevelEncoder /\
    Forall (fun c =>
              is_report_sink (zapcore.out c) = false /\
              zapcore.format (zapcore.enc c) = selected_format file_config /\
              zapcore.EncodeLevel (zapcore.config (zapcore.enc c)) =
                selected_level_encoder file_config) others.
Proof.
  apply (report_core_forces_json file_config warn_world
           file_logger file_config_built file_world_built
           {| report.Level := None |}).
  - vm_compute. reflexivity.
  - reflexivity.
Defined.

(** ** Buffering *)

(** C7. With async set, the sink of the first core is the buffering
    decorator, 256 KiB and 30 seconds, around the primary destination; when
    there is an error-only sink the sink of the second core is the same
    decorator around the rotating error file; when file mode also logs to
    the console, the console core comes next and writes to the locked
    standard output itself; and no core other than the first and the error
    core has a buffered sink. *)
Theorem async_buffers_primary_and_error_only (lc : Config) (w : World)
    (logger : zap.Logger) (lc' : Config) (w' : World) :
  Build lc w = (Ok logger, lc', w') ->
  Async lc = true ->
  (exists primary,
     zapcore.cores_of (zap.core logger) !! 0%nat = Some primary /\
     zapcore.out primary =
       BufferedWriteSyncer (primary_destination lc) 262144 30000000000) /\
  (has_error_sink lc = true ->
   exists high,
     zapcore.cores_of (zap.core logger) !! 1%nat = Some high /\
     zapcore.enabler high = zapcore.OfLevel zapcore.ErrorLevel /\
     zapcore.out high =
       BufferedWriteSyncer (rotating_file lc (ErrorFileName lc)) 262144 30000000000) /\
  (has_console_also lc = true ->
   exists consoleCore,
     zapcore.cores_of (zap.core logger)
       !! (if has_error_sink lc then 2%nat else 1%nat) = Some consoleCore /\
     zapcore.enabler consoleCore = zapcore.OfAtomicLevel (Level lc) /\
     zapcore.out consoleCore = lockedWriteSyncer os_Stdout) /\
  (forall i c,
     zapcore.cores_of (zap.core logger) !! i = Some c ->
     is_buffered (zapcore.out c) = true ->
     i = 0%nat \/ (i = 1%nat /\ has_error_sink lc = true)).
Proof.
  intros HB Ha.
  destruct (Build_Ok _ _ _ _ _ HB) as (_ & _ & _ & Hcores).
  rewrite Hcores. unfold built_cores.
  split.
  { eexists. split; [reflexivity|]. rewrite with_project_out.
    cbn [primary_core zapcore.out]. unfold buffered. by rewrite Ha. }
  split.
  { intros ->. eexists. split; [reflexivity|].
    rewrite with_project_enabler, with_project_out.
    cbn [error_core zapcore.out zapcore.enabler]. unfold buffered. by rewrite Ha. }
  split.
  { intros ->. destruct (has_error_sink lc);
      (eexists; split; [reflexivity|]);
      by rewrite with_project_enabler, with_project_out. }
  intros i c Hi Hb.
  destruct (has_error_sink lc), (has_console_also lc),
    (ReportConfig lc) as [rc|]; cbn [app map] in Hi;
    repeat (destruct i as [|i]; [cbn in Hi; injection Hi as <-; try tauto|]);
    try (rewrite with_project_out in Hb; discriminate Hb);
    try (cbn in Hi; discriminate Hi).
Qed.

Lemma async_buffers_primary_and_error_only_witness :
  (exists primary,
     zapcore.cores_of (zap.core file_logger) !! 0%nat = Some primary /\
     zapcore.out primary =
       BufferedWriteSyncer (primary_destination file_config) 262144 30000000000) /\
  (exists high,
     zapcore.cores_of (zap.core file_logger) !! 1%nat = Some high /\
     zapcore.enabler high = zapcore.OfLevel zapcore.ErrorLevel /\
     zapcore.out high =
       BufferedWriteSyncer (rotating_file file_config (ErrorFileName file_config))
         262144 30000000000) /\
  (exists consoleCore,
     zapcore.cores_of (zap.core file_logger) !! 2%nat = Some consoleCore /\
     zapcore.enabler consoleCore = zapcore.OfAtomicLevel (Level file_config) /\
     zapcore.out consoleCore = lockedWriteSyncer os_Stdout) /\
  (forall i c,
     zapcore.cores_of (zap.core file_logger) !! i = Some c ->
     is_buffered (zapcore.out c) = true ->
     i = 0%nat \/ (i = 1%nat /\ has_error_sink file_config = true)).
Proof.
  destruct (async_buffers_primary_and_error_only file_config warn_world
              file_logger file_config_built file_world_built)
    as (H1 & H2 & H3 & H4).
  - vm_compute. reflexivity.
  - reflexivity.
  - split; [exact H1|]. split; [apply H2; reflexivity|].
    split; [apply H3; reflexivity|exact H4].
Defined.

(** ** Building twice *)

Lemma int64_range (z : Z) : is_int64 (int64 z).
Proof.
  unfold is_int64, int64.
  pose proof (Z.mod_pos_bound (z + 9223372036854775808) 18446744073709551616).
  lia.
Qed.

Lemma int64_id (z : Z) : is_int64 z -> int64 z = z.
Proof. unfold is_int64, int64. intros H. rewrite Z.mod_small; lia. Qed.

Lemma skip_after_app (s : Z) (opts opts' : list zap.Option) :
  skip_after s (opts ++ opts') = skip_after (skip_after s opts) opts'.
Proof. unfold skip_after. apply fold_left_app. Qed.

Lemma skip_after_range (s : Z) (opts : list zap.Option) :
  is_int64 s -> is_int64 (skip_after s opts).
Proof.
  revert s. induction opts as [|o opts IH]; intros s Hs; [exact Hs|].
  cbn. apply IH. destruct o; try exact Hs. apply int64_range.
Qed.

Lemma skip_after_new_options (s : Z) (lc : Config) :
  AddCaller lc = true -> is_int64 s ->
  skip_after s (new_options lc) = int64 (s + CallerShip lc).
Proof.
  intros Ha Hs. unfold new_options. rewrite Ha, skip_after_app.
  assert (Htail : forall s', skip_after s'
            (if Stacktrace lc
             then [zap.AddStacktrace (zapcore.OfLevel zapcore.PanicLevel)]
             else []) = s') by (intros s'; by destruct (Stacktrace lc)).
  rewrite Htail.
  destruct (Z.eqb_spec (CallerShip lc) 0) as [->|Hne]; cbn.
  - rewrite Z.add_0_r. symmetry. by apply int64_id.
  - reflexivity.
Qed.

Lemma bare_logger_callerSkip (lc : Config) (cs : list zapcore.ioCore) :
  zap.callerSkip (bare_logger lc cs) = 0.
Proof. unfold bare_logger. by destruct (String.eqb (Name lc) ""). Qed.

Lemma new_options_built (lc : Config) (w : World) (opts : list zap.Option) :
  new_options (set_options opts (after_report lc w)) = new_options lc.
Proof.
  unfold new_options, after_report.
  by destruct (ReportConfig lc) as [[[a|]]|].
Qed.

(** C10. Two successful calls of Build on the same receiver: each call
    appends its options to the options slice, so the slice of the second
    call holds them twice and differs from the slice after the first; with
    addCaller set, the caller-skip depth of the second logger is that of the
    first plus callerShip once more (in int arithmetic), and starting from
    an empty slice the depths are callerShip and twice callerShip. *)
Theorem Build_twice_applies_options_twice (lc : Config) (w : World)
    (l1 : zap.Logger) (lc1 : Config) (w1 : World)
    (l2 : zap.Logger) (lc2 : Config) (w2 : World) :
  Build lc w = (Ok l1, lc1, w1) ->
  Build lc1 w1 = (Ok l2, lc2, w2) ->
  AddCaller lc = true ->
  options lc1 = options lc ++ new_options lc /\
  options lc2 = options lc ++ new_options lc ++ new_options lc /\
  options lc2 <> options lc1 /\
  l1 = zap.WithOptions (bare_logger lc (built_cores lc w)) (options lc1) /\
  l2 = zap.WithOptions (bare_logger lc1 (built_cores lc1 w1)) (options lc2) /\
  zap.callerSkip l2 = int64 (zap.callerSkip l1 + CallerShip lc) /\
  (options lc = [] ->
   zap.callerSkip l1 = int64 (CallerShip lc) /\
   zap.callerSkip l2 = int64 (int64 (CallerShip lc) + CallerShip lc)).
Proof.
  intros H1 H2 Ha.
  destruct (Build_Ok _ _ _ _ _ H1) as (_ & Hlc1 & Hl1 & _).
  destruct (Build_Ok _ _ _ _ _ H2) as (_ & Hlc2 & Hl2 & _).
  assert (Ho1 : options lc1 = options lc ++ new_options lc) by by rewrite Hlc1.
  assert (Hn1 : new_options lc1 = new_options lc).
  { rewrite Hlc1. apply new_options_built. }
  assert (Ho2 : options lc2 = options lc ++ new_options lc ++ new_options lc).
  { rewrite Hlc2. cbn [set_options options]. by rewrite Hn1, Ho1, <- app_assoc. }
  assert (Hs1 : zap.callerSkip l1 = skip_after 0 (options lc ++ new_options lc)).
  { by rewrite Hl1, WithOptions_callerSkip, bare_logger_callerSkip, Ho1. }
  assert (Hr1 : is_int64 (zap.callerSkip l1)).
  { rewrite Hs1. apply skip_after_range. unfold is_int64. lia. }
  assert (Hs2 : zap.callerSkip l2 = int64 (zap.callerSkip l1 + CallerShip lc)).
  { rewrite Hl2, WithOptions_callerSkip, bare_logger_callerSkip, Ho2.
    rewrite app_assoc, skip_after_app, <- Hs1.
    by apply skip_after_new_options. }
  split; [exact Ho1|]. split; [exact Ho2|].
  split.
  { rewrite Ho1, Ho2, app_assoc. intros Heq.
    apply (f_equal length) in Heq. rewrite length_app in Heq.
    unfold new_options in Heq. rewrite Ha in Heq. cbn in Heq. lia. }
  split; [exact Hl1|]. split; [exact Hl2|]. split; [exact Hs2|].
  intros Hnil. rewrite Hs2, Hs1, Hnil. cbn [app].
  rewrite skip_after_new_options by (done || (unfold is_int64; lia)).
  by rewrite Z.add_0_l.
Qed.

Lemma Build_twice_applies_options_twice_witness :
  options console_config_built =
    options console_config ++ new_options console_config /\
  options console_config_rebuilt =
    options console_config ++ new_options console_config ++ new_options console_config /\
  options console_config_rebuilt <> options console_config_built /\
  zap.callerSkip console_logger_rebuilt =
    int64 (zap.callerSkip console_logger + CallerShip console_config) /\
  zap.callerSkip console_logger = int64 (CallerShip console_config) /\
  zap.callerSkip console_logger_rebuilt =
    int64 (int64 (CallerShip console_config) + CallerShip console_config).
Proof.
  destruct (Build_twice_applies_options_twice console_config warn_world
              console_logger console_config_built console_world_built
              console_logger_rebuilt console_config_rebuilt
              (snd (Build console_config_built console_world_built)))
    as (H1 & H2 & H3 & _ & _ & H6 & H7).
  - vm_compute. reflexivity.
  - vm_compute. reflexivity.
  - reflexivity.
  - destruct (H7 eq_refl) as [H8 H9]. repeat split; assumption.
Defined.

(** With callerShip 3 the first logger skips 3 frames and the second 6. *)
Example Build_twice_skips_six :
  zap.callerSkip console_logger = 3 /\ zap.callerSkip console_logger_rebuilt = 6.
Proof. split; reflexivity. Qed.

(** ** The control endpoint starts once *)

Lemma same_endpoint_refl (w : World) : same_endpoint w w.
Proof. by repeat split. Qed.

Lemma same_endpoint_trans (w1 w2 w3 : World) :
  same_endpoint w1 w2 -> same_endpoint w2 w3 -> same_endpoint w1 w3.
Proof.
  intros (A1 & A2 & A3 & A4) (B1 & B2 & B3 & B4).
  repeat split; congruence.
Qed.

Lemma filter_none {A : Type} (P : A -> Prop) `{forall x, Decision (P x)}
    (l : list A) :
  Forall (fun x => ~ P x) l -> filter P l = [].
Proof.
  induction 1 as [|x l Hx _ IH]; [reflexivity|].
  by rewrite filter_cons_False.
Qed.

Lemma same_endpoint_trace (w w' : World) (evs : list Event) :
  trace w' = trace w ++ evs ->
  Forall (fun e => is_listen_failed e = false) evs ->
  _once w' = _once w -> listeners w' = listeners w -> occupied w' = occupied w ->
  same_endpoint w w'.
Proof.
  intros Ht Hevs H1 H2 H3. repeat split; try assumption.
  rewrite Ht, filter_app, (filter_none _ evs), app_nil_r; [reflexivity|].
  eapply Forall_impl; [exact Hevs|]. cbn. intros e He. congruence.
Qed.

Lemma same_endpoint_emit (evs : list Event) (w : World) :
  Forall (fun e => is_listen_failed e = false) evs ->
  same_endpoint w (emit evs w).
Proof. intros H. by apply (same_endpoint_trace w (emit evs w) evs). Qed.

Lemma write_events_not_failed (ent : zapcore.Entry) (cs : list zapcore.ioCore) :
  Forall (fun e => is_listen_failed e = false)
    (concat (map (zap.write_events ent) cs)).
Proof.
  induction cs as [|c cs IH]; [constructor|].
  cbn [map concat]. apply Forall_app. split; [|exact IH].
  unfold zap.write_events.
  destruct (zapcore.ErrorLevel <? zapcore.Entry_Level ent); by repeat constructor.
Qed.

Lemma Log_world (log : zap.Logger) (lvl : zapcore.Level) (msg : string)
    (w : World) :
  exists evs,
    snd (zap.Log log lvl msg w) = emit evs w /\
    Forall (fun e => is_listen_failed e = false) evs.
Proof.
  unfold zap.Log.
  destruct (if lvl <? zapcore.DPanicLevel then _ else _) as [[|]|v|c];
    try (exists []; split; [symmetry; apply emit_nil|constructor]).
  destruct (zapcore.Core_Check _ _ _ _) as [cores|v|c];
    try (exists []; split; [symmetry; apply emit_nil|constructor]).
  eexists. split; [reflexivity|]. apply write_events_not_failed.
Qed.

Lemma Infof_world (s : zap.Logger) (msg : string) (w : World) :
  exists evs,
    snd (zap.Infof s msg w) = emit evs w /\
    Forall (fun e => is_listen_failed e = false) evs.
Proof.
  unfold zap.Infof.
  destruct (zapcore.Core_Enabled _ _ _) as [[|]|v|c];
    try (exists []; split; [symmetry; apply emit_nil|constructor]).
  apply Log_world.
Qed.

Lemma Build_tail_same_endpoint (cores : list zapcore.ioCore) (lc : Config)
    (w : World) :
  same_endpoint w (snd (Build_tail cores lc w)).
Proof.
  unfold Build_tail. cbv zeta.
  destruct (0 <? Port _); [|apply same_endpoint_refl].
  match goal with |- context [zap.Infof ?l ?m ?x] =>
    destruct (Infof_world l m x) as (evs & Hw & Hevs);
    destruct (zap.Infof l m x) as [r w2] end.
  cbn [snd] in *. subst w2.
  eapply same_endpoint_trans; [|by apply same_endpoint_emit].
  by repeat split.
Qed.

Lemma new_sink_not_failed (evs : list Event) :
  Forall (fun e => is_new_sink e = true) evs ->
  Forall (fun e => is_listen_failed e = false) evs.
Proof. intros H. eapply Forall_impl; [exact H|]. by intros []. Qed.

(** Whatever it returns, [Build] leaves the Once, the listeners and the
    failed binds as they were. *)
Lemma Build_same_endpoint (lc : Config) (w : World) :
  same_endpoint w (snd (Build lc w)).
Proof.
  destruct (String.eqb_spec (Mode lc) _console) as [Hc|Hc].
  - destruct (Build_valid lc w (or_introl Hc))
      as (w1 & evs & -> & Ht & Hevs & _ & _ & H1 & H2 & H3 & _).
    eapply same_endpoint_trans; [|apply Build_tail_same_endpoint].
    apply (same_endpoint_trace w w1 evs); auto using new_sink_not_failed.
  - destruct (String.eqb_spec (Mode lc) _file) as [Hf|Hf].
    + destruct (String.eqb_spec (FileName lc) "") as [Hn|Hn].
      * rewrite (Build_name_check lc w Hf Hn). cbn [snd].
        apply same_endpoint_emit. by repeat constructor.
      * destruct (Build_valid lc w (or_intror (conj Hf Hn)))
          as (w1 & evs & -> & Ht & Hevs & _ & _ & H1 & H2 & H3 & _).
        eapply same_endpoint_trans; [|apply Build_tail_same_endpoint].
        apply (same_endpoint_trace w w1 evs); auto using new_sink_not_failed.
    + rewrite (Build_mode_check lc w Hc Hf). cbn [snd].
      apply same_endpoint_emit. by repeat constructor.
Qed.

Lemma bind_attempts_same (w w' : World) :
  same_endpoint w w' -> bind_attempts w' = bind_attempts w.
Proof. intros (_ & H2 & _ & H4). unfold bind_attempts. by rewrite H2, H4. Qed.


(** The outcome of [Build] depends on the memory of the gates only: not on
    the Once, the ports, the goroutines or the trace. *)
Lemma Log_outcome (log : zap.Logger) (lvl : zapcore.Level) (msg : string)
    (w1 w2 : World) :
  atomics w1 = atomics w2 ->
  fst (zap.Log log lvl msg w1) = fst (zap.Log log lvl msg w2).
Proof.
  intros H. unfold zap.Log. rewrite H.
  destruct (if lvl <? zapcore.DPanicLevel then _ else _) as [[|]|v|c];
    try reflexivity.
  by destruct (zapcore.Core_Check _ _ _ _).
Qed.

Lemma Infof_outcome (s : zap.Logger) (msg : string) (w1 w2 : World) :
  atomics w1 = atomics w2 ->
  fst (zap.Infof s msg w1) = fst (zap.Infof s msg w2).
Proof.
  intros H. unfold zap.Infof. rewrite H.
  destruct (zapcore.Core_Enabled _ _ _) as [[|]|v|c]; try reflexivity.
  by apply Log_outcome.
Qed.

Lemma Build_tail_outcome (cores : list zapcore.ioCore) (lc : Config)
    (w1 w2 : World) :
  atomics w1 = atomics w2 ->
  fst (Build_tail cores lc w1) = fst (Build_tail cores lc w2).
Proof.
  intros H. unfold Build_tail. cbv zeta.
  destruct (0 <? Port _); [|reflexivity].
  match goal with |- context [zap.Infof ?l ?m (InitLogServer ?c ?p w1)] =>
    pose proof (Infof_outcome l m (InitLogServer c p w1) (InitLogServer c p w2) H) as Hi;
    destruct (zap.Infof l m (InitLogServer c p w1)) as [r1 x1];
    destruct (zap.Infof l m (InitLogServer c p w2)) as [r2 x2] end.
  cbn [fst] in *. by subst r2.
Qed.

Lemma Build_outcome (lc : Config) (w1 w2 : World) :
  atomics w1 = atomics w2 -> fst (Build lc w1) = fst (Build lc w2).
Proof.
  intros H.
  assert (Hvalid : valid_mode lc -> fst (Build lc w1) = fst (Build lc w2)).
  { intros Hv.
    destruct (Build_valid lc w1 Hv) as (x1 & e1 & -> & _ & _ & _ & Ha1 & _).
    destruct (Build_valid lc w2 Hv) as (x2 & e2 & -> & _ & _ & _ & Ha2 & _).
    assert (Hc : built_cores lc w1 = built_cores lc w2).
    { unfold built_cores, report_core, report_gate. by rewrite H. }
    assert (Hr : after_report lc w1 = after_report lc w2).
    { unfold after_report, report_gate. by rewrite H. }
    rewrite Hc, Hr. apply Build_tail_outcome.
    rewrite Ha1, Ha2. unfold atomics_after_report. by rewrite H. }
  destruct (String.eqb_spec (Mode lc) _console) as [Hc|Hc]; [by apply Hvalid; left|].
  destruct (String.eqb_spec (Mode lc) _file) as [Hf|Hf].
  - destruct (String.eqb_spec (FileName lc) "") as [Hn|Hn].
    + by rewrite !(Build_name_check lc _ Hf Hn).
    + by apply Hvalid; right.
  - by rewrite !(Build_mode_check lc _ Hc Hf).
Qed.


(** ** The latency of a request line *)

Lemma Truncate_whole_seconds (d : time.Duration) :
  0 <= d ->
  duration.Truncate d time.Second = d / time.Second * time.Second.
Proof.
  intros Hd. unfold duration.Truncate.
  change (time.Second <=? 0) with false. cbv iota.
  change time.Second with 1000000000.
  rewrite Z.rem_mod_nonneg by lia.
  pose proof (Z.div_mod d 1000000000 ltac:(lia)). lia.
Qed.


(** The lines themselves. *)
Example LogFormatter_lines :
  LogFormatter {| gin.StatusCode := 200; gin.Path := "/ping"; gin.Method := "GET";
                  gin.Latency := 75123456789; gin.ClientIP := "10.0.0.7" |} =
    "[GIN] statusCode:200 path:/ping method:GET cost:1m15s clientIp:10.0.0.7" /\
  LogFormatter {| gin.StatusCode := 200; gin.Path := "/ping"; gin.Method := "GET";
                  gin.Latency := 45123456789; gin.ClientIP := "10.0.0.7" |} =
    "[GIN] statusCode:200 path:/ping method:GET cost:45.123456789s clientIp:10.0.0.7" /\
  LogFormatter {| gin.StatusCode := 200; gin.Path := "/ping"; gin.Method := "GET";
                  gin.Latency := 60 * time.Second; gin.ClientIP := "10.0.0.7" |} =
    "[GIN] statusCode:200 path:/ping method:GET cost:1m0s clientIp:10.0.0.7".
Proof. repeat split. Qed.

(** ** The time encoder *)

Lemma append_empty_r (s : string) : s +:+ "" = s.
Proof.
  induction s as [|c s IH]; [reflexivity|].
  change (String c (s +:+ "") = String c s). by rewrite IH.
Qed.


Lemma below_forallb (P : Z -> bool) (n : Z) :
  forallb P (map Z.of_nat (seq 0 (Z.to_nat n))) = true ->
  forall x, 0 <= x < n -> P x = true.
Proof.
  intros H x Hx. rewrite forallb_forall in H. apply H.
  apply in_map_iff. exists (Z.to_nat x). split; [lia|].
  apply in_seq. lia.
Qed.

Lemma appendInt_two_digits (x : Z) :
  0 <= x < 100 -> time_format.appendInt x 2 = two_digits x "".
Proof.
  intros Hx. apply String.eqb_eq.
  apply (below_forallb
           (fun x => String.eqb (time_format.appendInt x 2) (two_digits x ""))
           100); [vm_compute; reflexivity|lia].
Qed.

Lemma appendInt_four_digits (x : Z) :
  0 <= x < 10000 -> time_format.appendInt x 4 = four_digits x "".
Proof.
  intros Hx. apply String.eqb_eq.
  apply (below_forallb
           (fun x => String.eqb (time_format.appendInt x 4) (four_digits x ""))
           10000); [vm_compute; reflexivity|lia].
Qed.


(** Every core of a built logger encodes times with CustomTimeEncoder:
    no setting of the configuration selects another layout. *)
Lemma Build_time_encoder (lc : Config) (w : World) (logger : zap.Logger)
    (lc' : Config) (w' : World) :
  Build lc w = (Ok logger, lc', w') ->
  Forall (fun c => zapcore.EncodeTime (zapcore.config (zapcore.enc c)) =
                   CustomTimeEncoder)
    (zapcore.cores_of (zap.core logger)).
Proof.
  intros HB. destruct (Build_Ok _ _ _ _ _ HB) as (_ & _ & _ & ->).
  apply Forall_map, Forall_forall. intros c Hc. cbn beta.
  rewrite with_project_config. unfold built_cores in Hc.
  destruct (has_error_sink lc), (has_console_also lc),
    (ReportConfig lc) as [rc|];
    cbn [app] in Hc; repeat (apply elem_of_cons in Hc as [->|Hc]);
    try (by apply elem_of_nil in Hc); reflexivity.
Qed.

(** * More of Build *)

Lemma Build_sinks (lc : Config) (w : World) :
  valid_mode lc ->
  exists w1,
    Build lc w = Build_tail (built_cores lc w) (after_report lc w) w1 /\
    trace w1 = trace w ++ map EvNewSink (constructed_sinks lc w) /\
    atomics w1 = atomics_after_report lc w /\
    _once w1 = _once w /\ listeners w1 = listeners w /\
    occupied w1 = occupied w /\ goroutines w1 = goroutines w.
Proof.
  intros Hv.
  destruct lc as [name level stack addc ship mode fname ename msz mage mbk
                    async json compress console color port rc opts].
  unfold valid_mode in Hv. cbn [Mode FileName] in Hv.
  assert (Hm : (mode = _console /\ String.eqb mode _file = false /\
                String.eqb mode _console = true) \/
               (mode = _file /\ String.eqb mode _file = true /\
                String.eqb mode _console = false /\ String.eqb fname "" = false)).
  { destruct Hv as [->|[-> Hn]]; [left|right]; repeat split.
    by apply String.eqb_neq. }
  clear Hv.
  unfold Build, built_cores, constructed_sinks, has_error_sink, has_console_also,
    atomics_after_report, primary_destination.
  cbn [Name Level Stacktrace AddCaller CallerShip Mode FileName ErrorFileName
       MaxSize MaxAge MaxBackup Async Json Compress Console Color Port
       ReportConfig options].
  destruct Hm as [(-> & Hf & Hc)|(-> & Hf & Hc & Hn)].
  - rewrite Hf, Hc. cbn [negb andb].
    destruct color, json, async, rc as [[[a|]]|];
      (eexists; split; [reflexivity|]);
      cbn [trace emit set_atomics _once listeners occupied goroutines];
      rewrite <- ?app_assoc; done.
  - rewrite Hf, Hc, Hn. cbn [negb andb].
    destruct (String.eqb ename ""), color, json, async, console,
      rc as [[[a|]]|]; cbn [negb andb];
      (eexists; split; [reflexivity|]);
      cbn [trace emit set_atomics _once listeners occupied goroutines];
      rewrite <- ?app_assoc; done.
Qed.

Lemma Build_tail_eq (cores : list zapcore.ioCore) (lc : Config) (w : World) :
  Build_tail cores lc w =
  if 0 <? Port lc then
    let '(r, w') :=
      zap.Infof
        (zap.Sugar (zap.WithOptions (bare_logger lc cores)
                      (options lc ++ new_options lc)))
        (server_message lc)
        (spawn (AtOnceDo (Port lc) (Level lc)) w) in
    (_ ← r; Ok (zap.WithOptions (bare_logger lc cores) (options lc ++ new_options lc)),
     set_options (options lc ++ new_options lc) lc, w')
  else
    (Ok (zap.WithOptions (bare_logger lc cores) (options lc ++ new_options lc)),
     set_options (options lc ++ new_options lc) lc, w).
Proof.
  destruct lc as [name level stack addc ship mode fname ename msz mage mbk
                    async json compress console color port rc opts].
  unfold Build_tail, new_options, bare_logger, set_options, append_option,
    server_message, InitLogServer.
  cbn [Name Level Stacktrace AddCaller CallerShip Mode FileName ErrorFileName
       MaxSize MaxAge MaxBackup Async Json Compress Console Color Port
       ReportConfig options].
  destruct addc, (ship =? 0), stack; cbn [negb];
    cbn [Name Level Stacktrace AddCaller CallerShip Mode FileName ErrorFileName
       MaxSize MaxAge MaxBackup Async Json Compress Console Color Port
       ReportConfig options];
    rewrite <- ?app_assoc; cbn [app]; rewrite ?app_nil_r; reflexivity.
Qed.

(** The normal form of [Build] on a configuration that passes the two
    checks. *)
Lemma Build_normal (lc : Config) (w : World) :
  valid_mode lc ->
  exists w1,
    trace w1 = trace w ++ map EvNewSink (constructed_sinks lc w) /\
    atomics w1 = atomics_after_report lc w /\
    _once w1 = _once w /\ listeners w1 = listeners w /\
    occupied w1 = occupied w /\ goroutines w1 = goroutines w /\
    Build lc w =
    if 0 <? Port lc then
      let '(r, w') :=
        zap.Infof (zap.Sugar (built_logger lc w)) (server_message lc)
          (spawn (AtOnceDo (Port lc) (Level lc)) w1) in
      (_ ← r; Ok (built_logger lc w), built_config lc w, w')
    else (Ok (built_logger lc w), built_config lc w, w1).
Proof.
  intros Hv.
  destruct (Build_sinks lc w Hv) as (w1 & HB & Ht & Ha & H1 & H2 & H3 & H4).
  exists w1. repeat (split; [assumption|]).
  rewrite HB, Build_tail_eq.
  destruct (after_report_fields lc w) as (Hn & Hl & Ho & Hnew & _ & _ & Hp).
  unfold server_message, built_logger, built_config, bare_logger.
  by rewrite Hn, Hl, Ho, Hnew, Hp.
Qed.

Lemma built_logger_cores (lc : Config) (w : World) :
  zapcore.cores_of (zap.core (built_logger lc w)) =
  map (with_project lc) (built_cores lc w).
Proof. unfold built_logger. rewrite WithOptions_core. apply bare_logger_cores. Qed.

Lemma Infof_readable (s : zap.Logger) (msg : string) (w : World) :
  Forall readable (zapcore.cores_of (zap.core s)) ->
  zap.Infof s msg w =
  (Ok tt,
   emit (concat (map (zap.write_events
                        {| zapcore.Entry_Level := zapcore.InfoLevel;
                           zapcore.Message := msg |})
                   (filter (fun c => enabled_now (atomics w) zapcore.InfoLevel c = true)
                      (zapcore.cores_of (zap.core s))))) w).
Proof.
  intros H. unfold zap.Infof.
  rewrite (Core_Enabled_readable _ (atomics w) _ H).
  destruct (filter _ _) as [|c cs] eqn:Hf.
  - rewrite bool_decide_false by (intros Hne; by apply Hne).
    cbn [map concat]. by rewrite emit_nil.
  - rewrite bool_decide_true by done.
    rewrite (Log_readable s zapcore.InfoLevel msg w H). by rewrite Hf.
Qed.

Lemma Infof_nil_gate (s : zap.Logger) (msg : string) (w : World)
    (c : zapcore.ioCore) (cs : list zapcore.ioCore) :
  zapcore.cores_of (zap.core s) = c :: cs ->
  zapcore.enabler c = zapcore.OfAtomicLevel None ->
  zap.Infof s msg w = (Panicked nil_dereference, w).
Proof.
  intros Hc He. unfold zap.Infof.
  destruct (zap.core s) as [|c'|mc]; cbn in Hc; [discriminate| |].
  - injection Hc as -> <-. cbn. unfold zapcore.ioCore_Enabled. by rewrite He.
  - subst mc. cbn. unfold zapcore.ioCore_Enabled. by rewrite He.
Qed.

Lemma Log_nil_gate (s : zap.Logger) (lvl : zapcore.Level) (msg : string)
    (w : World) (c : zapcore.ioCore) (cs : list zapcore.ioCore) :
  zapcore.cores_of (zap.core s) = c :: cs ->
  zapcore.enabler c = zapcore.OfAtomicLevel None ->
  zap.Log s lvl msg w = (Panicked nil_dereference, w).
Proof.
  intros Hc He. unfold zap.Log.
  assert (H1 : zapcore.Core_Enabled (zap.core s) (atomics w) lvl =
               Panicked nil_dereference).
  { destruct (zap.core s) as [|c'|mc]; cbn in Hc; [discriminate| |].
    - injection Hc as -> <-. cbn. unfold zapcore.ioCore_Enabled. by rewrite He.
    - subst mc. cbn. unfold zapcore.ioCore_Enabled. by rewrite He. }
  assert (H2 : forall ent, zapcore.Core_Check (zap.core s) (atomics w) ent [] =
               Panicked nil_dereference).
  { intros ent. destruct (zap.core s) as [|c'|mc]; cbn in Hc; [discriminate| |].
    - injection Hc as -> <-. cbn. unfold zapcore.ioCore_Check, zapcore.ioCore_Enabled.
      by rewrite He.
    - subst mc. cbn. unfold zapcore.ioCore_Check, zapcore.ioCore_Enabled.
      by rewrite He. }
  rewrite H1, H2. by destruct (lvl <? zapcore.DPanicLevel).
Qed.

Lemma write_events_are_writes (ent : zapcore.Entry) (cs : list zapcore.ioCore) :
  Forall (fun e => is_write_or_sync e = true)
    (concat (map (zap.write_events ent) cs)).
Proof.
  induction cs as [|c cs IH]; [constructor|].
  cbn [map concat]. apply Forall_app. split; [|exact IH].
  unfold zap.write_events.
  destruct (zapcore.ErrorLevel <? zapcore.Entry_Level ent); by repeat constructor.
Qed.

Lemma Log_events (log : zap.Logger) (lvl : zapcore.Level) (msg : string)
    (w : World) :
  exists evs,
    snd (zap.Log log lvl msg w) = emit evs w /\
    Forall (fun e => is_write_or_sync e = true) evs.
Proof.
  unfold zap.Log.
  destruct (if lvl <? zapcore.DPanicLevel then _ else _) as [[|]|v|c];
    try (exists []; split; [symmetry; apply emit_nil|constructor]).
  destruct (zapcore.Core_Check _ _ _ _) as [cores|v|c];
    try (exists []; split; [symmetry; apply emit_nil|constructor]).
  eexists. split; [reflexivity|]. apply write_events_are_writes.
Qed.

Lemma Infof_events (s : zap.Logger) (msg : string) (w : World) :
  exists evs,
    snd (zap.Infof s msg w) = emit evs w /\
    Forall (fun e => is_write_or_sync e = true) evs.
Proof.
  unfold zap.Infof.
  destruct (zapcore.Core_Enabled _ _ _) as [[|]|v|c];
    try (exists []; split; [symmetry; apply emit_nil|constructor]).
  apply Log_events.
Qed.

(** The world [Build] leaves on a configuration that passes the two checks,
    whether it then returns or panics. *)
Lemma Build_world (lc : Config) (w : World) :
  valid_mode lc ->
  exists evs,
    trace (snd (Build lc w)) =
      trace w ++ map EvNewSink (constructed_sinks lc w) ++ evs /\
    Forall (fun e => is_write_or_sync e = true) evs /\
    atomics (snd (Build lc w)) = atomics_after_report lc w /\
    _once (snd (Build lc w)) = _once w /\
    listeners (snd (Build lc w)) = listeners w /\
    occupied (snd (Build lc w)) = occupied w /\
    goroutines (snd (Build lc w)) =
      goroutines w ++
      (if 0 <? Port lc then [AtOnceDo (Port lc) (Level lc)] else []).
Proof.
  intros Hv.
  destruct (Build_normal lc w Hv) as (w1 & Ht & Ha & H1 & H2 & H3 & H4 & ->).
  destruct (0 <? Port lc).
  - match goal with |- context [zap.Infof ?l ?m ?x] =>
      destruct (Infof_events l m x) as (evs & Hw & Hevs);
      destruct (zap.Infof l m x) as [r w2] end.
    cbn [snd] in *. subst w2. exists evs.
    cbn [trace atomics _once listeners occupied goroutines emit spawn].
    rewrite Ht, H4, <- app_assoc. by repeat split.
  - exists []. cbn [snd]. rewrite Ht, !app_nil_r. by repeat split.
Qed.

(** X1. Build returns a logger exactly when the mode passes the two checks
    and, if a port is set, the level is not the zero AtomicLevel. *)
Theorem Build_returns_logger_iff (lc : Config) (w : World) :
  (exists logger lc' w', Build lc w = (Ok logger, lc', w')) <->
  valid_mode lc /\ (0 < Port lc -> Level lc <> None).
Proof.
  split.
  - intros (logger & lc' & w' & HB).
    pose proof (Build_Ok_valid _ _ _ _ _ HB) as Hv. split; [exact Hv|].
    intros Hp Hl.
    destruct (Build_normal lc w Hv) as (w1 & _ & _ & _ & _ & _ & _ & Heq).
    rewrite Heq in HB. apply Z.ltb_lt in Hp. rewrite Hp in HB.
    erewrite Infof_nil_gate in HB; [discriminate| |].
    + change (zap.core (zap.Sugar ?l)) with (zap.core l).
      rewrite built_logger_cores. reflexivity.
    + rewrite with_project_enabler. cbn. by rewrite Hl.
  - intros (Hv & Hl).
    destruct (Build_normal lc w Hv) as (w1 & _ & _ & _ & _ & _ & _ & Heq).
    rewrite Heq. destruct (0 <? Port lc) eqn:Hp; [|by eexists _, _, _].
    apply Z.ltb_lt in Hp. destruct (Level lc) as [a|] eqn:Ha; [|by destruct Hl].
    rewrite Infof_readable.
    + by eexists _, _, _.
    + change (zap.core (zap.Sugar ?l)) with (zap.core l).
      rewrite built_logger_cores. by apply (built_cores_readable lc w a).
Qed.

(** X2. Without a level and with a port, Build panics on the nil pointer
    only at its last step: the sinks have been constructed, the receiver has
    this run's options, and the goroutine of the endpoint has been
    started. *)
Theorem Build_without_level_panics_late (lc : Config) (w : World) :
  valid_mode lc -> Level lc = None -> 0 < Port lc ->
  exists w',
    Build lc w = (Panicked nil_dereference, built_config lc w, w') /\
    trace w' = trace w ++ map EvNewSink (constructed_sinks lc w) /\
    constructed_sinks lc w <> [] /\
    options (built_config lc w) = options lc ++ new_options lc /\
    goroutines w' = goroutines w ++ [AtOnceDo (Port lc) None].
Proof.
  intros Hv Hl Hp.
  destruct (Build_normal lc w Hv) as (w1 & Ht & _ & _ & _ & _ & Hg & Heq).
  rewrite Heq. apply Z.ltb_lt in Hp. rewrite Hp, Hl.
  erewrite Infof_nil_gate.
  - eexists. split; [reflexivity|]. cbn [trace goroutines spawn].
    rewrite Ht, Hg. repeat split.
    unfold constructed_sinks.
    destruct (String.eqb (Mode lc) _console); [discriminate|].
    destruct (negb _); discriminate.
  - change (zap.core (zap.Sugar ?l)) with (zap.core l).
    rewrite built_logger_cores. reflexivity.
  - rewrite with_project_enabler. cbn. by rewrite Hl.
Qed.

(** X3. A logger built without a level (no port set) panics on every
    record, at every severity, and writes nothing. *)
Theorem logger_without_level_panics (lc : Config) (w : World)
    (logger : zap.Logger) (lc' : Config) (w' : World)
    (S : zapcore.Level) (msg : string) (w1 : World) :
  Build lc w = (Ok logger, lc', w') -> Level lc = None ->
  zap.Log logger S msg w1 = (Panicked nil_dereference, w1).
Proof.
  intros HB Hl.
  destruct (Build_Ok _ _ _ _ _ HB) as (_ & _ & _ & Hcores).
  eapply Log_nil_gate; [exact Hcores|].
  rewrite with_project_enabler. cbn. by rewrite Hl.
Qed.


Lemma Build_atomics (lc : Config) (w : World) (a : positive) :
  is_Some (atomics w !! a) ->
  atomics (snd (Build lc w)) !! a = atomics w !! a.
Proof.
  intros Ha.
  assert (Hvalid : valid_mode lc ->
                   atomics (snd (Build lc w)) !! a = atomics w !! a).
  { intros Hv. destruct (Build_world lc w Hv) as (evs & _ & _ & -> & _).
    unfold atomics_after_report.
    destruct (ReportConfig lc) as [[[b|]]|]; try reflexivity.
    apply lookup_insert_ne. intros Heq.
    apply elem_of_dom in Ha. rewrite <- Heq in Ha.
    by apply is_fresh in Ha. }
  destruct (String.eqb_spec (Mode lc) _console) as [Hc|Hc]; [by apply Hvalid; left|].
  destruct (String.eqb_spec (Mode lc) _file) as [Hf|Hf].
  - destruct (String.eqb_spec (FileName lc) "") as [Hn|Hn].
    + by rewrite (Build_name_check lc w Hf Hn).
    + by apply Hvalid; right.
  - by rewrite (Build_mode_check lc w Hc Hf).
Qed.

(** X5. Whatever the configuration and whatever its outcome, Build leaves
    the value of every gate that exists unchanged: the only memory it
    writes is the new cell of a report level. *)
Theorem Build_keeps_existing_gates (lc : Config) (w : World) (a : positive) :
  is_Some (atomics w !! a) ->
  atomics (snd (Build lc w)) !! a = atomics w !! a /\
  gate_value (atomics (snd (Build lc w))) a = gate_value (atomics w) a.
Proof.
  intros Ha. pose proof (Build_atomics lc w a Ha) as H.
  split; [exact H|]. unfold gate_value. by rewrite H.
Qed.

Lemma Build_keeps_existing_gates_witness :
  atomics (snd (Build file_config warn_world)) !! 1%positive =
    atomics warn_world !! 1%positive /\
  gate_value (atomics (snd (Build file_config warn_world))) 1%positive =
    gate_value (atomics warn_world) 1%positive.
Proof.
  apply (Build_keeps_existing_gates file_config warn_world 1%positive).
  vm_compute. eexists. reflexivity.
Defined.

Lemma Build_Ok_atomics (lc : Config) (w : World) (logger : zap.Logger)
    (lc' : Config) (w' : World) :
  Build lc w = (Ok logger, lc', w') -> atomics w' = atomics_after_report lc w.
Proof.
  intros HB. pose proof (Build_Ok_valid _ _ _ _ _ HB) as Hv.
  destruct (Build_world lc w Hv) as (evs & _ & _ & Ha & _).
  by rewrite HB in Ha.
Qed.

(** X6. A report configuration without a level gets a gate of its own: a
    cell that did not exist, holding "warning", recorded in the receiver.
    The report core writes a record exactly when its severity is at or
    above the value of that cell, and UpdateLevel, which sets the main
    gate, does not change it. *)
Theorem report_level_defaults_to_own_warn_gate (lc : Config) (w : World)
    (logger : zap.Logger) (lc' : Config) (w' : World)
    (rc : report.ReportConfig) (a : positive)
    (w1 : World) (l S : zapcore.Level) (msg : string) :
  Build lc w = (Ok logger, lc', w') ->
  ReportConfig lc = Some rc ->
  report.Level rc = None ->
  Level lc = Some a ->
  is_Some (atomics w !! a) ->
  exists b reportCore,
    b <> a /\
    atomics w !! b = None /\
    ReportConfig lc' = Some {| report.Level := Some b |} /\
    gate_value (atomics w') b = zapcore.WarnLevel /\
    reportCore ∈ zapcore.cores_of (zap.core logger) /\
    zapcore.out reportCore = ReportWriterBuffer {| report.Level := Some b |} /\
    zapcore.enabler reportCore = zapcore.OfAtomicLevel (Some b) /\
    (delivered reportCore {| zapcore.Entry_Level := S; zapcore.Message := msg |}
       w1 (snd (zap.Log logger S msg w1)) <->
     gate_value (atomics w1) b <= S) /\
    (exists w2,
       UpdateLevel lc' l w1 = (Ok tt, w2) /\
       gate_value (atomics w2) b = gate_value (atomics w1) b).
Proof.
  intros HB Hrc Hnone Ha Hex.
  destruct (Build_Ok _ _ _ _ _ HB) as (_ & Hlc & _ & Hcores).
  pose proof (Build_Ok_atomics _ _ _ _ _ HB) as Hat.
  pose proof (built_cores_readable lc w a Ha) as Hr. rewrite <- Hcores in Hr.
  set (b := fresh (dom (atomics w))).
  assert (Hfresh : atomics w !! b = None).
  { apply not_elem_of_dom. apply is_fresh. }
  assert (Hba : b <> a).
  { intros ->. rewrite Hfresh in Hex. by destruct Hex. }
  assert (Hgate : report_gate rc w = Some b).
  { unfold report_gate. by rewrite Hnone. }
  exists b, (with_project lc (report_core rc w)).
  assert (Hin : with_project lc (report_core rc w) ∈
                zapcore.cores_of (zap.core logger)).
  { rewrite Hcores. apply list_elem_of_fmap_2.
    unfold built_cores. rewrite Hrc.
    do 3 (apply elem_of_app; right). apply list_elem_of_here. }
  split; [exact Hba|]. split; [exact Hfresh|].
  split.
  { rewrite Hlc. cbn [set_options ReportConfig]. unfold after_report.
    rewrite Hrc, Hnone. cbn [set_ReportConfig_Level ReportConfig].
    by rewrite Hgate. }
  split.
  { rewrite Hat. unfold atomics_after_report. rewrite Hrc, Hnone.
    unfold gate_value. fold b. by rewrite lookup_insert_eq. }
  split; [exact Hin|].
  split; [rewrite with_project_out; cbn; by rewrite Hgate|].
  split; [rewrite with_project_enabler; cbn; by rewrite Hgate|].
  split.
  { rewrite (delivered_iff logger S msg w1 _ Hr Hin).
    unfold enabled_now, zapcore.ioCore_Enabled.
    rewrite with_project_enabler. cbn [report_core zapcore.enabler].
    rewrite Hgate. cbn. apply Z.leb_le. }
  unfold UpdateLevel. rewrite Hlc. cbn [set_options Level].
  destruct (after_report_fields lc w) as (_ & -> & _). rewrite Ha.
  eexists. split; [reflexivity|].
  unfold gate_value. cbn [atomics set_atomics].
  by rewrite lookup_insert_ne by done.
Qed.

Lemma report_level_defaults_to_own_warn_gate_witness :
  exists b reportCore,
    b <> 1%positive /\
    atomics warn_world !! b = None /\
    ReportConfig file_config_built = Some {| report.Level := Some b |} /\
    gate_value (atomics file_world_built) b = zapcore.WarnLevel /\
    reportCore ∈ zapcore.cores_of (zap.core file_logger) /\
    zapcore.out reportCore = ReportWriterBuffer {| report.Level := Some b |} /\
    zapcore.enabler reportCore = zapcore.OfAtomicLevel (Some b) /\
    (delivered reportCore
       {| zapcore.Entry_Level := zapcore.InfoLevel; zapcore.Message := "hello" |}
       file_world_built
       (snd (zap.Log file_logger zapcore.InfoLevel "hello" file_world_built)) <->
     gate_value (atomics file_world_built) b <= zapcore.InfoLevel) /\
    (exists w2,
       UpdateLevel file_config_built zapcore.DebugLevel file_world_built = (Ok tt, w2) /\
       gate_value (atomics w2) b = gate_value (atomics file_world_built) b).
Proof.
  apply (report_level_defaults_to_own_warn_gate file_config warn_world
           file_logger file_config_built file_world_built
           {| report.Level := None |} 1%positive
           file_world_built zapcore.DebugLevel zapcore.InfoLevel "hello").
  - vm_compute. reflexivity.
  - reflexivity.
  - reflexivity.
  - reflexivity.
  - vm_compute. eexists. reflexivity.
Defined.

Lemma built_cores_rebuilt (lc : Config) (w w1 : World) :
  built_cores (built_config lc w) w1 = built_cores lc w /\
  atomics_after_report (built_config lc w) w1 = atomics w1 /\
  after_report (built_config lc w) w1 = built_config lc w /\
  Name (built_config lc w) = Name lc.
Proof.
  destruct lc as [name level stack addc ship mode fname ename msz mage mbk
                    async json compress console color port rc opts].
  unfold built_config, built_cores, atomics_after_report, after_report,
    set_options, report_core, report_gate.
  by destruct rc as [[[a|]]|].
Qed.


(** X8. Starting from an empty options slice, the logger captures the
    caller exactly when addCaller is set, skips callerShip frames in that
    case and none otherwise (callerShip is not looked at without
    addCaller), and takes stack traces from "panic" up when stacktrace is
    set, and otherwise only above "fatal", which is zap's default. *)
Theorem Build_logger_settings (lc : Config) (w : World)
    (logger : zap.Logger) (lc' : Config) (w' : World) :
  Build lc w = (Ok logger, lc', w') ->
  options lc = [] ->
  zap.addCaller logger = AddCaller lc /\
  zap.callerSkip logger = (if AddCaller lc then int64 (CallerShip lc) else 0) /\
  zap.addStack logger =
    (if Stacktrace lc
     then zapcore.OfLevel zapcore.PanicLevel
     else zapcore.OfLevel (zapcore.FatalLevel + 1)).
Proof.
  intros HB Ho.
  destruct (Build_Ok _ _ _ _ _ HB) as (_ & Hlc & -> & _).
  rewrite Hlc. cbn [set_options options]. rewrite Ho. cbn [app].
  unfold new_options, bare_logger.
  destruct (AddCaller lc), (Z.eqb_spec (CallerShip lc) 0) as [He|Hne],
    (Stacktrace lc), (String.eqb (Name lc) ""); rewrite ?He; repeat split.
Qed.

Lemma Build_logger_settings_witness :
  zap.addCaller console_logger = AddCaller console_config /\
  zap.callerSkip console_logger =
    (if AddCaller console_config then int64 (CallerShip console_config) else 0) /\
  zap.addStack console_logger =
    (if Stacktrace console_config
     then zapcore.OfLevel zapcore.PanicLevel
     else zapcore.OfLevel (zapcore.FatalLevel + 1)).
Proof.
  apply (Build_logger_settings console_config warn_world
           console_logger console_config_built console_world_built).
  - vm_compute. reflexivity.
  - reflexivity.
Defined.

(** X9. Every core of the logger, the report core included, carries the
    field project = name when the name is not empty, and no field
    otherwise. *)
Theorem Build_project_field (lc : Config) (w : World)
    (logger : zap.Logger) (lc' : Config) (w' : World) :
  Build lc w = (Ok logger, lc', w') ->
  Forall (fun c =>
            zapcore.context (zapcore.enc c) =
            if String.eqb (Name lc) "" then [] else [("project", Name lc)])
    (zapcore.cores_of (zap.core logger)).
Proof.
  intros HB. destruct (Build_Ok _ _ _ _ _ HB) as (_ & _ & _ & ->).
  apply Forall_map, Forall_forall. intros c Hc. cbn beta.
  assert (H0 : zapcore.context (zapcore.enc c) = []).
  { unfold built_cores in Hc.
    destruct (has_error_sink lc), (has_console_also lc),
      (ReportConfig lc) as [rc|];
      cbn [app] in Hc; repeat (apply elem_of_cons in Hc as [->|Hc]);
      try (by apply elem_of_nil in Hc); reflexivity. }
  unfold with_project. destruct (String.eqb (Name lc) ""); [exact H0|].
  cbn. by rewrite H0.
Qed.

Lemma Build_project_field_witness :
  Forall (fun c =>
            zapcore.context (zapcore.enc c) =
            if String.eqb (Name file_config) "" then []
            else [("project", Name file_config)])
    (zapcore.cores_of (zap.core file_logger)).
Proof.
  apply (Build_project_field file_config warn_world
           file_logger file_config_built file_world_built).
  vm_compute. reflexivity.
Defined.

(** X10. In file mode with console set, the primary core and the console
    core share the main gate: in every state of the process one writes a
    record exactly when the other does. *)
Theorem primary_and_console_cores_agree (lc : Config) (w : World)
    (logger : zap.Logger) (lc' : Config) (w' : World) (a : positive)
    (w1 : World) (S : zapcore.Level) (msg : string) :
  Build lc w = (Ok logger, lc', w') ->
  Mode lc = _file ->
  Console lc = true ->
  Level lc = Some a ->
  exists primary consoleCore,
    zapcore.cores_of (zap.core logger) !! 0%nat = Some primary /\
    zapcore.cores_of (zap.core logger)
      !! (if has_error_sink lc then 2%nat else 1%nat) = Some consoleCore /\
    zapcore.out primary = buffered lc (rotating_file lc (FileName lc)) /\
    zapcore.out consoleCore = lockedWriteSyncer os_Stdout /\
    (delivered primary {| zapcore.Entry_Level := S; zapcore.Message := msg |}
       w1 (snd (zap.Log logger S msg w1)) <->
     delivered consoleCore {| zapcore.Entry_Level := S; zapcore.Message := msg |}
       w1 (snd (zap.Log logger S msg w1))).
Proof.
  intros HB Hm Hc Ha.
  destruct (Build_Ok _ _ _ _ _ HB) as (_ & _ & _ & Hcores).
  pose proof (built_cores_readable lc w a Ha) as Hr. rewrite <- Hcores in Hr.
  assert (Hhas : has_console_also lc = true).
  { unfold has_console_also. by rewrite Hm, Hc. }
  exists (with_project lc (primary_core lc)), (with_project lc (console_core lc)).
  assert (H0 : zapcore.cores_of (zap.core logger) !! 0%nat =
               Some (with_project lc (primary_core lc))) by by rewrite Hcores.
  assert (H1 : zapcore.cores_of (zap.core logger)
                 !! (if has_error_sink lc then 2%nat else 1%nat) =
               Some (with_project lc (console_core lc))).
  { rewrite Hcores. unfold built_cores. rewrite Hhas.
    by destruct (has_error_sink lc). }
  split; [exact H0|]. split; [exact H1|].
  split.
  { rewrite with_project_out. cbn [primary_core zapcore.out].
    unfold primary_destination. by rewrite Hm. }
  split; [by rewrite with_project_out|].
  rewrite (delivered_iff logger S msg w1 _ Hr (list_elem_of_lookup_2 _ _ _ H0)).
  rewrite (delivered_iff logger S msg w1 _ Hr (list_elem_of_lookup_2 _ _ _ H1)).
  unfold enabled_now, zapcore.ioCore_Enabled.
  by rewrite !with_project_enabler.
Qed.

Lemma primary_and_console_cores_agree_witness :
  exists primary consoleCore,
    zapcore.cores_of (zap.core file_logger) !! 0%nat = Some primary /\
    zapcore.cores_of (zap.core file_logger)
      !! (if has_error_sink file_config then 2%nat else 1%nat) = Some consoleCore /\
    zapcore.out primary =
      buffered file_config (rotating_file file_config (FileName file_config)) /\
    zapcore.out consoleCore = lockedWriteSyncer os_Stdout /\
    (delivered primary
       {| zapcore.Entry_Level := zapcore.ErrorLevel; zapcore.Message := "hello" |}
       warn_world (snd (zap.Log file_logger zapcore.ErrorLevel "hello" warn_world)) <->
     delivered consoleCore
       {| zapcore.Entry_Level := zapcore.ErrorLevel; zapcore.Message := "hello" |}
       warn_world (snd (zap.Log file_logger zapcore.ErrorLevel "hello" warn_world))).
Proof.
  apply (primary_and_console_cores_agree file_config warn_world
           file_logger file_config_built file_world_built 1%positive
           warn_world zapcore.ErrorLevel "hello").
  - vm_compute. reflexivity.
  - reflexivity.
  - reflexivity.
  - reflexivity.
Defined.

Lemma filter_new_sinks (l : list Writer) :
  filter (fun e => is_new_sink e = true) (map EvNewSink l) = map EvNewSink l.
Proof.
  induction l as [|ws l IH]; [reflexivity|].
  cbn [map]. rewrite filter_cons_True by done. by rewrite IH.
Qed.

Lemma Build_sinks_constructed (lc : Config) (w : World) :
  valid_mode lc ->
  sinks_constructed (snd (Build lc w)) =
  sinks_constructed w ++ map EvNewSink (constructed_sinks lc w).
Proof.
  intros Hv. destruct (Build_world lc w Hv) as (evs & Ht & Hevs & _).
  unfold sinks_constructed. rewrite Ht, !filter_app, filter_new_sinks.
  rewrite (filter_none _ evs), app_nil_r; [reflexivity|].
  eapply Forall_impl; [exact Hevs|]. by intros [].
Qed.

(** X11. In console mode the file settings are not looked at: whatever
    fileName, errorFileName and console say, no sink that Build constructs
    reaches a file, no core writes to one, there is no error-only core
    (every core is gated by an AtomicLevel), and the first core writes to
    the locked standard output, buffered when async is set. *)
Theorem console_mode_ignores_file_settings (lc : Config) (w : World)
    (logger : zap.Logger) (lc' : Config) (w' : World) :
  Build lc w = (Ok logger, lc', w') ->
  Mode lc = _console ->
  sinks_constructed w' =
    sinks_constructed w ++ map EvNewSink (constructed_sinks lc w) /\
  Forall (fun ws => writes_file ws = false) (constructed_sinks lc w) /\
  zapcore.cores_of (zap.core logger) =
    map (with_project lc)
      (primary_core lc ::
       match ReportConfig lc with
       | Some rc => [report_core rc w]
       | None => []
       end) /\
  zapcore.out (primary_core lc) = buffered lc (lockedWriteSyncer os_Stdout) /\
  Forall (fun c =>
            writes_file (zapcore.out c) = false /\
            exists p, zapcore.enabler c = zapcore.OfAtomicLevel p)
    (zapcore.cores_of (zap.core logger)).
Proof.
  intros HB Hm.
  destruct (Build_Ok _ _ _ _ _ HB) as (Hv & _ & _ & Hcores).
  pose proof (Build_sinks_constructed lc w Hv) as Hs. rewrite HB in Hs.
  assert (He : has_error_sink lc = false) by (unfold has_error_sink; by rewrite Hm).
  assert (Hc : has_console_also lc = false)
    by (unfold has_console_also; by rewrite Hm).
  assert (Hcs : zapcore.cores_of (zap.core logger) =
                map (with_project lc)
                  (primary_core lc ::
                   match ReportConfig lc with
                   | Some rc => [report_core rc w]
                   | None => []
                   end)).
  { rewrite Hcores. unfold built_cores. by rewrite He, Hc. }
  split; [exact Hs|].
  split.
  { unfold constructed_sinks, primary_destination. rewrite He, Hc, Hm.
    change (String.eqb _console _console) with true. cbv iota.
    destruct (Async lc), (ReportConfig lc); by repeat constructor. }
  split; [exact Hcs|].
  split.
  { cbn [primary_core zapcore.out]. unfold primary_destination. by rewrite Hm. }
  rewrite Hcs. apply Forall_map, Forall_forall. intros c Hin. cbn beta.
  rewrite with_project_out, with_project_enabler.
  assert (Hp : writes_file (buffered lc (primary_destination lc)) = false).
  { unfold buffered, primary_destination. rewrite Hm. by destruct (Async lc). }
  destruct (ReportConfig lc) as [rc|];
    repeat (apply elem_of_cons in Hin as [->|Hin]);
    try (by apply elem_of_nil in Hin);
    (split; [try exact Hp; reflexivity|by eexists]).
Qed.

Lemma console_mode_ignores_file_settings_witness :
  sinks_constructed (snd (Build console_with_files_config warn_world)) =
    sinks_constructed warn_world ++
    map EvNewSink (constructed_sinks console_with_files_config warn_world) /\
  Forall (fun ws => writes_file ws = false)
    (constructed_sinks console_with_files_config warn_world) /\
  zapcore.cores_of (zap.core (built_logger console_with_files_config warn_world)) =
    map (with_project console_with_files_config)
      (primary_core console_with_files_config ::
       match ReportConfig console_with_files_config with
       | Some rc => [report_core rc warn_world]
       | None => []
       end) /\
  zapcore.out (primary_core console_with_files_config) =
    buffered console_with_files_config (lockedWriteSyncer os_Stdout) /\
  Forall (fun c =>
            writes_file (zapcore.out c) = false /\
            exists p, zapcore.enabler c = zapcore.OfAtomicLevel p)
    (zapcore.cores_of (zap.core (built_logger console_with_files_config warn_world))).
Proof.
  apply (console_mode_ignores_file_settings console_with_files_config warn_world
           (built_logger console_with_files_config warn_world)
           (built_config console_with_files_config warn_world)
           (snd (Build console_with_files_config warn_world))).
  - vm_compute. reflexivity.
  - reflexivity.
Defined.

(** X12. A record emitted through a built logger goes to the cores that are
    enabled for its severity, in the order primary, error, console, report,
    once each.  A core syncs its sink right after its write exactly when the
    severity is above "error".  After the writes the call panics with the
    message at "panic", ends the process with code 1 at "fatal", and returns
    at every other severity. *)
Theorem built_logger_fan_out (lc : Config) (w : World)
    (logger : zap.Logger) (lc' : Config) (w' : World) (a : positive)
    (w1 : World) (S : zapcore.Level) (msg : string) :
  Build lc w = (Ok logger, lc', w') ->
  Level lc = Some a ->
  zap.Log logger S msg w1 =
  (if S =? zapcore.PanicLevel then Panicked msg
   else if S =? zapcore.FatalLevel then Exited 1
   else Ok tt,
   emit (concat (map (fun c =>
                        if zapcore.ErrorLevel <? S
                        then [EvWrite c {| zapcore.Entry_Level := S;
                                           zapcore.Message := msg |};
                              EvSync c]
                        else [EvWrite c {| zapcore.Entry_Level := S;
                                           zapcore.Message := msg |}])
                   (filter (fun c => enabled_now (atomics w1) S c = true)
                      (map (with_project lc) (built_cores lc w))))) w1).
Proof.
  intros HB Ha.
  destruct (Build_Ok _ _ _ _ _ HB) as (_ & _ & _ & Hcores).
  pose proof (built_cores_readable lc w a Ha) as Hr. rewrite <- Hcores in Hr.
  rewrite (Log_readable logger S msg w1 Hr), Hcores. reflexivity.
Qed.

Lemma built_logger_fan_out_witness :
  zap.Log file_logger zapcore.PanicLevel "boom" warn_world =
  (Panicked "boom",
   emit (concat (map (fun c =>
                        [EvWrite c {| zapcore.Entry_Level := zapcore.PanicLevel;
                                      zapcore.Message := "boom" |};
                         EvSync c])
                   (filter (fun c => enabled_now (atomics warn_world)
                                       zapcore.PanicLevel c = true)
                      (map (with_project file_config)
                         (built_cores file_config warn_world))))) warn_world).
Proof.
  apply (built_logger_fan_out file_config warn_world
           file_logger file_config_built file_world_built 1%positive
           warn_world zapcore.PanicLevel "boom").
  - vm_compute. reflexivity.
  - reflexivity.
Defined.

(** * logx.go *)

Lemma toZapFields_map (fields : list logx.LogField) :
  toZapFields fields =
  map (fun f => zap_Any (logx.Key f) (logx.Value f)) fields.
Proof.
  unfold toZapFields.
  assert (H : forall acc,
             fold_left (fun zapFields f =>
                          zapFields ++ [zap_Any (logx.Key f) (logx.Value f)])
               fields acc =
             acc ++ map (fun f => zap_Any (logx.Key f) (logx.Value f)) fields).
  { induction fields as [|f fields IH]; intros acc; cbn [fold_left map].
    - by rewrite app_nil_r.
    - rewrite IH, <- app_assoc. reflexivity. }
  apply (H []).
Qed.

(** X13. toZapFields turns the fields one for one, in order: as many zap
    fields as log fields, with the same keys and values at the same places,
    and the fields of a concatenation are the concatenation of the
    fields. *)
Theorem toZapFields_one_for_one (fields more : list logx.LogField) (i : nat) :
  length (toZapFields fields) = length fields /\
  toZapFields fields !! i =
    (fun f => zap_Any (logx.Key f) (logx.Value f)) <$> fields !! i /\
  map zap_Field_key (toZapFields fields) = map logx.Key fields /\
  toZapFields (fields ++ more) = toZapFields fields ++ toZapFields more.
Proof.
  rewrite !toZapFields_map. split; [apply length_map|].
  split; [apply list_lookup_fmap|].
  split; [|apply map_app].
  rewrite map_map. reflexivity.
Qed.

Lemma Core_Check_not_exited (c : zapcore.Core) (mem : gmap positive Z)
    (ent : zapcore.Entry) (ce : list zapcore.ioCore) (code : Z) :
  zapcore.Core_Check c mem ent ce <> Exited code.
Proof.
  assert (Hio : forall c0 ce0, zapcore.ioCore_Check c0 mem ent ce0 <> Exited code).
  { intros c0 ce0. unfold zapcore.ioCore_Check, zapcore.ioCore_Enabled, zapcore.Enabled.
    destruct (zapcore.enabler c0) as [l|[p|]]; cbn; discriminate. }
  destruct c as [|c0|mc]; cbn; [discriminate|apply Hio|].
  revert ce. induction mc as [|c0 mc IH]; intros ce; cbn; [discriminate|].
  pose proof (Hio c0 ce) as H0.
  destruct (zapcore.ioCore_Check c0 mem ent ce) as [ce'| |]; cbn;
    [apply IH|discriminate|congruence].
Qed.

(** X14. Severe never returns: whatever the logger, its cores and their
    gates, whatever the value and the state of the process, the call ends in
    a panic. *)
Theorem ZapWriter_Severe_always_panics (zw : ZapWriter) (v : fmt.Value)
    (w : World) :
  exists m, fst (ZapWriter_Severe zw v w) = Panicked m.
Proof.
  unfold ZapWriter_Severe, Logger_log, zap.Log.
  change (zapcore.PanicLevel <? zapcore.DPanicLevel) with false. cbv iota.
  pose proof (Core_Check_not_exited (zap.core (ZapWriter_logger zw)) (atomics w)
                {| zapcore.Entry_Level := zapcore.PanicLevel;
                   zapcore.Message := fmt.Sprint v |} []) as Hne.
  destruct (zapcore.Core_Check _ _ _ _) as [cores|m|code];
    [by eexists|by eexists|by destruct (Hne code)].
Qed.

Lemma write_events_entry (ent e : zapcore.Entry) (c : zapcore.ioCore)
    (cs : list zapcore.ioCore) :
  EvWrite c e ∈ concat (map (zap.write_events ent) cs) -> e = ent /\ c ∈ cs.
Proof.
  induction cs as [|c' cs IH]; cbn [map concat].
  - intros H. by apply elem_of_nil in H.
  - rewrite elem_of_app. intros [H|H].
    + unfold zap.write_events in H.
      assert (Heq : EvWrite c e = EvWrite c' ent).
      { destruct (zapcore.ErrorLevel <? zapcore.Entry_Level ent);
          apply elem_of_cons in H as [H|H]; try exact H.
        - apply elem_of_cons in H as [H|H]; [discriminate|by apply elem_of_nil in H].
        - by apply elem_of_nil in H. }
      injection Heq as -> ->. split; [reflexivity|apply list_elem_of_here].
    + destruct (IH H) as [-> Hin]. split; [reflexivity|by apply list_elem_of_further].
Qed.

(** A core that is not enabled for the level writes nothing at all. *)
Lemma not_enabled_not_delivered (log : zap.Logger) (lvl : zapcore.Level)
    (msg : string) (w : World) (c : zapcore.ioCore) (e : zapcore.Entry) :
  Forall readable (zapcore.cores_of (zap.core log)) ->
  enabled_now (atomics w) lvl c = false ->
  ~ delivered c e w (snd (zap.Log log lvl msg w)).
Proof.
  intros Hr He (evs & Heq & Hin).
  rewrite (Log_readable log lvl msg w Hr) in Heq. cbn [snd emit trace] in Heq.
  apply app_inv_head in Heq. subst evs.
  apply write_events_entry in Hin as [_ Hin].
  apply list_elem_of_filter in Hin as [Hen _]. congruence.
Qed.

(** X15. Over a logger with an error-only sink, the writer's Alert, Error,
    Stack and Severe always reach the error core, whatever the main gate
    holds, and its Debug, Info, Slow and Stat never make the error core
    write anything. *)
Theorem ZapWriter_and_the_error_sink (lc : Config) (w : World)
    (logger : zap.Logger) (lc' : Config) (w' : World) (a : positive)
    (w1 : World) (v : fmt.Value) (fields : list logx.LogField)
    (e : zapcore.Entry) :
  Build lc w = (Ok logger, lc', w') ->
  Mode lc = _file ->
  ErrorFileName lc <> "" ->
  Level lc = Some a ->
  exists high,
    zapcore.cores_of (zap.core logger) !! 1%nat = Some high /\
    zapcore.out high = buffered lc (rotating_file lc (ErrorFileName lc)) /\
    delivered high {| zapcore.Entry_Level := zapcore.ErrorLevel;
                      zapcore.Message := fmt.Sprint v |}
      w1 (snd (ZapWriter_Alert (NewZapWriter logger) v w1)) /\
    delivered high {| zapcore.Entry_Level := zapcore.ErrorLevel;
                      zapcore.Message := fmt.Sprint v |}
      w1 (snd (ZapWriter_Error (NewZapWriter logger) v fields w1)) /\
    delivered high {| zapcore.Entry_Level := zapcore.ErrorLevel;
                      zapcore.Message := fmt.Sprint v |}
      w1 (snd (ZapWriter_Stack (NewZapWriter logger) v w1)) /\
    delivered high {| zapcore.Entry_Level := zapcore.PanicLevel;
                      zapcore.Message := fmt.Sprint v |}
      w1 (snd (ZapWriter_Severe (NewZapWriter logger) v w1)) /\
    ~ delivered high e w1 (snd (ZapWriter_Debug (NewZapWriter logger) v fields w1)) /\
    ~ delivered high e w1 (snd (ZapWriter_Info (NewZapWriter logger) v fields w1)) /\
    ~ delivered high e w1 (snd (ZapWriter_Slow (NewZapWriter logger) v fields w1)) /\
    ~ delivered high e w1 (snd (ZapWriter_Stat (NewZapWriter logger) v fields w1)).
Proof.
  intros HB Hm He Ha.
  destruct (Build_Ok _ _ _ _ _ HB) as (_ & _ & _ & Hcores).
  pose proof (built_cores_readable lc w a Ha) as Hr. rewrite <- Hcores in Hr.
  assert (Hhas : has_error_sink lc = true).
  { unfold has_error_sink. rewrite Hm. apply String.eqb_neq in He. by rewrite He. }
  assert (H1 : zapcore.cores_of (zap.core logger) !! 1%nat =
               Some (with_project lc (error_core lc))).
  { rewrite Hcores. unfold built_cores. by rewrite Hhas. }
  pose proof (list_elem_of_lookup_2 _ _ _ H1) as Hin.
  assert (Hen : forall w0 S,
             enabled_now (atomics w0) S (with_project lc (error_core lc)) =
             (zapcore.ErrorLevel <=? S)).
  { intros w0 S. unfold enabled_now, zapcore.ioCore_Enabled.
    by rewrite with_project_enabler. }
  exists (with_project lc (error_core lc)).
  split; [exact H1|]. split; [by rewrite with_project_out|].
  unfold ZapWriter_Alert, ZapWriter_Error, ZapWriter_Stack, ZapWriter_Severe,
    ZapWriter_Debug, ZapWriter_Info, ZapWriter_Slow, ZapWriter_Stat,
    Logger_log, NewZapWriter. cbn [ZapWriter_logger].
  repeat split;
    try (apply (delivered_iff logger _ _ w1 _ Hr Hin); by rewrite Hen);
    (apply not_enabled_not_delivered; [exact Hr|by rewrite Hen]).
Qed.

Lemma ZapWriter_and_the_error_sink_witness :
  exists high,
    zapcore.cores_of (zap.core file_logger) !! 1%nat = Some high /\
    zapcore.out high =
      buffered file_config (rotating_file file_config (ErrorFileName file_config)) /\
    delivered high {| zapcore.Entry_Level := zapcore.ErrorLevel;
                      zapcore.Message := fmt.Sprint (fmt.VError "disk full") |}
      warn_world
      (snd (ZapWriter_Alert (NewZapWriter file_logger) (fmt.VError "disk full")
              warn_world)) /\
    ~ delivered high {| zapcore.Entry_Level := zapcore.WarnLevel;
                        zapcore.Message := "disk full" |}
      warn_world
      (snd (ZapWriter_Slow (NewZapWriter file_logger) (fmt.VError "disk full") []
              warn_world)).
Proof.
  destruct (ZapWriter_and_the_error_sink file_config warn_world
              file_logger file_config_built file_world_built 1%positive
              warn_world (fmt.VError "disk full") []
              {| zapcore.Entry_Level := zapcore.WarnLevel;
                 zapcore.Message := "disk full" |})
    as (high & H1 & H2 & H3 & _ & _ & _ & _ & _ & H9 & _).
  - vm_compute. reflexivity.
  - reflexivity.
  - vm_compute. discriminate.
  - reflexivity.
  - exists high. repeat split; assumption.
Defined.

(** X16. The severities of the writer's methods, read on the primary core of
    a built logger: Debug is written when the gate is at or below "debug",
    Info and Stat at or below "info", Slow at or below "warning", Alert,
    Error and Stack at or below "error", Severe at or below "panic". *)
Theorem ZapWriter_severities (lc : Config) (w : World)
    (logger : zap.Logger) (lc' : Config) (w' : World) (a : positive)
    (w1 : World) (v : fmt.Value) (fields : list logx.LogField) :
  Build lc w = (Ok logger, lc', w') ->
  Level lc = Some a ->
  exists primary,
    zapcore.cores_of (zap.core logger) !! 0%nat = Some primary /\
    (delivered primary {| zapcore.Entry_Level := zapcore.DebugLevel;
                          zapcore.Message := fmt.Sprint v |}
       w1 (snd (ZapWriter_Debug (NewZapWriter logger) v fields w1)) <->
     gate_value (atomics w1) a <= zapcore.DebugLevel) /\
    (delivered primary {| zapcore.Entry_Level := zapcore.InfoLevel;
                          zapcore.Message := fmt.Sprint v |}
       w1 (snd (ZapWriter_Info (NewZapWriter logger) v fields w1)) <->
     gate_value (atomics w1) a <= zapcore.InfoLevel) /\
    (delivered primary {| zapcore.Entry_Level := zapcore.InfoLevel;
                          zapcore.Message := fmt.Sprint v |}
       w1 (snd (ZapWriter_Stat (NewZapWriter logger) v fields w1)) <->
     gate_value (atomics w1) a <= zapcore.InfoLevel) /\
    (delivered primary {| zapcore.Entry_Level := zapcore.WarnLevel;
                          zapcore.Message := fmt.Sprint v |}
       w1 (snd (ZapWriter_Slow (NewZapWriter logger) v fields w1)) <->
     gate_value (atomics w1) a <= zapcore.WarnLevel) /\
    (delivered primary {| zapcore.Entry_Level := zapcore.ErrorLevel;
                          zapcore.Message := fmt.Sprint v |}
       w1 (snd (ZapWriter_Alert (NewZapWriter logger) v w1)) <->
     gate_value (atomics w1) a <= zapcore.ErrorLevel) /\
    (delivered primary {| zapcore.Entry_Level := zapcore.ErrorLevel;
                          zapcore.Message := fmt.Sprint v |}
       w1 (snd (ZapWriter_Error (NewZapWriter logger) v fields w1)) <->
     gate_value (atomics w1) a <= zapcore.ErrorLevel) /\
    (delivered primary {| zapcore.Entry_Level := zapcore.ErrorLevel;
                          zapcore.Message := fmt.Sprint v |}
       w1 (snd (ZapWriter_Stack (NewZapWriter logger) v w1)) <->
     gate_value (atomics w1) a <= zapcore.ErrorLevel) /\
    (delivered primary {| zapcore.Entry_Level := zapcore.PanicLevel;
                          zapcore.Message := fmt.Sprint v |}
       w1 (snd (ZapWriter_Severe (NewZapWriter logger) v w1)) <->
     gate_value (atomics w1) a <= zapcore.PanicLevel).
Proof.
  intros HB Ha.
  destruct (Build_Ok _ _ _ _ _ HB) as (_ & _ & _ & Hcores).
  pose proof (built_cores_readable lc w a Ha) as Hr. rewrite <- Hcores in Hr.
  assert (H0 : zapcore.cores_of (zap.core logger) !! 0%nat =
               Some (with_project lc (primary_core lc))) by by rewrite Hcores.
  pose proof (list_elem_of_lookup_2 _ _ _ H0) as Hin.
  assert (Hgate : forall S,
             enabled_now (atomics w1) S (with_project lc (primary_core lc)) = true <->
             gate_value (atomics w1) a <= S).
  { intros S. unfold enabled_now, zapcore.ioCore_Enabled.
    rewrite with_project_enabler. cbn [primary_core zapcore.enabler].
    rewrite Ha. cbn. apply Z.leb_le. }
  exists (with_project lc (primary_core lc)). split; [exact H0|].
  unfold ZapWriter_Alert, ZapWriter_Error, ZapWriter_Stack, ZapWriter_Severe,
    ZapWriter_Debug, ZapWriter_Info, ZapWriter_Slow, ZapWriter_Stat,
    Logger_log, NewZapWriter. cbn [ZapWriter_logger].
  assert (Hd : forall S msg,
             delivered (with_project lc (primary_core lc))
               {| zapcore.Entry_Level := S; zapcore.Message := msg |}
               w1 (snd (zap.Log logger S msg w1)) <->
             gate_value (atomics w1) a <= S).
  { intros S msg. by rewrite (delivered_iff logger S msg w1 _ Hr Hin). }
  repeat (split; [apply Hd|]). apply Hd.
Qed.

Lemma ZapWriter_severities_witness :
  exists primary,
    zapcore.cores_of (zap.core file_logger) !! 0%nat = Some primary /\
    (delivered primary {| zapcore.Entry_Level := zapcore.WarnLevel;
                          zapcore.Message := fmt.Sprint (fmt.VString "slow call") |}
       warn_world
       (snd (ZapWriter_Slow (NewZapWriter file_logger) (fmt.VString "slow call") []
               warn_world)) <->
     gate_value (atomics warn_world) 1%positive <= zapcore.WarnLevel).
Proof.
  destruct (ZapWriter_severities file_config warn_world
              file_logger file_config_built file_world_built 1%positive
              warn_world (fmt.VString "slow call") [])
    as (primary & H0 & _ & _ & _ & H4 & _).
  - vm_compute. reflexivity.
  - reflexivity.
  - exists primary. split; assumption.
Defined.

(** * redis.go *)

Lemma cores_of_Core_With (fields : list (string * string)) (c : zapcore.Core) :
  zapcore.cores_of (zapcore.Core_With fields c) =
  map (zapcore.ioCore_With fields) (zapcore.cores_of c).
Proof. by destruct c. Qed.

(** X17. Update with loggers takes the first one and nothing else: the
    redis logger then writes through that logger's own cores, which get no
    module field.  Printf logs at "info" and returns: on a built logger
    the primary core writes the message exactly when the gate is at or
    below "info".  Update without a logger goes back to the cores of
    DefaultLogger, each with the module field added. *)
Theorem redisLogger_Update_then_Printf (DefaultLogger : zap.Logger)
    (RedisModuleKey : string) (rl : redisLogger)
    (lc : Config) (w : World) (logger : zap.Logger) (lc' : Config) (w' : World)
    (a : positive) (others : list zap.Logger) (w1 : World) (msg : string) :
  Build lc w = (Ok logger, lc', w') ->
  Level lc = Some a ->
  zapcore.cores_of (zap.core (redisLogger_logger
      (redisLogger_Update DefaultLogger RedisModuleKey rl (logger :: others)))) =
    zapcore.cores_of (zap.core logger) /\
  Forall (fun c => forall val, ("module", val) ∉ zapcore.context (zapcore.enc c))
    (zapcore.cores_of (zap.core (redisLogger_logger
       (redisLogger_Update DefaultLogger RedisModuleKey rl (logger :: others))))) /\
  fst (redisLogger_Printf
         (redisLogger_Update DefaultLogger RedisModuleKey rl (logger :: others))
         msg w1) = Ok tt /\
  (delivered (with_project lc (primary_core lc))
     {| zapcore.Entry_Level := zapcore.InfoLevel; zapcore.Message := msg |}
     w1 (snd (redisLogger_Printf
                (redisLogger_Update DefaultLogger RedisModuleKey rl (logger :: others))
                msg w1)) <->
   gate_value (atomics w1) a <= zapcore.InfoLevel) /\
  zapcore.cores_of (zap.core (redisLogger_logger
      (redisLogger_Update DefaultLogger RedisModuleKey rl []))) =
    map (zapcore.ioCore_With [("module", RedisModuleKey)])
      (zapcore.cores_of (zap.core DefaultLogger)).
Proof.
  intros HB Ha.
  destruct (Build_Ok _ _ _ _ _ HB) as (_ & _ & _ & Hcores).
  pose proof (built_cores_readable lc w a Ha) as Hr. rewrite <- Hcores in Hr.
  cbn [redisLogger_Update redisLogger_logger].
  change (zap.core (zap.Sugar ?l)) with (zap.core l).
  split; [reflexivity|].
  split.
  { rewrite Hcores. apply Forall_map, Forall_forall. intros c Hc val. cbn beta.
    assert (H0 : zapcore.context (zapcore.enc c) = []).
    { unfold built_cores in Hc.
      destruct (has_error_sink lc), (has_console_also lc),
        (ReportConfig lc) as [rc|];
        cbn [app] in Hc; repeat (apply elem_of_cons in Hc as [->|Hc]);
        try (by apply elem_of_nil in Hc); reflexivity. }
    unfold with_project. destruct (String.eqb (Name lc) "").
    - rewrite H0. apply not_elem_of_nil.
    - cbn. rewrite H0. cbn. intros Hin.
      apply elem_of_cons in Hin as [Hin|Hin]; [discriminate|].
      by apply elem_of_nil in Hin. }
  unfold redisLogger_Printf. cbn [redisLogger_logger].
  assert (Hrs : Forall readable (zapcore.cores_of (zap.core (zap.Sugar logger))))
    by exact Hr.
  rewrite (Infof_readable _ msg w1 Hrs). cbn [fst snd].
  split; [reflexivity|].
  split.
  { change (zap.core (zap.Sugar ?l)) with (zap.core l).
    unfold delivered. cbn [trace emit]. split.
    - intros (evs & Heq & Hin). apply app_inv_head in Heq. subst evs.
      apply write_events_elem, list_elem_of_filter in Hin as [He _].
      unfold enabled_now, zapcore.ioCore_Enabled in He.
      rewrite with_project_enabler in He.
      cbn [primary_core zapcore.enabler] in He. rewrite Ha in He.
      cbn in He. by apply Z.leb_le in He.
    - intros Hg. eexists. split; [reflexivity|].
      apply write_events_elem, list_elem_of_filter. split.
      + unfold enabled_now, zapcore.ioCore_Enabled.
        rewrite with_project_enabler.
        cbn [primary_core zapcore.enabler]. rewrite Ha. cbn. by apply Z.leb_le.
      + rewrite Hcores. unfold built_cores. cbn [app map].
        apply list_elem_of_here. }
  unfold zap.With, zap.String. cbn [zap.core]. apply cores_of_Core_With.
Qed.

Lemma redisLogger_Update_then_Printf_witness :
  zapcore.cores_of (zap.core (redisLogger_logger
      (redisLogger_Update console_logger "redis"
         (RedisLogger console_logger "redis") [file_logger; console_logger]))) =
    zapcore.cores_of (zap.core file_logger) /\
  fst (redisLogger_Printf
         (redisLogger_Update console_logger "redis"
            (RedisLogger console_logger "redis") [file_logger; console_logger])
         "redis: connection pool timeout" warn_world) = Ok tt /\
  (delivered (with_project file_config (primary_core file_config))
     {| zapcore.Entry_Level := zapcore.InfoLevel;
        zapcore.Message := "redis: connection pool timeout" |}
     warn_world
     (snd (redisLogger_Printf
             (redisLogger_Update console_logger "redis"
                (RedisLogger console_logger "redis") [file_logger; console_logger])
             "redis: connection pool timeout" warn_world)) <->
   gate_value (atomics warn_world) 1%positive <= zapcore.InfoLevel).
Proof.
  destruct (redisLogger_Update_then_Printf console_logger "redis"
              (RedisLogger console_logger "redis")
              file_config warn_world file_logger file_config_built
              file_world_built 1%positive [console_logger] warn_world
              "redis: connection pool timeout")
    as (H1 & _ & H3 & H4 & _).
  - vm_compute. reflexivity.
  - reflexivity.
  - repeat split; try assumption; apply H4.
Defined.

(** * StringToLogLevelHookFunc *)

Lemma ParseAtomicLevel_world (ParseLevel : string -> option zapcore.Level)
    (text : string) (w : World) :
  exists v,
    atomics (snd (ParseAtomicLevel ParseLevel text w)) =
      <[fresh (dom (atomics w)) := v]> (atomics w) /\
    fst (fst (ParseAtomicLevel ParseLevel text w)) = Some (fresh (dom (atomics w))) /\
    v = int32 (default zapcore.InfoLevel (ParseLevel text)) /\
    snd (fst (ParseAtomicLevel ParseLevel text w)) =
      match ParseLevel text with
      | Some _ => None
      | None => Some (unrecognized_level text)
      end /\
    trace (snd (ParseAtomicLevel ParseLevel text w)) = trace w.
Proof.
  unfold ParseAtomicLevel, zap.NewAtomicLevelAt, zap.SetLevel.
  destruct (ParseLevel text) as [l|]; cbn; eexists; repeat split.
  by rewrite insert_insert_eq.
Qed.

(** X18. The decode hook never reports an error and never changes a gate
    that exists.  It returns the data as it got it when the source kind is
    not string, and when the string names no level; when the source kind is
    string but the value is not of type string itself (a defined string
    type), the type assertion panics. *)
Theorem hook_passes_through_or_panics
    (ParseLevel : string -> option zapcore.Level)
    (f t : reflect.Type_) (data : Data) (w : World) (a : positive) :
  is_Some (atomics w !! a) ->
  atomics (snd (StringToLogLevelHookFunc ParseLevel f t data w)) !! a =
    atomics w !! a /\
  (reflect.Kind_of f <> reflect.String ->
   StringToLogLevelHookFunc ParseLevel f t data w = (Ok (data, None), w)) /\
  (forall s,
     reflect.Kind_of f = reflect.String -> data = DataString s ->
     ParseLevel s = None ->
     fst (StringToLogLevelHookFunc ParseLevel f t data w) = Ok (data, None)) /\
  (reflect.Kind_of f = reflect.String -> (forall s, data <> DataString s) ->
   StringToLogLevelHookFunc ParseLevel f t data w =
   (Panicked ("interface conversion: interface {} is " +:+
              Data_type_name data +:+ ", not string"), w)) /\
  (forall out err,
     fst (StringToLogLevelHookFunc ParseLevel f t data w) = Ok (out, err) ->
     err = None).
Proof.
  intros Ha. unfold StringToLogLevelHookFunc.
  destruct (reflect.Kind_of f) eqn:Hk; cbn [reflect.Kind_eqb negb];
    try (repeat split; try done; cbn [fst]; intros; congruence).
  destruct data as [s|n s|z|b|l];
    try (repeat split; try done; cbn [fst]; intros; congruence).
  destruct (ParseAtomicLevel_world ParseLevel s w) as (v & Hat & Hl & _ & He & _).
  destruct (ParseAtomicLevel ParseLevel s w) as [[al err] w2].
  cbn [fst snd] in *. subst err.
  assert (Hkeep : atomics w2 !! a = atomics w !! a).
  { rewrite Hat. apply lookup_insert_ne. intros Heq.
    apply elem_of_dom in Ha. rewrite <- Heq in Ha. by apply is_fresh in Ha. }
  destruct (ParseLevel s) as [lv|] eqn:Hp0; cbn [fst snd];
    (split; [exact Hkeep|]); (split; [done|]);
    (split; [intros s0 _ [= <-] Hp; congruence || reflexivity|]);
    (split; [intros _ Hne; by destruct (Hne s)|]); intros out e [= _ <-]; reflexivity.
Qed.

Lemma hook_passes_through_or_panics_witness :
  atomics (snd (StringToLogLevelHookFunc lowercase_level
                  {| reflect.Name := "string"; reflect.Kind_of := reflect.String |}
                  {| reflect.Name := "zap.AtomicLevel"; reflect.Kind_of := reflect.Struct |}
                  (DataString "verbose") warn_world)) !! 1%positive =
    atomics warn_world !! 1%positive /\
  fst (StringToLogLevelHookFunc lowercase_level
         {| reflect.Name := "string"; reflect.Kind_of := reflect.String |}
         {| reflect.Name := "zap.AtomicLevel"; reflect.Kind_of := reflect.Struct |}
         (DataString "verbose") warn_world) = Ok (DataString "verbose", None).
Proof.
  destruct (hook_passes_through_or_panics lowercase_level
              {| reflect.Name := "string"; reflect.Kind_of := reflect.String |}
              {| reflect.Name := "zap.AtomicLevel"; reflect.Kind_of := reflect.Struct |}
              (DataString "verbose") warn_world 1%positive)
    as (H1 & _ & H3 & _).
  - vm_compute. eexists. reflexivity.
  - split; [exact H1|]. by apply (H3 "verbose").
Defined.

(** X19. When the source kind is string and the string names a level, the
    hook returns an AtomicLevel of its own: its cell did not exist before
    and holds the level named. *)
Theorem hook_makes_a_new_gate
    (ParseLevel : string -> option zapcore.Level)
    (f t : reflect.Type_) (s : string) (l : zapcore.Level) (w : World) :
  reflect.Kind_of f = reflect.String ->
  ParseLevel s = Some l ->
  is_int8 l ->
  exists b w',
    StringToLogLevelHookFunc ParseLevel f t (DataString s) w =
      (Ok (DataAtomicLevel (Some b), None), w') /\
    atomics w !! b = None /\
    gate_value (atomics w') b = l /\
    trace w' = trace w.
Proof.
  intros Hk Hp Hl. unfold StringToLogLevelHookFunc. rewrite Hk.
  cbn [reflect.Kind_eqb negb].
  destruct (ParseAtomicLevel_world ParseLevel s w) as (v & Hat & Ha & Hv & He & Ht).
  destruct (ParseAtomicLevel ParseLevel s w) as [[al err] w2].
  cbn [fst snd] in *. rewrite Hp in He, Hv. subst err al. cbn [default] in Hv.
  eexists _, _. split; [reflexivity|].
  split; [apply not_elem_of_dom, is_fresh|].
  split; [|exact Ht].
  unfold gate_value. rewrite Hat, lookup_insert_eq. cbn [default]. subst v.
  unfold is_int8 in Hl. unfold int8, int32, id.
  rewrite (Z.mod_small (l + 2147483648)) by lia.
  replace (l + 2147483648 - 2147483648 + 128) with (l + 128) by lia.
  rewrite Z.mod_small by lia. lia.
Qed.

Lemma hook_makes_a_new_gate_witness :
  exists b w',
    StringToLogLevelHookFunc lowercase_level
      {| reflect.Name := "string"; reflect.Kind_of := reflect.String |}
      {| reflect.Name := "zap.AtomicLevel"; reflect.Kind_of := reflect.Struct |}
      (DataString "error") warn_world =
      (Ok (DataAtomicLevel (Some b), None), w') /\
    atomics warn_world !! b = None /\
    gate_value (atomics w') b = zapcore.ErrorLevel /\
    trace w' = trace warn_world.
Proof.
  apply (hook_makes_a_new_gate lowercase_level
           {| reflect.Name := "string"; reflect.Kind_of := reflect.String |}
           {| reflect.Name := "zap.AtomicLevel"; reflect.Kind_of := reflect.Struct |}
           "error" zapcore.ErrorLevel warn_world).
  - reflexivity.
  - reflexivity.
  - unfold is_int8, zapcore.ErrorLevel. lia.
Defined.


(** * The cost of a slow request *)

Lemma fmtFrac_whole (prec : nat) (k : Z) (buf : string) :
  duration.fmtFrac prec (k * 10 ^ Z.of_nat prec) false buf = (buf, k).
Proof.
  revert k buf. induction prec as [|prec IH]; intros k buf.
  - cbn [duration.fmtFrac]. by rewrite Z.mul_1_r.
  - cbn [duration.fmtFrac].
    replace (k * 10 ^ Z.of_nat (S prec)) with (k * 10 ^ Z.of_nat prec * 10).
    2:{ rewrite Nat2Z.inj_succ, Z.pow_succ_r by lia. lia. }
    rewrite Z.mod_mul, Z.div_mul by lia. cbn [Z.eqb negb orb]. apply IH.
Qed.

Lemma String_whole_seconds (k : Z) :
  60 <= k ->
  duration.String (k * time.Second) = hours_minutes_seconds k.
Proof.
  intros Hk. unfold duration.String, hours_minutes_seconds.
  change time.Second with 1000000000.
  rewrite Z.abs_eq by lia.
  replace (k * 1000000000 <? 1000000000) with false
    by (symmetry; apply Z.ltb_ge; lia).
  change 1000000000 with (10 ^ Z.of_nat 9) at 1.
  rewrite fmtFrac_whole.
  replace (0 <? k / 60) with true
    by (symmetry; apply Z.ltb_lt; apply Z.div_str_pos; lia).
  rewrite Z.div_div by lia. change (60 * 60) with 3600.
  replace (k * 10 ^ Z.of_nat 9 <? 0) with false
    by (symmetry; apply Z.ltb_ge; lia).
  reflexivity.
Qed.

(** X21. Above one minute the cost of a request is printed in whole units
    only: the hours when there are any, the minutes and the seconds of the
    latency, without a fraction of a second. *)
Theorem LogFormatter_cost_above_a_minute (param : gin.LogFormatterParams) :
  time.Minute < gin.Latency param ->
  LogFormatter param =
  "[GIN] statusCode:" +:+ fmt_int (gin.StatusCode param) +:+
  " path:" +:+ gin.Path param +:+
  " method:" +:+ gin.Method param +:+
  " cost:" +:+ hours_minutes_seconds (gin.Latency param / time.Second) +:+
  " clientIp:" +:+ gin.ClientIP param.
Proof.
  intros Hlt. assert (Hmin : time.Minute = 60000000000) by reflexivity.
  unfold LogFormatter.
  replace (time.Minute <? gin.Latency param) with true
    by (symmetry; by apply Z.ltb_lt).
  cbn [gin.StatusCode gin.Path gin.Method gin.Latency gin.ClientIP].
  rewrite Truncate_whole_seconds by lia.
  unfold Sprintf_GIN. rewrite String_whole_seconds; [reflexivity|].
  change time.Second with 1000000000.
  apply Z.div_le_lower_bound; lia.
Qed.

Lemma LogFormatter_cost_above_a_minute_witness :
  LogFormatter {| gin.StatusCode := 200; gin.Path := "/ping"; gin.Method := "GET";
                  gin.Latency := 3725123456789; gin.ClientIP := "10.0.0.7" |} =
  "[GIN] statusCode:" +:+ fmt_int 200 +:+
  " path:" +:+ "/ping" +:+
  " method:" +:+ "GET" +:+
  " cost:" +:+ hours_minutes_seconds (3725123456789 / time.Second) +:+
  " clientIp:" +:+ "10.0.0.7".
Proof.
  apply (LogFormatter_cost_above_a_minute
           {| gin.StatusCode := 200; gin.Path := "/ping"; gin.Method := "GET";
              gin.Latency := 3725123456789; gin.ClientIP := "10.0.0.7" |}).
  reflexivity.
Defined.

Example LogFormatter_an_hour_and_more :
  LogFormatter {| gin.StatusCode := 200; gin.Path := "/ping"; gin.Method := "GET";
                  gin.Latency := 3725123456789; gin.ClientIP := "10.0.0.7" |} =
  "[GIN] statusCode:200 path:/ping method:GET cost:1h2m5s clientIp:10.0.0.7".
Proof. reflexivity. Qed.


Lemma Build_without_level_panics_late_witness :
  exists w',
    Build no_level_config warn_world =
      (Panicked nil_dereference, built_config no_level_config warn_world, w') /\
    trace w' =
      trace warn_world ++ map EvNewSink (constructed_sinks no_level_config warn_world) /\
    constructed_sinks no_level_config warn_world <> [] /\
    options (built_config no_level_config warn_world) =
      options no_level_config ++ new_options no_level_config /\
    goroutines w' = goroutines warn_world ++ [AtOnceDo (Port no_level_config) None].
Proof.
  apply (Build_without_level_panics_late no_level_config warn_world).
  - left. reflexivity.
  - reflexivity.
  - reflexivity.
Defined.

Lemma logger_without_level_panics_witness :
  zap.Log (built_logger no_level_no_port_config warn_world) zapcore.ErrorLevel
    "hello" warn_world = (Panicked nil_dereference, warn_world).
Proof.
  apply (logger_without_level_panics no_level_no_port_config warn_world
           (built_logger no_level_no_port_config warn_world)
           (built_config no_level_no_port_config warn_world)
           (snd (Build no_level_no_port_config warn_world))
           zapcore.ErrorLevel "hello" warn_world).
  - vm_compute. reflexivity.
  - reflexivity.
Defined.


(** * UpdateLevel *)

(** X23. UpdateLevel writes the one cell of the main gate: a GET of the
    control endpoint's handler then answers the level just set, every other
    gate is as it was, nothing is logged, and of two updates in a row only
    the last one counts. *)
Theorem UpdateLevel_sets_the_gate (lc : Config) (a : positive)
    (l l0 : zapcore.Level) (w : World) :
  Level lc = Some a ->
  is_int8 l ->
  exists w2,
    UpdateLevel lc l w = (Ok tt, w2) /\
    zap.ServeHTTP (Level lc) zap.GET w2 = (Ok (zap.Payload l), w2) /\
    gate_value (atomics w2) a = l /\
    (forall b, b <> a -> atomics w2 !! b = atomics w !! b) /\
    trace w2 = trace w /\
    UpdateLevel lc l (snd (UpdateLevel lc l0 w)) = (Ok tt, w2).
Proof.
  intros Ha Hl.
  destruct (gate_value_SetLevel (Level lc) a l w Ha Hl) as (w2 & Hset & Hval).
  exists w2. unfold UpdateLevel. split; [exact Hset|].
  rewrite Ha in *. cbn [zap.SetLevel] in Hset. injection Hset as <-.
  split.
  { cbn [zap.ServeHTTP zapcore.AtomicLevel_Level mbind result_bind].
    unfold gate_value in Hval. by rewrite Hval. }
  split; [exact Hval|].
  split.
  { intros b Hb. cbn [atomics set_atomics]. by apply lookup_insert_ne. }
  split; [reflexivity|].
  cbn [zap.SetLevel snd]. unfold set_atomics. cbn. by rewrite insert_insert_eq.
Qed.

Lemma UpdateLevel_sets_the_gate_witness :
  exists w2,
    UpdateLevel file_config zapcore.DebugLevel warn_world = (Ok tt, w2) /\
    zap.ServeHTTP (Level file_config) zap.GET w2 = (Ok (zap.Payload zapcore.DebugLevel), w2) /\
    gate_value (atomics w2) 1%positive = zapcore.DebugLevel /\
    (forall b, b <> 1%positive -> atomics w2 !! b = atomics warn_world !! b) /\
    trace w2 = trace warn_world /\
    UpdateLevel file_config zapcore.DebugLevel
      (snd (UpdateLevel file_config zapcore.FatalLevel warn_world)) = (Ok tt, w2).
Proof.
  apply (UpdateLevel_sets_the_gate file_config 1%positive
           zapcore.DebugLevel zapcore.FatalLevel warn_world).
  - reflexivity.
  - unfold is_int8, zapcore.DebugLevel. lia.
Defined.

(** * The control endpoint under any schedule *)

(** A scheduling step either leaves the endpoint as it was, or it is the
    one step that uses up the fresh Once and enters ListenAndServe. *)
Lemma schedule_cases (i : nat) (w : World) :
  (same_endpoint w (schedule i w) /\ atomics (schedule i w) = atomics w) \/
  (_once w = sync.Fresh /\ _once (schedule i w) <> sync.Fresh /\
   bind_attempts (schedule i w) = S (bind_attempts w) /\
   atomics (schedule i w) = atomics w).
Proof.
  unfold schedule.
  destruct (goroutines w !! i) as [[p h|p h|]|];
    try (left; split; [apply same_endpoint_refl|reflexivity]);
    try (left; split; [by repeat split|reflexivity]).
  cbn [run_goroutine].
  destruct (_once w) eqn:Ho;
    try (left; split; [by repeat split|reflexivity]).
  right. split; [reflexivity|].
  destruct (http.can_bind p w); cbn [_once atomics]; (split; [done|]);
    (split; [|reflexivity]); unfold bind_attempts; cbn [listeners trace].
  - rewrite length_app. cbn. lia.
  - rewrite filter_app, length_app.
    rewrite filter_cons_True, filter_cons_False by done. cbn. lia.
Qed.

Lemma endpoint_step_refl (w : World) : endpoint_step w w.
Proof. left. apply same_endpoint_refl. Qed.

Lemma endpoint_step_trans (w1 w2 w3 : World) :
  endpoint_step w1 w2 -> endpoint_step w2 w3 -> endpoint_step w1 w3.
Proof.
  intros [H12|(A1 & A2 & A3)] [H23|(B1 & B2 & B3)].
  - left. by eapply same_endpoint_trans.
  - right. rewrite B3, (bind_attempts_same _ _ H12).
    destruct H12 as (H12 & _). rewrite H12 in B1. by repeat split.
  - right. rewrite (bind_attempts_same _ _ H23), A3.
    destruct H23 as (H23 & _). rewrite H23. by repeat split.
  - congruence.
Qed.

Lemma run_schedule_cons (i : nat) (sched : list nat) (w : World) :
  run_schedule (i :: sched) w = run_schedule sched (schedule i w).
Proof. reflexivity. Qed.

Lemma run_schedule_step (sched : list nat) (w : World) :
  endpoint_step w (run_schedule sched w) /\
  atomics (run_schedule sched w) = atomics w.
Proof.
  revert w. induction sched as [|i sched IH]; intros w.
  - split; [apply endpoint_step_refl|reflexivity].
  - rewrite run_schedule_cons. destruct (IH (schedule i w)) as [Hs Ha].
    destruct (schedule_cases i w) as [[H1 H2]|(H1 & H2 & H3 & H4)].
    + split; [|congruence].
      eapply endpoint_step_trans; [left; exact H1|exact Hs].
    + split; [|congruence].
      eapply endpoint_step_trans; [right; by repeat split|exact Hs].
Qed.

(** A goroutine of InitLogServer writes no record and constructs no sink,
    and the goroutines keep their numbers. *)
Lemma schedule_trace (i : nat) (w : World) :
  exists evs,
    trace (schedule i w) = trace w ++ evs /\
    Forall (fun e => is_listen_event e = true) evs /\
    length (goroutines (schedule i w)) = length (goroutines w).
Proof.
  unfold schedule.
  destruct (goroutines w !! i) as [g|] eqn:Hg.
  2:{ exists []. by rewrite app_nil_r. }
  destruct g as [p h|p h|]; cbn [run_goroutine].
  - destruct (_once w); [destruct (http.can_bind p w)| |];
      cbn [trace goroutines]; rewrite length_insert;
      try (exists []; by rewrite app_nil_r).
    eexists. split; [reflexivity|]. split; [|reflexivity]. by repeat constructor.
  - cbn [trace goroutines]. rewrite length_insert. exists []. by rewrite app_nil_r.
  - cbn [trace goroutines]. rewrite length_insert. exists []. by rewrite app_nil_r.
Qed.

Lemma run_schedule_trace (sched : list nat) (w : World) :
  exists evs,
    trace (run_schedule sched w) = trace w ++ evs /\
    Forall (fun e => is_listen_event e = true) evs /\
    length (goroutines (run_schedule sched w)) = length (goroutines w).
Proof.
  revert w. induction sched as [|i sched IH]; intros w.
  - exists []. by rewrite app_nil_r.
  - rewrite run_schedule_cons.
    destruct (IH (schedule i w)) as (evs2 & H2 & F2 & L2).
    destruct (schedule_trace i w) as (evs1 & H1 & F1 & L1).
    exists (evs1 ++ evs2). rewrite H2, H1, <- app_assoc.
    split; [reflexivity|]. split; [by apply Forall_app|congruence].
Qed.

(** While the Once is held nothing a goroutine does changes anything. *)
Lemma schedule_while_serving (j : nat) (w : World) :
  _once w = sync.Running -> schedule j w = w.
Proof.
  intros Ho. unfold schedule.
  destruct (goroutines w !! j) as [g|] eqn:Hj; [|reflexivity].
  assert (Hrun : run_goroutine g w = (g, w)).
  { destruct g; cbn [run_goroutine]; by rewrite ?Ho. }
  rewrite Hrun, list_insert_id by exact Hj. by destruct w.
Qed.

Lemma run_schedule_while_serving (sched : list nat) (w : World) :
  _once w = sync.Running -> run_schedule sched w = w.
Proof.
  intros Ho. induction sched as [|i sched IH]; [reflexivity|].
  by rewrite run_schedule_cons, schedule_while_serving.
Qed.

(** ** Build with the goroutines running *)

(** With no goroutine scheduled, it is [Build]. *)
Lemma Build_racing_nil (lc : Config) (w : World) :
  Build_racing lc [] w = Build lc w.
Proof. reflexivity. Qed.

(** The two checks come before anything else. *)
Lemma Build_racing_checks (lc : Config) (sched : list nat) (w : World) :
  ~ valid_mode lc -> Build_racing lc sched w = Build lc w.
Proof.
  intros Hv. unfold Build_racing, Build.
  destruct (String.eqb_spec (Mode lc) _console) as [Hc|Hc].
  { destruct Hv. by left. }
  destruct (String.eqb_spec (Mode lc) _file) as [Hf|Hf]; [|reflexivity].
  destruct (String.eqb_spec (FileName lc) "") as [Hn|Hn]; [reflexivity|].
  destruct Hv. by right.
Qed.

Lemma Build_racing_sinks (lc : Config) (sched : list nat) (w : World) :
  valid_mode lc ->
  exists w1,
    Build_racing lc sched w =
      Build_tail_racing (built_cores lc w) (after_report lc w) sched w1 /\
    trace w1 = trace w ++ map EvNewSink (constructed_sinks lc w) /\
    atomics w1 = atomics_after_report lc w /\
    _once w1 = _once w /\ listeners w1 = listeners w /\
    occupied w1 = occupied w /\ goroutines w1 = goroutines w.
Proof.
  intros Hv.
  destruct lc as [name level stack addc ship mode fname ename msz mage mbk
                    async json compress console color port rc opts].
  unfold valid_mode in Hv. cbn [Mode FileName] in Hv.
  assert (Hm : (mode = _console /\ String.eqb mode _file = false /\
                String.eqb mode _console = true) \/
               (mode = _file /\ String.eqb mode _file = true /\
                String.eqb mode _console = false /\ String.eqb fname "" = false)).
  { destruct Hv as [->|[-> Hn]]; [left|right]; repeat split.
    by apply String.eqb_neq. }
  clear Hv.
  unfold Build_racing, built_cores, constructed_sinks, has_error_sink,
    has_console_also, atomics_after_report, primary_destination.
  cbn [Name Level Stacktrace AddCaller CallerShip Mode FileName ErrorFileName
       MaxSize MaxAge MaxBackup Async Json Compress Console Color Port
       ReportConfig options].
  destruct Hm as [(-> & Hf & Hc)|(-> & Hf & Hc & Hn)].
  - rewrite Hf, Hc. cbn [negb andb].
    destruct color, json, async, rc as [[[a|]]|];
      (eexists; split; [reflexivity|]);
      cbn [trace emit set_atomics _once listeners occupied goroutines];
      rewrite <- ?app_assoc; done.
  - rewrite Hf, Hc, Hn. cbn [negb andb].
    destruct (String.eqb ename ""), color, json, async, console,
      rc as [[[a|]]|]; cbn [negb andb];
      (eexists; split; [reflexivity|]);
      cbn [trace emit set_atomics _once listeners occupied goroutines];
      rewrite <- ?app_assoc; done.
Qed.

Lemma Build_tail_racing_eq (cores : list zapcore.ioCore) (lc : Config)
    (sched : list nat) (w : World) :
  Build_tail_racing cores lc sched w =
  if 0 <? Port lc then
    let '(r, w') :=
      zap.Infof
        (zap.Sugar (zap.WithOptions (bare_logger lc cores)
                      (options lc ++ new_options lc)))
        (server_message lc)
        (run_schedule sched (spawn (AtOnceDo (Port lc) (Level lc)) w)) in
    (_ ← r; Ok (zap.WithOptions (bare_logger lc cores) (options lc ++ new_options lc)),
     set_options (options lc ++ new_options lc) lc, w')
  else
    (Ok (zap.WithOptions (bare_logger lc cores) (options lc ++ new_options lc)),
     set_options (options lc ++ new_options lc) lc, w).
Proof.
  destruct lc as [name level stack addc ship mode fname ename msz mage mbk
                    async json compress console color port rc opts].
  unfold Build_tail_racing, new_options, bare_logger, set_options, append_option,
    server_message, InitLogServer.
  cbn [Name Level Stacktrace AddCaller CallerShip Mode FileName ErrorFileName
       MaxSize MaxAge MaxBackup Async Json Compress Console Color Port
       ReportConfig options].
  destruct addc, (ship =? 0), stack; cbn [negb];
    cbn [Name Level Stacktrace AddCaller CallerShip Mode FileName ErrorFileName
       MaxSize MaxAge MaxBackup Async Json Compress Console Color Port
       ReportConfig options];
    rewrite <- ?app_assoc; cbn [app]; rewrite ?app_nil_r; reflexivity.
Qed.

(** The normal form of [Build_racing] on a configuration that passes the
    two checks. *)
Lemma Build_racing_normal (lc : Config) (sched : list nat) (w : World) :
  valid_mode lc ->
  exists w1,
    trace w1 = trace w ++ map EvNewSink (constructed_sinks lc w) /\
    atomics w1 = atomics_after_report lc w /\
    _once w1 = _once w /\ listeners w1 = listeners w /\
    occupied w1 = occupied w /\ goroutines w1 = goroutines w /\
    Build_racing lc sched w =
    if 0 <? Port lc then
      let '(r, w') :=
        zap.Infof (zap.Sugar (built_logger lc w)) (server_message lc)
          (run_schedule sched (spawn (AtOnceDo (Port lc) (Level lc)) w1)) in
      (_ ← r; Ok (built_logger lc w), built_config lc w, w')
    else (Ok (built_logger lc w), built_config lc w, w1).
Proof.
  intros Hv.
  destruct (Build_racing_sinks lc sched w Hv)
    as (w1 & HB & Ht & Ha & H1 & H2 & H3 & H4).
  exists w1. repeat (split; [assumption|]).
  rewrite HB, Build_tail_racing_eq.
  destruct (after_report_fields lc w) as (Hn & Hl & Ho & Hnew & _ & _ & Hp).
  unfold server_message, built_logger, built_config, bare_logger.
  by rewrite Hn, Hl, Ho, Hnew, Hp.
Qed.

Lemma write_or_sync_not_failed (evs : list Event) :
  Forall (fun e => is_write_or_sync e = true) evs ->
  Forall (fun e => is_listen_failed e = false) evs.
Proof. intros H. eapply Forall_impl; [exact H|]. by intros []. Qed.

(** The world [Build_racing] leaves, whatever it returns: the world before
    the goroutines run, their steps, and the records of the message. *)
Lemma Build_racing_world (lc : Config) (sched : list nat) (w : World) :
  exists w0 sched' evs evs0 more,
    snd (Build_racing lc sched w) = emit evs (run_schedule sched' w0) /\
    Forall (fun e => is_write_or_sync e = true) evs /\
    trace w0 = trace w ++ evs0 /\
    Forall (fun e => is_listen_failed e = false) evs0 /\
    _once w0 = _once w /\ listeners w0 = listeners w /\
    occupied w0 = occupied w /\
    goroutines w0 = goroutines w ++ more.
Proof.
  assert (Hvalid : valid_mode lc ->
    exists w0 sched' evs evs0 more,
      snd (Build_racing lc sched w) = emit evs (run_schedule sched' w0) /\
      Forall (fun e => is_write_or_sync e = true) evs /\
      trace w0 = trace w ++ evs0 /\
      Forall (fun e => is_listen_failed e = false) evs0 /\
      _once w0 = _once w /\ listeners w0 = listeners w /\
      occupied w0 = occupied w /\
      goroutines w0 = goroutines w ++ more).
  { intros Hv.
    destruct (Build_racing_normal lc sched w Hv)
      as (w1 & Ht & _ & H1 & H2 & H3 & H4 & ->).
    assert (Hs : Forall (fun e => is_listen_failed e = false)
                   (map EvNewSink (constructed_sinks lc w))).
    { apply Forall_forall. intros e He.
      apply list_elem_of_fmap in He as (ws & -> & _). reflexivity. }
    destruct (0 <? Port lc).
    - match goal with |- context [zap.Infof ?l ?m ?x] =>
        destruct (Infof_events l m x) as (evs & Hw & Hevs);
        destruct (zap.Infof l m x) as [r w2] end.
      cbn [snd] in *. subst w2.
      exists (spawn (AtOnceDo (Port lc) (Level lc)) w1), sched, evs,
        (map EvNewSink (constructed_sinks lc w)), [AtOnceDo (Port lc) (Level lc)].
      cbn [trace _once listeners occupied goroutines spawn].
      rewrite H4. by repeat split.
    - exists w1, [], [], (map EvNewSink (constructed_sinks lc w)), [].
      cbn [snd]. rewrite emit_nil, H4, app_nil_r. by repeat split. }
  assert (Hpanic : forall line,
    snd (Build_racing lc sched w) = emit [EvStdLog line] w ->
    exists w0 sched' evs evs0 more,
      snd (Build_racing lc sched w) = emit evs (run_schedule sched' w0) /\
      Forall (fun e => is_write_or_sync e = true) evs /\
      trace w0 = trace w ++ evs0 /\
      Forall (fun e => is_listen_failed e = false) evs0 /\
      _once w0 = _once w /\ listeners w0 = listeners w /\
      occupied w0 = occupied w /\
      goroutines w0 = goroutines w ++ more).
  { intros line ->.
    exists (emit [EvStdLog line] w), [], [], [EvStdLog line], [].
    rewrite emit_nil. cbn [trace _once listeners occupied goroutines emit].
    rewrite app_nil_r. repeat split; by repeat constructor. }
  destruct (String.eqb_spec (Mode lc) _console) as [Hc|Hc]; [by apply Hvalid; left|].
  destruct (String.eqb_spec (Mode lc) _file) as [Hf|Hf].
  - destruct (String.eqb_spec (FileName lc) "") as [Hn|Hn].
    + eapply Hpanic. rewrite Build_racing_checks.
      * by rewrite (Build_name_check lc w Hf Hn).
      * intros [?|[_ ?]]; congruence.
    + by apply Hvalid; right.
  - eapply Hpanic. rewrite Build_racing_checks.
    + by rewrite (Build_mode_check lc w Hc Hf).
    + intros [?|[? _]]; congruence.
Qed.

Lemma Build_racing_step (lc : Config) (sched : list nat) (w : World) :
  endpoint_step w (snd (Build_racing lc sched w)).
Proof.
  destruct (Build_racing_world lc sched w)
    as (w0 & sched' & evs & evs0 & more & -> & Hevs & Ht & Hevs0 & H1 & H2 & H3 & _).
  eapply endpoint_step_trans.
  { left. by apply (same_endpoint_trace w w0 evs0). }
  eapply endpoint_step_trans; [apply run_schedule_step|].
  left. by apply same_endpoint_emit, write_or_sync_not_failed.
Qed.

Lemma perform_cases (a : Action) (w : World) : endpoint_step w (perform w a).
Proof.
  destruct a as [lc sched|lc port|i]; cbn [perform].
  - apply Build_racing_step.
  - left. by repeat split.
  - destruct (schedule_cases i w) as [[H _]|(H1 & H2 & H3 & _)]; [by left|by right].
Qed.

Lemma perform_started_at_most_once (a : Action) (w : World) :
  started_at_most_once w -> started_at_most_once (perform w a).
Proof.
  unfold started_at_most_once. intros H.
  destruct (perform_cases a w) as [Hs|(Hf & Hn & Hb)].
  - rewrite (bind_attempts_same _ _ Hs). destruct Hs as (-> & _). exact H.
  - rewrite Hf in H. rewrite Hb, H. by destruct (_once (perform w a)).
Qed.

Lemma run_started_at_most_once (actions : list Action) (w : World) :
  started_at_most_once w -> started_at_most_once (run actions w).
Proof.
  unfold run. revert w.
  induction actions as [|a actions IH]; intros w H; [exact H|].
  cbn [fold_left]. by apply IH, perform_started_at_most_once.
Qed.

Lemma run_after_start (actions : list Action) (w : World) :
  _once w <> sync.Fresh -> same_endpoint w (run actions w).
Proof.
  unfold run. revert w.
  induction actions as [|a actions IH]; intros w H; [apply same_endpoint_refl|].
  cbn [fold_left].
  destruct (perform_cases a w) as [Hs|(Hf & _)]; [|congruence].
  eapply same_endpoint_trans; [exact Hs|].
  apply IH. destruct Hs as (-> & _). exact H.
Qed.

(** What [Build] returns does not depend on what the goroutines do
    meanwhile. *)
Lemma Build_racing_outcome (lc : Config) (sched : list nat) (w : World) :
  fst (Build_racing lc sched w) = fst (Build lc w).
Proof.
  assert (Hvalid : valid_mode lc ->
                   fst (Build_racing lc sched w) = fst (Build lc w)).
  { intros Hv.
    destruct (Build_racing_normal lc sched w Hv)
      as (x1 & _ & Ha1 & _ & _ & _ & _ & ->).
    destruct (Build_normal lc w Hv) as (x2 & _ & Ha2 & _ & _ & _ & _ & ->).
    destruct (0 <? Port lc); [|reflexivity].
    match goal with
    | |- fst (let '(_, _) := zap.Infof ?l ?m ?X1 in _) =
         fst (let '(_, _) := zap.Infof ?l ?m ?X2 in _) =>
        assert (Hi : fst (zap.Infof l m X1) = fst (zap.Infof l m X2));
        [apply Infof_outcome|
         destruct (zap.Infof l m X1) as [r1 y1];
         destruct (zap.Infof l m X2) as [r2 y2]]
    end.
    - destruct (run_schedule_step sched (spawn (AtOnceDo (Port lc) (Level lc)) x1))
        as [_ ->].
      cbn [atomics spawn]. congruence.
    - cbn [fst] in *. by subst r2. }
  destruct (String.eqb_spec (Mode lc) _console) as [Hc|Hc]; [by apply Hvalid; left|].
  destruct (String.eqb_spec (Mode lc) _file) as [Hf|Hf].
  - destruct (String.eqb_spec (FileName lc) "") as [Hn|Hn].
    + rewrite Build_racing_checks; [reflexivity|].
      intros [?|[_ ?]]; congruence.
    + by apply Hvalid; right.
  - rewrite Build_racing_checks; [reflexivity|].
    intros [?|[? _]]; congruence.
Qed.

(** C6. Amended: however often the control endpoint is started in a process,
    by Build or by InitLogServer, with the goroutines scheduled in any order
    and also while Build is running, ListenAndServe is entered at most once
    and at most one listener exists.  Once the Once has been used, no
    further start or step changes the listeners, the bound ports, the count
    of bind attempts or the Once.  InitLogServer itself only starts a
    goroutine and returns, and what Build returns does not depend on what
    the goroutines do.  The goroutine that reaches the fresh Once first
    is the one that listens, on its own port, whichever call started it.
    When that goroutine cannot listen, it logs the error through the global
    logger and returns: no listener exists, the Once is done, and what any
    later Build returns is what it would have returned anyway. *)
Theorem control_endpoint_starts_once (actions : list Action) (w wb wf : World)
    (lc : Config) (port : Z) (j : nat) (q : Z) (k : option positive)
    (i : nat) (p : Z) (h : option positive) :
  ((bind_attempts (run actions initial_world) <= 1)%nat /\
   (length (listeners (run actions initial_world)) <= 1)%nat) /\
  (_once w <> sync.Fresh ->
   listeners (run actions w) = listeners w /\
   occupied (run actions w) = occupied w /\
   bind_attempts (run actions w) = bind_attempts w /\
   _once (run actions w) = _once w) /\
  (same_endpoint w (InitLogServer lc port w) /\
   atomics (InitLogServer lc port w) = atomics w /\
   trace (InitLogServer lc port w) = trace w /\
   goroutines (InitLogServer lc port w) =
     goroutines w ++ [AtOnceDo port (Level lc)] /\
   forall sched, fst (Build_racing lc sched w) = fst (Build lc w)) /\
  (goroutines wb !! j = Some (AtOnceDo q k) ->
   _once wb = sync.Fresh ->
   http.can_bind q wb = true ->
   listeners (schedule j wb) = listeners wb ++ [(q, k)] /\
   _once (schedule j wb) = sync.Running /\
   goroutines (schedule j wb) !! j = Some (Serving q k) /\
   trace (schedule j wb) = trace wb) /\
  (goroutines wf !! i = Some (AtOnceDo p h) ->
   _once wf = sync.Fresh ->
   http.can_bind p wf = false ->
   trace (schedule i wf) =
     trace wf ++ [EvListenFailed (http.addr p);
                  EvGlobalError "init log server start failed"
                    (http.listen_failure p)] /\
   listeners (schedule i wf) = listeners wf /\
   _once (schedule i wf) = sync.Done /\
   goroutines (schedule i wf) !! i = Some Returned /\
   forall lc0 sched0,
     fst (Build_racing lc0 sched0 (schedule i wf)) = fst (Build lc0 wf)).
Proof.
  split.
  { assert (H : started_at_most_once (run actions initial_world))
      by by apply run_started_at_most_once.
    unfold started_at_most_once in H.
    assert (Hb : (bind_attempts (run actions initial_world) <= 1)%nat)
      by (destruct (_once (run actions initial_world)); lia).
    split; [exact Hb|]. unfold bind_attempts in Hb. lia. }
  split.
  { intros Hs. pose proof (run_after_start actions w Hs) as Hsame.
    rewrite (bind_attempts_same _ _ Hsame).
    destruct Hsame as (H1 & H2 & H3 & _). by repeat split. }
  split.
  { repeat split. intros sched. apply Build_racing_outcome. }
  split.
  { intros Hg Ho Hb.
    assert (Hj : (j < length (goroutines wb))%nat) by by eapply lookup_lt_Some.
    unfold schedule. rewrite Hg. cbn [run_goroutine]. rewrite Ho, Hb.
    cbn [trace listeners _once goroutines].
    split; [reflexivity|]. split; [reflexivity|].
    split; [by apply list_lookup_insert_eq|reflexivity]. }
  intros Hg Ho Hb.
  assert (Hi : (i < length (goroutines wf))%nat) by by eapply lookup_lt_Some.
  assert (Ha : atomics (schedule i wf) = atomics wf).
  { by destruct (schedule_cases i wf) as [[_ ?]|(_ & _ & _ & ?)]. }
  unfold schedule in *. rewrite Hg in *. cbn [run_goroutine] in *.
  rewrite Ho, Hb in *.
  cbn [trace listeners _once goroutines] in *.
  split; [reflexivity|]. split; [reflexivity|]. split; [reflexivity|].
  split; [by apply list_lookup_insert_eq|].
  intros lc0 sched0. rewrite Build_racing_outcome. by apply Build_outcome.
Qed.

Lemma control_endpoint_starts_once_witness :
  ((bind_attempts (run racing_actions initial_world) <= 1)%nat /\
   (length (listeners (run racing_actions initial_world)) <= 1)%nat) /\
  (listeners (run racing_actions started_world) = listeners started_world /\
   occupied (run racing_actions started_world) = occupied started_world /\
   bind_attempts (run racing_actions started_world) = bind_attempts started_world /\
   _once (run racing_actions started_world) = _once started_world) /\
  (listeners (schedule 1 (run [CallBuild (server_config 8080) [];
                               CallBuild (server_config 8081) []] warn_world)) =
     [(8081, Some 1%positive)]) /\
  (trace (schedule 0 busy_port_world) =
     trace busy_port_world ++ [EvListenFailed (http.addr 8080);
                               EvGlobalError "init log server start failed"
                                 (http.listen_failure 8080)] /\
   listeners (schedule 0 busy_port_world) = listeners busy_port_world /\
   _once (schedule 0 busy_port_world) = sync.Done /\
   goroutines (schedule 0 busy_port_world) !! 0%nat = Some Returned /\
   forall lc0 sched0,
     fst (Build_racing lc0 sched0 (schedule 0 busy_port_world)) =
     fst (Build lc0 busy_port_world)).
Proof.
  destruct (control_endpoint_starts_once racing_actions started_world
              (run [CallBuild (server_config 8080) [];
                    CallBuild (server_config 8081) []] warn_world)
              busy_port_world (server_config 8082) 8082
              1%nat 8081 (Some 1%positive)
              0%nat 8080 (Some 1%positive)) as (H1 & H2 & _ & H3 & H4).
  split; [exact H1|]. split; [|split].
  - apply H2. vm_compute. discriminate.
  - destruct H3 as (H3 & _); [vm_compute; reflexivity..|].
    rewrite H3. vm_compute. reflexivity.
  - apply H4; reflexivity.
Defined.

(** C6, as the claim has it, fails: a second start is not always a no-op.
    After two Builds with ports 8080 and 8081, when the scheduler runs the
    goroutine of the second Build first, the process listens on 8081;
    without the second Build the same schedule lets it listen on 8080. *)
Lemma second_start_is_not_a_no_op :
  listeners second_wins_world = [(8081, Some 1%positive)] /\
  listeners first_only_world = [(8080, Some 1%positive)] /\
  listeners second_wins_world <> listeners first_only_world.
Proof.
  assert (H2 : listeners second_wins_world = [(8081, Some 1%positive)])
    by (vm_compute; reflexivity).
  assert (H1 : listeners first_only_world = [(8080, Some 1%positive)])
    by (vm_compute; reflexivity).
  split; [exact H2|]. split; [exact H1|].
  rewrite H1, H2. discriminate.
Qed.

(** Two Builds with a port, the goroutine of the second scheduled first:
    the second call's listener is the only one, and the first call's
    goroutine is left waiting at the Once. *)
Example second_start_can_win :
  goroutines second_wins_world =
    [AtOnceDo 8080 (Some 1%positive); Serving 8081 (Some 1%positive)] /\
  _once second_wins_world = sync.Running.
Proof. vm_compute. repeat split. Qed.

(** A number that is not a port: ListenAndServe refuses it, whatever ports
    are free. *)
Example no_such_port :
  http.can_bind 70000 no_such_port_world = false /\
  http.can_bind (-5) no_such_port_world = false /\
  trace (schedule 0 no_such_port_world) =
    [EvListenFailed "127.0.0.1:70000";
     EvGlobalError "init log server start failed" (invalid_port "127.0.0.1:70000")] /\
  listeners (schedule 0 no_such_port_world) = [].
Proof. vm_compute. repeat split. Qed.

(** * Later starts of the endpoint *)

Lemma perform_while_serving (act : Action) (w : World) (i : nat) (p : Z)
    (h : option positive) :
  _once w = sync.Running ->
  goroutines w !! i = Some (AtOnceDo p h) ->
  _once (perform w act) = sync.Running /\
  goroutines (perform w act) !! i = Some (AtOnceDo p h).
Proof.
  intros Ho Hg. destruct act as [lc sched|lc port|j]; cbn [perform].
  - destruct (Build_racing_world lc sched w)
      as (w0 & sched' & evs & evs0 & more & -> & _ & _ & _ & H1 & _ & _ & H4).
    rewrite run_schedule_while_serving by congruence.
    cbn [_once goroutines emit]. rewrite H1, H4.
    split; [exact Ho|]. by apply lookup_app_l_Some.
  - split; [exact Ho|]. cbn. by apply lookup_app_l_Some.
  - rewrite schedule_while_serving by exact Ho. by split.
Qed.

(** X22. While the endpoint is serving, the goroutine of any later start
    never gets past the Once: whatever is built, started or scheduled
    afterwards, it is still waiting there, and the Once is still held. *)
Theorem later_starts_wait_forever (actions : list Action) (w : World)
    (i : nat) (p : Z) (h : option positive) :
  _once w = sync.Running ->
  goroutines w !! i = Some (AtOnceDo p h) ->
  _once (run actions w) = sync.Running /\
  goroutines (run actions w) !! i = Some (AtOnceDo p h).
Proof.
  unfold run. revert w.
  induction actions as [|act actions IH]; intros w Ho Hg; [by split|].
  cbn [fold_left].
  destruct (perform_while_serving act w i p h Ho Hg) as [Ho' Hg'].
  by apply IH.
Qed.

Lemma later_starts_wait_forever_witness :
  _once (run racing_actions second_wins_world) = sync.Running /\
  goroutines (run racing_actions second_wins_world) !! 0%nat =
    Some (AtOnceDo 8080 (Some 1%positive)).
Proof.
  apply (later_starts_wait_forever racing_actions second_wins_world
           0%nat 8080 (Some 1%positive)).
  - vm_compute. reflexivity.
  - vm_compute. reflexivity.
Defined.

(** * The message of the control endpoint *)

Lemma listen_event_not_write (evs : list Event) (c : zapcore.ioCore)
    (ent : zapcore.Entry) :
  Forall (fun e => is_listen_event e = true) evs -> EvWrite c ent ∉ evs.
Proof.
  intros H Hin. rewrite Forall_forall in H. specialize (H _ Hin). discriminate.
Qed.

(** X4. With a port set and a level, Build logs its success message at
    "info" through the new logger after it has started the goroutine of the
    endpoint and without waiting for it: whatever the goroutines do in the
    meantime (nothing yet, bind the port, fail to bind it), Build returns
    the logger, the started goroutine is there, and a core writes the
    message exactly when it is a core of the logger that is enabled for
    "info"; the primary core does exactly when the gate is at or below
    "info". *)
Theorem Build_logs_server_message (lc : Config) (sched : list nat) (w : World)
    (a : positive) :
  valid_mode lc ->
  0 < Port lc ->
  Level lc = Some a ->
  exists w',
    Build_racing lc sched w = (Ok (built_logger lc w), built_config lc w, w') /\
    atomics w' = atomics_after_report lc w /\
    is_Some (goroutines w' !! length (goroutines w)) /\
    (forall c,
       delivered c {| zapcore.Entry_Level := zapcore.InfoLevel;
                      zapcore.Message := server_message lc |} w w' <->
       c ∈ zapcore.cores_of (zap.core (built_logger lc w)) /\
       enabled_now (atomics w') zapcore.InfoLevel c = true) /\
    (delivered (with_project lc (primary_core lc))
       {| zapcore.Entry_Level := zapcore.InfoLevel;
          zapcore.Message := server_message lc |} w w' <->
     gate_value (atomics w') a <= zapcore.InfoLevel).
Proof.
  intros Hv Hp Ha.
  destruct (Build_racing_normal lc sched w Hv)
    as (w1 & Ht & Hat & H1 & H2 & H3 & H4 & Heq).
  rewrite Heq. apply Z.ltb_lt in Hp. rewrite Hp.
  assert (Hr : Forall readable
                 (zapcore.cores_of (zap.core (zap.Sugar (built_logger lc w))))).
  { change (zap.core (zap.Sugar ?l)) with (zap.core l).
    rewrite built_logger_cores. by apply (built_cores_readable lc w a). }
  rewrite (Infof_readable _ _ _ Hr). cbn [mbind result_bind].
  change (zap.core (zap.Sugar ?l)) with (zap.core l).
  set (X := run_schedule sched (spawn (AtOnceDo (Port lc) (Level lc)) w1)).
  destruct (run_schedule_step sched (spawn (AtOnceDo (Port lc) (Level lc)) w1))
    as [_ HXa].
  destruct (run_schedule_trace sched (spawn (AtOnceDo (Port lc) (Level lc)) w1))
    as (fs & HXt & Hfs & HXg).
  fold X in HXa, HXt, HXg. cbn [atomics trace goroutines spawn] in HXa, HXt, HXg.
  eexists. split; [reflexivity|].
  cbn [atomics trace goroutines emit].
  split; [congruence|].
  split.
  { apply lookup_lt_is_Some. rewrite HXg, H4, length_app. cbn. lia. }
  assert (Hd : forall c,
    delivered c {| zapcore.Entry_Level := zapcore.InfoLevel;
                   zapcore.Message := server_message lc |} w
      (emit (concat (map (zap.write_events
                            {| zapcore.Entry_Level := zapcore.InfoLevel;
                               zapcore.Message := server_message lc |})
                       (filter (fun c => enabled_now (atomics X) zapcore.InfoLevel c = true)
                          (zapcore.cores_of (zap.core (built_logger lc w)))))) X) <->
    c ∈ zapcore.cores_of (zap.core (built_logger lc w)) /\
    enabled_now (atomics X) zapcore.InfoLevel c = true).
  { intros c. unfold delivered. cbn [trace emit].
    rewrite HXt, Ht, <- !app_assoc. split.
    - intros (evs & Heqv & Hin). apply app_inv_head in Heqv. subst evs.
      apply elem_of_app in Hin as [Hin|Hin].
      { apply list_elem_of_fmap in Hin as (ws & Hws & _). discriminate. }
      apply elem_of_app in Hin as [Hin|Hin].
      { by apply listen_event_not_write in Hin. }
      apply write_events_elem, list_elem_of_filter in Hin as [He Hc].
      by split.
    - intros [Hc He]. eexists. split; [reflexivity|].
      apply elem_of_app. right. apply elem_of_app. right.
      apply write_events_elem, list_elem_of_filter. by split. }
  split; [exact Hd|].
  rewrite Hd, built_logger_cores.
  unfold enabled_now, zapcore.ioCore_Enabled.
  rewrite with_project_enabler.
  cbn [primary_core zapcore.enabler]. rewrite Ha. cbn.
  unfold gate_value. split.
  - intros [_ He]. by apply Z.leb_le in He.
  - intros Hg. split; [|by apply Z.leb_le].
    unfold built_cores. cbn [app map]. apply list_elem_of_here.
Qed.

Lemma Build_logs_server_message_witness :
  exists w',
    Build_racing (server_config 8080) [1%nat] busy_port_world =
      (Ok (built_logger (server_config 8080) busy_port_world),
       built_config (server_config 8080) busy_port_world, w') /\
    atomics w' = atomics_after_report (server_config 8080) busy_port_world /\
    is_Some (goroutines w' !! length (goroutines busy_port_world)) /\
    (forall c,
       delivered c {| zapcore.Entry_Level := zapcore.InfoLevel;
                      zapcore.Message := server_message (server_config 8080) |}
         busy_port_world w' <->
       c ∈ zapcore.cores_of
             (zap.core (built_logger (server_config 8080) busy_port_world)) /\
       enabled_now (atomics w') zapcore.InfoLevel c = true) /\
    (delivered (with_project (server_config 8080) (primary_core (server_config 8080)))
       {| zapcore.Entry_Level := zapcore.InfoLevel;
          zapcore.Message := server_message (server_config 8080) |}
       busy_port_world w' <->
     gate_value (atomics w') 1%positive <= zapcore.InfoLevel).
Proof.
  apply (Build_logs_server_message (server_config 8080) [1%nat] busy_port_world
           1%positive).
  - left. reflexivity.
  - reflexivity.
  - reflexivity.
Defined.

(** In that run the goroutine of the Build has already failed to bind the
    port when the message is logged. *)
Example Build_logs_after_a_failed_bind :
  _once (snd (Build_racing (server_config 8080) [1%nat] busy_port_world)) = sync.Done /\
  goroutines (snd (Build_racing (server_config 8080) [1%nat] busy_port_world)) =
    [AtOnceDo 8080 (Some 1%positive); Returned] /\
  fst (Build_racing (server_config 8080) [1%nat] busy_port_world) =
    fst (Build (server_config 8080) busy_port_world).
Proof. vm_compute. repeat split. Qed.

(** * Building twice *)

Lemma constructed_sinks_rebuilt (lc : Config) (w w1 : World) :
  constructed_sinks (built_config lc w) w1 = constructed_sinks lc w.
Proof.
  destruct lc as [name level stack addc ship mode fname ename msz mage mbk
                    async json compress console color port rc opts].
  unfold built_config, constructed_sinks, after_report, set_options,
    report_gate, has_error_sink, has_console_also, primary_destination,
    rotating_file.
  by destruct rc as [[[a|]]|].
Qed.

Lemma constructed_sinks_not_nil (lc : Config) (w : World) :
  constructed_sinks lc w <> [].
Proof.
  unfold constructed_sinks.
  destruct (String.eqb (Mode lc) _console); [discriminate|].
  destruct (negb _); discriminate.
Qed.

(** X7. Building again on the same receiver goes through the same
    constructions once more: every sink of the first call is constructed a
    second time, made the same way, so that the two loggers write through
    sinks of their own.  What the two loggers share is their gates: core by
    core the level enablers are the same (the main gate, the constant
    "error", and the report gate that the first call stored), and the
    second call allocates no gate and leaves ReportConfig as it is. *)
Theorem Build_twice_shares_gates (lc : Config) (w : World)
    (l1 : zap.Logger) (lc1 : Config) (w1 : World)
    (l2 : zap.Logger) (lc2 : Config) (w2 : World) :
  Build lc w = (Ok l1, lc1, w1) ->
  Build lc1 w1 = (Ok l2, lc2, w2) ->
  map zapcore.enabler (zapcore.cores_of (zap.core l2)) =
    map zapcore.enabler (zapcore.cores_of (zap.core l1)) /\
  atomics w2 = atomics w1 /\
  ReportConfig lc2 = ReportConfig lc1 /\
  sinks_constructed w1 =
    sinks_constructed w ++ map EvNewSink (constructed_sinks lc w) /\
  sinks_constructed w2 =
    sinks_constructed w1 ++ map EvNewSink (constructed_sinks lc w) /\
  constructed_sinks lc w <> [].
Proof.
  intros H1 H2.
  destruct (Build_Ok _ _ _ _ _ H1) as (Hv1 & Hlc1 & _ & Hc1).
  destruct (Build_Ok _ _ _ _ _ H2) as (Hv2 & Hlc2 & _ & Hc2).
  pose proof (Build_Ok_atomics _ _ _ _ _ H2) as Ha2.
  pose proof (Build_sinks_constructed lc w Hv1) as Hs1.
  pose proof (Build_sinks_constructed lc1 w1 Hv2) as Hs2.
  rewrite H1 in Hs1. rewrite H2 in Hs2. cbn [snd] in Hs1, Hs2.
  change (set_options (options lc ++ new_options lc) (after_report lc w))
    with (built_config lc w) in Hlc1.
  subst lc1.
  destruct (built_cores_rebuilt lc w w1) as (Hb & Hat & Har & Hn).
  rewrite constructed_sinks_rebuilt in Hs2.
  split.
  { rewrite Hc2, Hc1, Hb, <- !list_fmap_compose. apply map_ext. intros c.
    cbn. by rewrite !with_project_enabler. }
  split; [by rewrite Ha2, Hat|].
  split; [rewrite Hlc2, Har; reflexivity|].
  split; [exact Hs1|]. split; [exact Hs2|].
  apply constructed_sinks_not_nil.
Qed.

Lemma Build_twice_shares_gates_witness :
  map zapcore.enabler
      (zapcore.cores_of (zap.core (built_logger file_config_built file_world_built))) =
    map zapcore.enabler (zapcore.cores_of (zap.core file_logger)) /\
  atomics (snd (Build file_config_built file_world_built)) = atomics file_world_built /\
  ReportConfig (built_config file_config_built file_world_built) =
    ReportConfig file_config_built /\
  sinks_constructed file_world_built =
    sinks_constructed warn_world ++
    map EvNewSink (constructed_sinks file_config warn_world) /\
  sinks_constructed (snd (Build file_config_built file_world_built)) =
    sinks_constructed file_world_built ++
    map EvNewSink (constructed_sinks file_config warn_world) /\
  constructed_sinks file_config warn_world <> [].
Proof.
  apply (Build_twice_shares_gates file_config warn_world
           file_logger file_config_built file_world_built
           (built_logger file_config_built file_world_built)
           (built_config file_config_built file_world_built)
           (snd (Build file_config_built file_world_built))).
  - vm_compute. reflexivity.
  - vm_compute. reflexivity.
Defined.

(** The file configuration constructs six sinks, twelve after the second
    Build. *)
Example Build_twice_constructs_twelve_sinks :
  length (sinks_constructed file_world_built) = 6%nat /\
  length (sinks_constructed (snd (Build file_config_built file_world_built))) = 12%nat.
Proof. vm_compute. split; reflexivity. Qed.

(** * The time encoder *)

Lemma Format_civil (t : time_format.Time) :
  civil t ->
  time_format.Format t "2006-01-02-15:04:05" = Some (pattern_YYYY_MM_DD_hh_mm_ss t).
Proof.
  intros (Hy & Hmo & Hd & Hh & Hmi & Hs).
  unfold time_format.Format. cbn -[time_format.appendInt].
  rewrite appendInt_four_digits by lia.
  rewrite !appendInt_two_digits by lia.
  reflexivity.
Qed.

(** C9. Amended: for every time whose year is between 0 and 9999 (month,
    day, hour, minute and second being what a time.Time has), and every
    array encoder, CustomTimeEncoder appends one string, the time in the
    pattern YYYY-MM-DD-hh:mm:ss: four digits of the year, two each of the
    month, the day, the hour of the 24-hour clock, the minute and the
    second, zero-padded, with "-" after the year, the month and the day and
    ":" after the hour and the minute, nineteen characters in all.  The
    layout is a constant of the function. *)
Theorem CustomTimeEncoder_fixed_pattern (t : time_format.Time) (enc : list string) :
  civil t ->
  CustomTimeEncoder t enc = Some (enc ++ [pattern_YYYY_MM_DD_hh_mm_ss t]) /\
  String.length (pattern_YYYY_MM_DD_hh_mm_ss t) = 19%nat.
Proof.
  intros Hc. unfold CustomTimeEncoder. rewrite (Format_civil t Hc).
  split; reflexivity.
Qed.

Lemma CustomTimeEncoder_fixed_pattern_witness :
  CustomTimeEncoder afternoon [] = Some ([] ++ [pattern_YYYY_MM_DD_hh_mm_ss afternoon]) /\
  String.length (pattern_YYYY_MM_DD_hh_mm_ss afternoon) = 19%nat.
Proof.
  apply (CustomTimeEncoder_fixed_pattern afternoon []).
  unfold civil. cbn. lia.
Defined.

(** C9, as the claim has it, fails for a time whose year has five digits:
    the year is printed in full, the string has twenty characters, and it
    is not the pattern. *)
Lemma a_year_of_five_digits_breaks_the_pattern :
  CustomTimeEncoder far_future [] = Some ["12345-03-07-15:04:05"] /\
  String.length "12345-03-07-15:04:05" = 20%nat /\
  CustomTimeEncoder far_future [] <> Some [pattern_YYYY_MM_DD_hh_mm_ss far_future].
Proof.
  assert (H : CustomTimeEncoder far_future [] = Some ["12345-03-07-15:04:05"])
    by reflexivity.
  split; [exact H|]. split; [reflexivity|].
  rewrite H. vm_compute. discriminate.
Qed.

(** The timestamps themselves; a year before year 0 gets a sign. *)
Example CustomTimeEncoder_afternoon :
  CustomTimeEncoder afternoon [] = Some ["2024-03-07-15:04:05"] /\
  pattern_YYYY_MM_DD_hh_mm_ss afternoon = "2024-03-07-15:04:05" /\
  CustomTimeEncoder before_year_zero [] = Some ["-0001-03-07-15:04:05"].
Proof. repeat split. Qed.

(** * Timestamps can be read back *)

Lemma read2_two_digits (x : Z) :
  0 <= x < 100 -> read2 (decimal_digit (x / 10)) (decimal_digit x) = x.
Proof.
  intros Hx. apply Z.eqb_eq.
  apply (below_forallb
           (fun x => read2 (decimal_digit (x / 10)) (decimal_digit x) =? x)
           100); [vm_compute; reflexivity|lia].
Qed.

Lemma read4_four_digits (x : Z) :
  0 <= x < 10000 ->
  read4 (decimal_digit (x / 1000)) (decimal_digit (x / 100))
        (decimal_digit (x / 10)) (decimal_digit x) = x.
Proof.
  intros Hx. apply Z.eqb_eq.
  apply (below_forallb
           (fun x => read4 (decimal_digit (x / 1000)) (decimal_digit (x / 100))
                       (decimal_digit (x / 10)) (decimal_digit x) =? x)
           10000); [vm_compute; reflexivity|lia].
Qed.

Lemma read_pattern_pattern (t : time_format.Time) :
  civil t -> read_pattern (pattern_YYYY_MM_DD_hh_mm_ss t) = Some (date_and_clock t).
Proof.
  intros (Hy & Hmo & Hd & Hh & Hmi & Hs).
  unfold pattern_YYYY_MM_DD_hh_mm_ss, four_digits, two_digits. cbn [read_pattern].
  rewrite read4_four_digits by lia.
  rewrite !read2_two_digits by lia.
  reflexivity.
Qed.

(** X20. For times with a year between 0 and 9999, the string the time
    encoder appends has nineteen characters and reads back, field by field,
    to the date and the clock reading of the time it came from.  So two
    such times get the same timestamp exactly when they agree on year,
    month, day, hour, minute and second: the nanoseconds and the zone of a
    time do not show in its timestamp. *)
Theorem timestamps_read_back (t1 t2 : time_format.Time) (enc : list string) :
  civil t1 -> civil t2 ->
  (exists s,
     CustomTimeEncoder t1 enc = Some (enc ++ [s]) /\
     String.length s = 19%nat /\
     read_pattern s = Some (date_and_clock t1)) /\
  (CustomTimeEncoder t1 enc = CustomTimeEncoder t2 enc <->
   date_and_clock t1 = date_and_clock t2).
Proof.
  intros H1 H2. unfold CustomTimeEncoder.
  rewrite (Format_civil t1 H1), (Format_civil t2 H2). cbn [mbind option_bind].
  split.
  - eexists. split; [reflexivity|].
    split; [reflexivity|by apply read_pattern_pattern].
  - split.
    + intros Heq.
      pose proof (read_pattern_pattern t1 H1) as R1.
      pose proof (read_pattern_pattern t2 H2) as R2.
      remember (pattern_YYYY_MM_DD_hh_mm_ss t1) as s1 eqn:E1.
      remember (pattern_YYYY_MM_DD_hh_mm_ss t2) as s2 eqn:E2.
      injection Heq as Heq. apply app_inv_head in Heq.
      injection Heq as Heq. congruence.
    + intros Heq. unfold date_and_clock in Heq.
      injection Heq as Hy Hmo Hd Hh Hmi Hs.
      unfold pattern_YYYY_MM_DD_hh_mm_ss. by rewrite Hy, Hmo, Hd, Hh, Hmi, Hs.
Qed.

Lemma timestamps_read_back_witness :
  (exists s,
     CustomTimeEncoder afternoon [] = Some ([] ++ [s]) /\
     String.length s = 19%nat /\
     read_pattern s = Some (date_and_clock afternoon)) /\
  (CustomTimeEncoder afternoon [] = CustomTimeEncoder afternoon_elsewhere [] <->
   date_and_clock afternoon = date_and_clock afternoon_elsewhere).
Proof.
  apply (timestamps_read_back afternoon afternoon_elsewhere []);
    unfold civil; cbn; lia.
Defined.

(** Two times that differ in their nanoseconds and their zone, with one
    timestamp; a time of the night has another. *)
Example one_timestamp_for_two_times :
  afternoon <> afternoon_elsewhere /\
  CustomTimeEncoder afternoon [] = CustomTimeEncoder afternoon_elsewhere [] /\
  CustomTimeEncoder afternoon [] <> CustomTimeEncoder night [].
Proof.
  split; [discriminate|]. split; [reflexivity|].
  vm_compute. discriminate.
Qed.

(** * The latency of a request line *)

Lemma append_assoc (a b c : string) : (a +:+ b) +:+ c = a +:+ (b +:+ c).
Proof.
  induction a as [|x a IH]; [reflexivity|].
  change (String x ((a +:+ b) +:+ c) = String x (a +:+ (b +:+ c))). by rewrite IH.
Qed.

Lemma decimal_digit_cases (v : Z) :
  (v mod 10 = 0 /\ decimal_digit v = "0"%char) \/
  (v mod 10 <> 0 /\ decimal_digit v <> "0"%char).
Proof.
  unfold decimal_digit.
  pose proof (Z.mod_pos_bound v 10 ltac:(lia)) as Hb.
  assert (H : v mod 10 = 0 \/ v mod 10 = 1 \/ v mod 10 = 2 \/ v mod 10 = 3 \/
              v mod 10 = 4 \/ v mod 10 = 5 \/ v mod 10 = 6 \/ v mod 10 = 7 \/
              v mod 10 = 8 \/ v mod 10 = 9) by lia.
  destruct H as [H|[H|[H|[H|[H|[H|[H|[H|[H|H]]]]]]]]]; rewrite H;
    [left; by split|right; split; [lia|discriminate]..].
Qed.

Lemma digit_decimal_digit (v : Z) : duration.digit v = decimal_digit v.
Proof.
  unfold duration.digit, decimal_digit.
  pose proof (Z.mod_pos_bound v 10 ltac:(lia)) as Hb.
  assert (H : v mod 10 = 0 \/ v mod 10 = 1 \/ v mod 10 = 2 \/ v mod 10 = 3 \/
              v mod 10 = 4 \/ v mod 10 = 5 \/ v mod 10 = 6 \/ v mod 10 = 7 \/
              v mod 10 = 8 \/ v mod 10 = 9) by lia.
  destruct H as [H|[H|[H|[H|[H|[H|[H|[H|[H|H]]]]]]]]]; rewrite H; reflexivity.
Qed.

Lemma low_digits_app (n : nat) (v : Z) (a b : string) :
  low_digits n v (a +:+ b) = low_digits n v a +:+ b.
Proof.
  revert v a. induction n as [|n IH]; intros v a; [reflexivity|].
  cbn [low_digits].
  change (String (decimal_digit v) (a +:+ b))
    with (String (decimal_digit v) a +:+ b).
  apply IH.
Qed.

Lemma without_trailing_zeros_nonzero (s : string) (c : ascii) :
  c <> "0"%char ->
  without_trailing_zeros (s +:+ String c "") = s +:+ String c "".
Proof.
  intros Hc. induction s as [|x s IH].
  - change (without_trailing_zeros (String c "") = String c "").
    cbn [without_trailing_zeros]. by apply Ascii.eqb_neq in Hc as ->.
  - change (without_trailing_zeros (String x (s +:+ String c "")) =
            String x (s +:+ String c "")).
    cbn [without_trailing_zeros]. rewrite IH.
    destruct s; reflexivity.
Qed.

Lemma without_trailing_zeros_zero (s : string) :
  without_trailing_zeros (s +:+ "0") = without_trailing_zeros s.
Proof.
  induction s as [|x s IH]; [reflexivity|].
  change (without_trailing_zeros (String x (s +:+ "0")) =
          without_trailing_zeros (String x s)).
  cbn [without_trailing_zeros]. by rewrite IH.
Qed.

Lemma pow10_succ (n : nat) (v : Z) :
  v / 10 / 10 ^ Z.of_nat n = v / 10 ^ Z.of_nat (S n).
Proof.
  rewrite Nat2Z.inj_succ, Z.pow_succ_r by lia.
  rewrite Z.div_div by lia. reflexivity.
Qed.

(** [fmtFrac] once a digit has been printed: all the digits. *)
Lemma fmtFrac_printing (n : nat) (v : Z) (buf : string) :
  duration.fmtFrac n v true buf =
  (String "." (low_digits n v buf), v / 10 ^ Z.of_nat n).
Proof.
  revert v buf. induction n as [|n IH]; intros v buf.
  - cbn [duration.fmtFrac low_digits]. by rewrite Z.div_1_r.
  - cbn [duration.fmtFrac low_digits orb].
    rewrite IH, digit_decimal_digit, pow10_succ. reflexivity.
Qed.

(** [fmtFrac] from the start: the digits without the zeros at their end,
    and no decimal point when nothing is left. *)
Lemma fmtFrac_fraction (n : nat) (v : Z) (buf : string) :
  duration.fmtFrac n v false buf =
  (match without_trailing_zeros (low_digits n v "") with
   | EmptyString => buf
   | String c r => String "." (String c r +:+ buf)
   end, v / 10 ^ Z.of_nat n).
Proof.
  revert v buf. induction n as [|n IH]; intros v buf.
  - cbn [duration.fmtFrac low_digits without_trailing_zeros]. by rewrite Z.div_1_r.
  - cbn [duration.fmtFrac low_digits orb].
    change (String (decimal_digit v) "") with ("" +:+ String (decimal_digit v) "").
    rewrite low_digits_app.
    destruct (decimal_digit_cases v) as [[Hz Hd]|[Hz Hd]].
    + rewrite Hz, Hd. cbn [Z.eqb negb].
      rewrite IH, without_trailing_zeros_zero, pow10_succ. reflexivity.
    + apply Z.eqb_neq in Hz. rewrite Hz. cbn [negb].
      rewrite fmtFrac_printing, digit_decimal_digit, pow10_succ.
      rewrite without_trailing_zeros_nonzero by exact Hd.
      change (String (decimal_digit v) buf)
        with ("" +:+ String (decimal_digit v) buf).
      rewrite low_digits_app.
      destruct (low_digits n (v / 10) "") as [|c r]; [reflexivity|].
      change (String c r +:+ String (decimal_digit v) "")
        with (String c (r +:+ String (decimal_digit v) "")).
      cbv iota. f_equal. f_equal.
      change (String c (r +:+ String (decimal_digit v) buf) =
              String c ((r +:+ String (decimal_digit v) "") +:+ buf)).
      rewrite append_assoc. reflexivity.
Qed.

(** From one second to one minute Go writes a duration as its seconds with
    their fraction. *)
Lemma String_below_a_minute (d : time.Duration) :
  time.Second <= d < time.Minute ->
  duration.String d =
  duration.fmtInt (d / time.Second) +:+ fraction_of_second d +:+ "s".
Proof.
  assert (Hsec : time.Second = 1000000000) by reflexivity.
  assert (Hmin : time.Minute = 60000000000) by reflexivity.
  rewrite Hmin. intros Hd. unfold duration.String, fraction_of_second.
  rewrite Hsec in *.
  rewrite Z.abs_eq by lia.
  replace (d <? 1000000000) with false by (symmetry; apply Z.ltb_ge; lia).
  rewrite fmtFrac_fraction.
  change (10 ^ Z.of_nat 9) with 1000000000.
  assert (Hq : 1 <= d / 1000000000 < 60).
  { split; [apply Z.div_le_lower_bound; lia|apply Z.div_lt_upper_bound; lia]. }
  rewrite (Z.mod_small (d / 1000000000) 60) by lia.
  rewrite (Z.div_small (d / 1000000000) 60) by lia.
  change (0 <? 0) with false. cbv iota.
  replace (d <? 0) with false by (symmetry; apply Z.ltb_ge; lia).
  destruct (without_trailing_zeros (low_digits 9 d "")); reflexivity.
Qed.

Lemma LogFormatter_above (param : gin.LogFormatterParams) :
  time.Minute < gin.Latency param ->
  LogFormatter param =
  "[GIN] statusCode:" +:+ fmt_int (gin.StatusCode param) +:+
  " path:" +:+ gin.Path param +:+
  " method:" +:+ gin.Method param +:+
  " cost:" +:+ hours_minutes_seconds (gin.Latency param / time.Second) +:+
  " clientIp:" +:+ gin.ClientIP param.
Proof.
  intros Hlt. assert (Hmin : time.Minute = 60000000000) by reflexivity.
  unfold LogFormatter.
  replace (time.Minute <? gin.Latency param) with true
    by (symmetry; by apply Z.ltb_lt).
  cbn [gin.StatusCode gin.Path gin.Method gin.Latency gin.ClientIP].
  rewrite Truncate_whole_seconds by lia.
  unfold Sprintf_GIN. rewrite String_whole_seconds; [reflexivity|].
  change time.Second with 1000000000.
  apply Z.div_le_lower_bound; lia.
Qed.

Lemma LogFormatter_below (param : gin.LogFormatterParams) :
  gin.Latency param <= time.Minute ->
  LogFormatter param =
  "[GIN] statusCode:" +:+ fmt_int (gin.StatusCode param) +:+
  " path:" +:+ gin.Path param +:+
  " method:" +:+ gin.Method param +:+
  " cost:" +:+ duration.String (gin.Latency param) +:+
  " clientIp:" +:+ gin.ClientIP param.
Proof.
  intros Hle. unfold LogFormatter.
  replace (time.Minute <? gin.Latency param) with false
    by (symmetry; by apply Z.ltb_ge).
  reflexivity.
Qed.

(** C8. Amended: the formatter prints the request line with the latency cut
    down to whole seconds exactly when it is above one minute: the cost is
    then the hours (when there are any), the minutes and the seconds of the
    latency.  At one minute and below the latency is printed as it is: from
    one second on, its seconds with their fraction, to the nanosecond.  So a
    latency of 75 seconds and any fraction of a second is printed as the
    duration of exactly 75 seconds, which Go writes 1m15s (not 75s), a
    latency of 45 seconds is printed 45s, and one of 45 seconds and a half
    45.5s. *)
Theorem LogFormatter_truncates_above_a_minute
    (slow quick : gin.LogFormatterParams)
    (statusCode : Z) (path method clientIP : string) (frac : Z) :
  time.Minute < gin.Latency slow ->
  gin.Latency quick <= time.Minute ->
  0 <= frac < time.Second ->
  LogFormatter slow =
    "[GIN] statusCode:" +:+ fmt_int (gin.StatusCode slow) +:+
    " path:" +:+ gin.Path slow +:+
    " method:" +:+ gin.Method slow +:+
    " cost:" +:+ hours_minutes_seconds (gin.Latency slow / time.Second) +:+
    " clientIp:" +:+ gin.ClientIP slow /\
  LogFormatter quick =
    "[GIN] statusCode:" +:+ fmt_int (gin.StatusCode quick) +:+
    " path:" +:+ gin.Path quick +:+
    " method:" +:+ gin.Method quick +:+
    " cost:" +:+ duration.String (gin.Latency quick) +:+
    " clientIp:" +:+ gin.ClientIP quick /\
  (time.Second <= gin.Latency quick < time.Minute ->
   LogFormatter quick =
     "[GIN] statusCode:" +:+ fmt_int (gin.StatusCode quick) +:+
     " path:" +:+ gin.Path quick +:+
     " method:" +:+ gin.Method quick +:+
     " cost:" +:+ (duration.fmtInt (gin.Latency quick / time.Second) +:+
                   fraction_of_second (gin.Latency quick) +:+ "s") +:+
     " clientIp:" +:+ gin.ClientIP quick) /\
  LogFormatter {| gin.StatusCode := statusCode; gin.Path := path;
                  gin.Method := method; gin.Latency := 75 * time.Second + frac;
                  gin.ClientIP := clientIP |} =
    "[GIN] statusCode:" +:+ fmt_int statusCode +:+ " path:" +:+ path +:+
    " method:" +:+ method +:+ " cost:1m15s" +:+ " clientIp:" +:+ clientIP /\
  LogFormatter {| gin.StatusCode := statusCode; gin.Path := path;
                  gin.Method := method; gin.Latency := 45 * time.Second;
                  gin.ClientIP := clientIP |} =
    "[GIN] statusCode:" +:+ fmt_int statusCode +:+ " path:" +:+ path +:+
    " method:" +:+ method +:+ " cost:45s" +:+ " clientIp:" +:+ clientIP /\
  LogFormatter {| gin.StatusCode := statusCode; gin.Path := path;
                  gin.Method := method;
                  gin.Latency := 45 * time.Second + 500 * time.Millisecond;
                  gin.ClientIP := clientIP |} =
    "[GIN] statusCode:" +:+ fmt_int statusCode +:+ " path:" +:+ path +:+
    " method:" +:+ method +:+ " cost:45.5s" +:+ " clientIp:" +:+ clientIP.
Proof.
  intros Hslow Hquick Hfrac.
  assert (Hsec : time.Second = 1000000000) by reflexivity.
  assert (Hmin : time.Minute = 60000000000) by reflexivity.
  split; [by apply LogFormatter_above|].
  split; [by apply LogFormatter_below|].
  split.
  { intros Hq. rewrite LogFormatter_below by exact Hquick.
    by rewrite String_below_a_minute. }
  split.
  { rewrite LogFormatter_above
      by (cbn [gin.Latency]; lia).
    cbn [gin.StatusCode gin.Path gin.Method gin.Latency gin.ClientIP].
    replace ((75 * time.Second + frac) / time.Second) with 75; [reflexivity|].
    rewrite Z.add_comm, Z.div_add by lia.
    rewrite Z.div_small by lia. reflexivity. }
  split; reflexivity.
Qed.

Lemma LogFormatter_truncates_above_a_minute_witness :
  LogFormatter slow_request =
    "[GIN] statusCode:" +:+ fmt_int (gin.StatusCode slow_request) +:+
    " path:" +:+ gin.Path slow_request +:+
    " method:" +:+ gin.Method slow_request +:+
    " cost:" +:+ hours_minutes_seconds (gin.Latency slow_request / time.Second) +:+
    " clientIp:" +:+ gin.ClientIP slow_request /\
  LogFormatter quick_request =
    "[GIN] statusCode:" +:+ fmt_int (gin.StatusCode quick_request) +:+
    " path:" +:+ gin.Path quick_request +:+
    " method:" +:+ gin.Method quick_request +:+
    " cost:" +:+ (duration.fmtInt (gin.Latency quick_request / time.Second) +:+
                  fraction_of_second (gin.Latency quick_request) +:+ "s") +:+
    " clientIp:" +:+ gin.ClientIP quick_request /\
  LogFormatter {| gin.StatusCode := 200; gin.Path := "/ping"; gin.Method := "GET";
                  gin.Latency := 75 * time.Second + 123456789;
                  gin.ClientIP := "10.0.0.7" |} =
    "[GIN] statusCode:" +:+ fmt_int 200 +:+ " path:" +:+ "/ping" +:+
    " method:" +:+ "GET" +:+ " cost:1m15s" +:+ " clientIp:" +:+ "10.0.0.7".
Proof.
  destruct (LogFormatter_truncates_above_a_minute slow_request quick_request
              200 "/ping" "GET" "10.0.0.7" 123456789)
    as (H1 & _ & H3 & H4 & _).
  - reflexivity.
  - vm_compute. discriminate.
  - vm_compute. split; [discriminate|reflexivity].
  - split; [exact H1|]. split; [|exact H4].
    apply H3. vm_compute. split; [discriminate|reflexivity].
Defined.

(** C8, as the claim has it, fails on its own example: a latency of 75
    seconds is not printed 75s but 1m15s. *)
Lemma a_latency_of_75_seconds_is_printed_1m15s :
  gin.Latency slow_request = 75 * time.Second /\
  LogFormatter slow_request =
    "[GIN] statusCode:200 path:/ping method:GET cost:1m15s clientIp:10.0.0.7" /\
  LogFormatter slow_request <>
    "[GIN] statusCode:200 path:/ping method:GET cost:75s clientIp:10.0.0.7".
Proof.
  split; [reflexivity|].
  assert (H : LogFormatter slow_request =
              "[GIN] statusCode:200 path:/ping method:GET cost:1m15s clientIp:10.0.0.7")
    by reflexivity.
  split; [exact H|]. rewrite H. discriminate.
Qed.

(** The fraction of a second, on examples. *)
Example fraction_of_second_examples :
  fraction_of_second 45500000000 = ".5" /\
  fraction_of_second 45000000000 = "" /\
  fraction_of_second 45123456789 = ".123456789" /\
  fraction_of_second 1000001000 = ".000001".
Proof. repeat split. Qed.
